(** * Call queue system: job orchestration and call scheduling

    A shallow embedding of the queue manager, the call processor, the
    scheduler processor, the report generator, the bulk-enqueue route and
    the daily report script, followed by the properties proved about them.

    Conventions of the embedding:
    - a JavaScript [number] is an IEEE binary64 value ([float]);
    - an optional field ([x?: T]) is an [option];
    - instants are epoch milliseconds ([Z]); the ISO-8601 rendering the
      source stores and compares is order preserving, so comparisons of
      rendered instants are comparisons of the milliseconds; the local time
      zone has a fixed offset, so a calendar day is 86400000 ms;
    - asynchronous code is run to completion: a function of the source that
      returns a promise is a state transformer that returns or throws. *)

From Stdlib Require Import ZArith List String Ascii Bool Lia DecimalString.
From Stdlib Require Import PrimFloat Uint63 SpecFloat FloatOps FloatAxioms.
Import ListNotations.

#[local] Set Warnings "-inexact-float".

Local Open Scope string_scope.
Local Open Scope list_scope.
Local Open Scope Z_scope.

(* ================================================================== *)
(** ** JavaScript values and built-ins used by the sources *)
(* ================================================================== *)

Module JS.

Definition number := float.

(** A non-negative integer below 2^53 as a number. *)
Definition ofZ (z : Z) : number := PrimFloat.of_uint63 (Uint63.of_Z z).
Definition ofNat (n : nat) : number := ofZ (Z.of_nat n).

(** [ToBoolean] on a number: [+0], [-0] and [NaN] are falsy. *)
Definition truthy (x : number) : bool :=
  negb (PrimFloat.eqb x 0%float || PrimFloat.is_nan x).

(** [x || d] where [x] is an optional number. *)
Definition orNumber (x : option number) (d : number) : number :=
  match x with
  | Some v => if truthy v then v else d
  | None => d
  end.

(** [x || d] where [x] is an optional string (the empty string is
    falsy). *)
Definition orString (x : option string) (d : string) : string :=
  match x with
  | Some EmptyString => d
  | Some v => v
  | None => d
  end.

(** Interpolation of an optional string in a template literal. *)
Definition interpolate (x : option string) : string :=
  match x with
  | Some v => v
  | None => "undefined"
  end.

(** [s.includes(sub)] *)
Fixpoint includes (s sub : string) : bool :=
  String.prefix sub s ||
  match s with
  | EmptyString => false
  | String _ s' => includes s' sub
  end.

Definition lowerAscii (c : ascii) : ascii :=
  let n := nat_of_ascii c in
  if (Nat.leb 65 n && Nat.leb n 90)%bool then ascii_of_nat (n + 32) else c.

(** [s.toLowerCase()] on the ASCII letters.  No character outside ASCII
    lower-cases to a letter of ["voicemail"], the only string the sources
    compare a lower-cased value with. *)
Fixpoint toLowerCase (s : string) : string :=
  match s with
  | EmptyString => EmptyString
  | String c s' => String (lowerAscii c) (toLowerCase s')
  end.

(** [s.split(sep)] for a one-character separator. *)
Fixpoint split (sep : ascii) (s : string) : list string :=
  match s with
  | EmptyString => [EmptyString]
  | String c s' =>
      if Ascii.eqb c sep then EmptyString :: split sep s'
      else match split sep s' with
           | [] => [String c EmptyString]
           | h :: t => String c h :: t
           end
  end.

Definition isSpace (c : ascii) : bool :=
  let n := nat_of_ascii c in
  (Nat.leb 9 n && Nat.leb n 13)%bool || Nat.eqb n 32.

Fixpoint trimStart (s : string) : string :=
  match s with
  | EmptyString => EmptyString
  | String c s' => if isSpace c then trimStart s' else s
  end.

Fixpoint trimEnd (s : string) : string :=
  match s with
  | EmptyString => EmptyString
  | String c s' =>
      match trimEnd s' with
      | EmptyString => if isSpace c then EmptyString else String c EmptyString
      | t => String c t
      end
  end.

(** [s.trim()] on ASCII white space. *)
Definition trim (s : string) : string := trimEnd (trimStart s).

Definition isEmpty (s : string) : bool :=
  match s with EmptyString => true | _ => false end.

(** Value of a digit in the given radix. *)
Definition digitValue (radix : Z) (c : ascii) : option Z :=
  let n := Z.of_nat (nat_of_ascii c) in
  let v := if (48 <=? n) && (n <=? 57) then Some (n - 48)
           else if (97 <=? n) && (n <=? 122) then Some (n - 87)
           else if (65 <=? n) && (n <=? 90) then Some (n - 55)
           else None in
  match v with
  | Some d => if d <? radix then Some d else None
  | None => None
  end.

(** Longest prefix of digits, read left to right; [None] when the prefix
    is empty. *)
Fixpoint digits (radix : Z) (s : string) (acc : option Z) : option Z :=
  match s with
  | EmptyString => acc
  | String c s' =>
      match digitValue radix c with
      | Some d =>
          digits radix s' (Some (match acc with
                                 | Some a => a * radix + d
                                 | None => d
                                 end))
      | None => acc
      end
  end.

Definition stripHexPrefix (s : string) : option string :=
  match s with
  | String "0" (String "x" r) => Some r
  | String "0" (String "X" r) => Some r
  | _ => None
  end.

(** [parseInt(s)] without a radix; [None] is [NaN]. *)
Definition parseInt (s : string) : option Z :=
  let s1 := trimStart s in
  let '(sign, s2) :=
    match s1 with
    | String "-" r => (-1, r)
    | String "+" r => (1, r)
    | _ => (1, s1)
    end in
  let r :=
    match stripHexPrefix s2 with
    | Some r => digits 16 r None
    | None => digits 10 s2 None
    end in
  option_map (Z.mul sign) r.

(** [parseInt(xs[i])]: an index past the end reads [undefined], which
    parses to [NaN]. *)
Definition parseIntAt (xs : list string) (i : nat) : option Z :=
  match nth_error xs i with
  | Some s => parseInt s
  | None => None
  end.

(** The integer [n] of [x.toFixed(f)] for a finite [x >= 0] given as
    [m * 2^e]: the integer nearest to [x * 10^f], the larger one on a
    tie. *)
Definition toFixedUnits (f : Z) (m : positive) (e : Z) : Z :=
  if 0 <=? e then Z.pos m * 2 ^ e * 10 ^ f
  else (2 * Z.pos m * 10 ^ f + 2 ^ (- e)) / 2 ^ (1 - e).

(** A natural number in decimal, as a template literal prints it. *)
Definition natToString (n : nat) : string :=
  NilZero.string_of_uint (Nat.to_uint n).

Fixpoint zeros (k : nat) : string :=
  match k with O => EmptyString | S k' => String "0" (zeros k') end.

(** The decimal string of [n / 10^f] with [f] digits after the point. *)
Definition fixedPoint (f : nat) (n : Z) : string :=
  let ds := NilZero.string_of_uint (N.to_uint (Z.to_N n)) in
  let padded := (zeros (S f - String.length ds) ++ ds)%string in
  let k := (String.length padded - f)%nat in
  match f with
  | O => padded
  | _ => (substring 0 k padded ++ "." ++ substring k f padded)%string
  end.

(** [x.toFixed(f)] for a number of magnitude below [10^21]; beyond, where
    [toFixed] prints as [String(x)] does, the text is not rendered. *)
Definition toFixed (f : nat) (x : number) : string :=
  match Prim2SF x with
  | S754_nan => "NaN"
  | S754_infinity s => if s then "-Infinity" else "Infinity"
  | S754_zero _ => fixedPoint f 0
  | S754_finite s m e =>
      if PrimFloat.leb 1e21%float (PrimFloat.abs x) then EmptyString
      else
        let digits := fixedPoint f (toFixedUnits (Z.of_nat f) m e) in
        if s then String "-" digits else digits
  end.

(** [Number(x.toFixed(f))].  The decimal string denotes [n / 10^f]; while
    [n < 2^53] the quotient of the two numbers is its correctly rounded
    value.  Values of magnitude [10^21] and more print in full, and read
    back unchanged. *)
Definition numberToFixed (f : Z) (x : number) : number :=
  match Prim2SF x with
  | S754_nan => x
  | S754_infinity _ => x
  | S754_zero _ => 0%float
  | S754_finite s m e =>
      if PrimFloat.leb 1e21%float (PrimFloat.abs x) then x
      else
        let v := PrimFloat.div (ofZ (toFixedUnits f m e)) (ofZ (10 ^ f)) in
        if s then PrimFloat.opp v else v
  end.

(** [Math.trunc(x) === x]: [x] is an integer, or an infinity. *)
Definition isInteger (x : number) : bool :=
  match Prim2SF x with
  | S754_nan => false
  | S754_infinity _ => true
  | S754_zero _ => true
  | S754_finite _ m e =>
      if 0 <=? e then true else Z.pos m mod 2 ^ (- e) =? 0
  end.

(** The largest time value of a [Date], in milliseconds. *)
Definition maxTime : number := 8640000000000000%float.

(** [new Date(t)] is a valid date: [t] is a number within the range of
    the time values.  On any other, [toISOString()] throws a
    [RangeError]. *)
Definition validTime (t : number) : bool :=
  PrimFloat.leb (PrimFloat.abs t) maxTime.

End JS.

(* ================================================================== *)
(** ** Errors, outcomes and the effect monad *)
(* ================================================================== *)

(** A thrown value: the constructor name of the error object, its
    [message] and its [code] property. *)
Record JsError := {
  errName : string;
  message : option string;
  code : option string
}.

(** [new Error(msg)] *)
Definition newError (msg : string) : JsError :=
  {| errName := "Error"; message := Some msg; code := None |}.

(** The [RangeError] of [toISOString()] on an invalid date. *)
Definition invalidTimeValue : JsError :=
  {| errName := "RangeError"; message := Some "Invalid time value";
     code := None |}.

Inductive Outcome (A : Type) : Type :=
| Return (a : A)
| Throw (e : JsError).
Arguments Return {A} a.
Arguments Throw {A} e.

(* ================================================================== *)
(** ** Data model *)
(* ================================================================== *)

(** The broker (the BullMQ library), as far as the sources drive it, after
    the documented behaviour of its [Queue] and [Worker].  A queue is the
    list of its jobs in insertion order; the jobs of one state, in that
    order, are the broker's set of that state. *)
Module BullMQ.

Inductive BackoffType := exponential | fixed.

Record Backoff := { backoffType : BackoffType; backoffDelay : Z }.

Record JobsOptions := {
  priority : option JS.number;
  delay : option JS.number;
  attempts : option Z;
  backoff : option Backoff;
  removeOnComplete : option Z;
  removeOnFail : option Z
}.

(** [{}] *)
Definition noOptions : JobsOptions :=
  {| priority := None; delay := None; attempts := None; backoff := None;
     removeOnComplete := None; removeOnFail := None |}.

Definition override {A} (base over : option A) : option A :=
  match over with Some _ => over | None => base end.

(** [{ ...base, ...over }] *)
Definition spread (base over : JobsOptions) : JobsOptions :=
  {| priority := override (priority base) (priority over);
     delay := override (delay base) (delay over);
     attempts := override (attempts base) (attempts over);
     backoff := override (backoff base) (backoff over);
     removeOnComplete := override (removeOnComplete base) (removeOnComplete over);
     removeOnFail := override (removeOnFail base) (removeOnFail over) |}.

Inductive JobState := waiting | active | completed | failed | delayed.

Definition JobState_eqb (a b : JobState) : bool :=
  match a, b with
  | waiting, waiting | active, active | completed, completed
  | failed, failed | delayed, delayed => true
  | _, _ => false
  end.

Record Job (D : Type) := {
  id : nat;
  jobName : string;
  data : D;
  opts : JobsOptions;
  state : JobState;
  attemptsMade : Z;
  finishedOn : option Z
}.
Arguments id {D} _.
Arguments jobName {D} _.
Arguments data {D} _.
Arguments opts {D} _.
Arguments state {D} _.
Arguments attemptsMade {D} _.
Arguments finishedOn {D} _.

Definition Queue (D : Type) := list (Job D).

(** A job as [queue.add(name, data, opts)] creates it: the queue's default
    job options under the given ones, no attempt made, delayed when the
    delay is positive. *)
Definition newJob {D} (defaults : JobsOptions) (q : Queue D)
    (nm : string) (d : D) (o : JobsOptions) : Job D :=
  let merged := spread defaults o in
  {| id := List.length q;
     jobName := nm;
     data := d;
     opts := merged;
     state := match delay merged with
              | Some ms => if PrimFloat.ltb 0%float ms then delayed else waiting
              | None => waiting
              end;
     attemptsMade := 0;
     finishedOn := None |}.

(** [queue.add(name, data, opts)].  The sources call it with no
    priority, or with the priority of a job that is on the queue already
    (its own, or the one of its data, which it entered with): the broker
    accepted that priority when the job entered.  The validation of a
    priority is modelled in [addBulk], which is handed the priorities a
    request computes. *)
Definition add {D} (defaults : JobsOptions) (nm : string) (d : D)
    (o : JobsOptions) (q : Queue D) : Job D * Queue D :=
  let j := newJob defaults q nm d o in (j, q ++ [j]).

(** [PRIORITY_LIMIT] *)
Definition PRIORITY_LIMIT : JS.number := 2097152%float.

(** The check of the priority in [Job.validateOptions]: a priority that
    is set and not zero is an integer, at most [PRIORITY_LIMIT]. *)
Definition validatePriority (p : option JS.number) : option JsError :=
  match p with
  | Some v =>
      if JS.truthy v then
        if negb (JS.isInteger v) then
          Some (newError "Priority should not be float")
        else if PrimFloat.ltb PRIORITY_LIMIT v then
          Some (newError "Priority should be between 0 and 2097152")
        else None
      else None
  | None => None
  end.

(** [Job.validateOptions], as far as the options of the sources go. *)
Definition validateOptions (o : JobsOptions) : option JsError :=
  validatePriority (priority o).

(** The error of the first job whose options the broker refuses. *)
Fixpoint firstRefusal {D} (defaults : JobsOptions)
    (jobs : list (string * D * JobsOptions)) : option JsError :=
  match jobs with
  | [] => None
  | (_, _, o) :: rest =>
      match validateOptions (spread defaults o) with
      | Some e => Some e
      | None => firstRefusal defaults rest
      end
  end.

(** The pipeline of [addBulk]: the jobs are written in order. *)
Fixpoint addAll {D} (defaults : JobsOptions)
    (jobs : list (string * D * JobsOptions)) (q : Queue D)
  : list (Job D) * Queue D :=
  match jobs with
  | [] => ([], q)
  | (nm, d, o) :: rest =>
      let '(j, q1) := add defaults nm d o q in
      let '(js, q2) := addAll defaults rest q1 in
      (j :: js, q2)
  end.

(** [queue.addBulk(jobs)]: the options of the jobs are validated one by
    one before the pipeline that writes them runs, so a job the broker
    refuses leaves the queue as it was. *)
Definition addBulk {D} (defaults : JobsOptions)
    (jobs : list (string * D * JobsOptions)) (q : Queue D)
  : Outcome (list (Job D)) * Queue D :=
  match firstRefusal defaults jobs with
  | Some e => (Throw e, q)
  | None => let '(js, q') := addAll defaults jobs q in (Return js, q')
  end.

Definition inState {D} (s : JobState) (j : Job D) : bool :=
  JobState_eqb (state j) s.

(** [queue.getWaiting()], [getActive()], ... *)
Definition getJobs {D} (s : JobState) (q : Queue D) : list (Job D) :=
  filter (inState s) q.

(** A job is cleanable when it is in the given state and finished at
    least [grace] ms ago. *)
Definition cleanable {D} (now grace : Z) (s : JobState) (j : Job D) : bool :=
  inState s j &&
  match finishedOn j with
  | Some t => t <=? now - grace
  | None => false
  end.

(** Removes the first [limit] cleanable jobs; the rest stay. *)
Fixpoint cleanUpTo {D} (now grace : Z) (s : JobState) (limit : nat)
    (q : Queue D) : Queue D :=
  match q with
  | [] => []
  | j :: rest =>
      if cleanable now grace s j then
        match limit with
        | O => j :: rest
        | S k => cleanUpTo now grace s k rest
        end
      else j :: cleanUpTo now grace s limit rest
  end.

(** [queue.clean(grace, limit, type)]; a [limit] of 0 is no limit. *)
Definition clean {D} (now grace : Z) (limit : nat) (s : JobState)
    (q : Queue D) : Queue D :=
  match limit with
  | O => filter (fun j => negb (cleanable now grace s j)) q
  | _ => cleanUpTo now grace s limit q
  end.

(** The type [clean] sweeps when the caller gives none. *)
Definition cleanDefaultType : JobState := completed.

(** What the worker does with a job once its processor settled:
    [attemptsMade] counts the attempt that just ended.  A thrown error
    sends the job back with a backoff delay while attempts remain, unless
    it is an [UnrecoverableError]. *)
Inductive Settlement :=
| MoveToCompleted
| RetryAfter (ms : Z)
| MoveToFailed.

Definition backoffAfter (b : option Backoff) (attemptsMade : Z) : Z :=
  match b with
  | Some {| backoffType := exponential; backoffDelay := d |} =>
      2 ^ (attemptsMade - 1) * d
  | Some {| backoffType := fixed; backoffDelay := d |} => d
  | None => 0
  end.

Definition isUnrecoverable (e : JsError) : bool :=
  String.eqb (errName e) "UnrecoverableError".

Definition settle {A} (o : JobsOptions) (attemptsMade : Z)
    (r : Outcome A) : Settlement :=
  match r with
  | Return _ => MoveToCompleted
  | Throw e =>
      let limit := match attempts o with Some n => n | None => 1 end in
      if (attemptsMade <? limit) && negb (isUnrecoverable e)
      then RetryAfter (backoffAfter (backoff o) attemptsMade)
      else MoveToFailed
  end.

End BullMQ.

(** [queues/config.ts]: the payload of a call job and the default job
    options every queue is created with. *)
Module Config.

Record Contact := { name : string; number : string }.

(** A value of the free-form [metadata] of a job. *)
Inductive MetaValue :=
| MetaString (s : string)
| MetaInstant (t : Z).

Record JobData := {
  userId : string;
  assistantId : string;
  contact : Contact;
  priority : option JS.number;
  delay : option JS.number;
  metadata : option (list (string * MetaValue))
}.

(** [DEFAULT_JOB_OPTIONS] *)
Definition DEFAULT_JOB_OPTIONS : BullMQ.JobsOptions :=
  {| BullMQ.priority := None;
     BullMQ.delay := None;
     BullMQ.attempts := Some 3;
     BullMQ.backoff :=
       Some {| BullMQ.backoffType := BullMQ.exponential;
               BullMQ.backoffDelay := 5000 |};
     BullMQ.removeOnComplete := Some 100;
     BullMQ.removeOnFail := Some 50 |}.

(** [QUEUE_OPTIONS.defaultJobOptions] *)
Definition defaultJobOptions : BullMQ.JobsOptions := DEFAULT_JOB_OPTIONS.

End Config.

(** [models/User]: the fields the sources read. *)
Module User.

Record TwilioConfig := {
  sid : option string;
  authToken : option string;
  phoneNumber : option string
}.

Record SlotData := {
  assistantId : string;
  callTimeStart : string;
  callTimeEnd : string
}.

(** An object used as a map, with its entries in [Object.entries] order. *)
Definition DaySchedule := list (string * SlotData).
Definition WeeklySchedule := list (string * DaySchedule).

Record IUser := {
  _id : string;
  clerkId : string;
  twilioConfig : option TwilioConfig;
  weeklySchedule : option WeeklySchedule
}.

(** [obj[key]] on an object whose keys are distinct. *)
Fixpoint lookup {A} (key : string) (obj : list (string * A)) : option A :=
  match obj with
  | [] => None
  | (k, v) :: rest => if String.eqb k key then Some v else lookup key rest
  end.

(** [user.weeklySchedule?.[day]] *)
Definition scheduleOf (u : IUser) (day : string) : option DaySchedule :=
  match weeklySchedule u with
  | Some ws => lookup day ws
  | None => None
  end.

(** [User.findById(id)] on the collection. *)
Definition findById (uid : string) (users : list IUser) : option IUser :=
  find (fun u => String.eqb (_id u) uid) users.

End User.

(** [models/callQueueDone]: one document per dispatch attempt. *)
Module CallQueueDone.

Inductive Status := pending_initiation | initiated | failed.

Record Doc := {
  _id : nat;
  userId : string;
  agentId : string;
  name : string;
  number : string;
  status : Status;
  createdAt : Z;
  completedAt : option Z;
  reason : option string
}.

(** The [$set] of an [updateOne]. *)
Record Update := {
  setStatus : Status;
  setReason : option string;
  setCompletedAt : Z
}.

Definition apply (u : Update) (d : Doc) : Doc :=
  {| _id := _id d;
     userId := userId d;
     agentId := agentId d;
     name := name d;
     number := number d;
     status := setStatus u;
     createdAt := createdAt d;
     completedAt := Some (setCompletedAt u);
     reason := match setReason u with
               | Some r => Some r
               | None => reason d
               end |}.

(** [CallQueueDone.updateOne({ _id }, { $set })]: the first document with
    that identifier is updated. *)
Fixpoint updateOne (i : nat) (u : Update) (docs : list Doc) : list Doc :=
  match docs with
  | [] => []
  | d :: rest =>
      if Nat.eqb (_id d) i then apply u d :: rest
      else d :: updateOne i u rest
  end.

(** A fresh identifier: above every identifier of the collection. *)
Definition freshId (docs : list Doc) : nat :=
  S (fold_right (fun d m => Nat.max (_id d) m) O docs).

Definition findDoc (i : nat) (docs : list Doc) : option Doc :=
  find (fun d => Nat.eqb (_id d) i) docs.

End CallQueueDone.

(** [models/callData.model] and the projection the reports read
    ([CallReportData] of the report generator). *)
Module CallData.

Record CallReportData := {
  successEvaluation : option bool;      (* [analysis?.successEvaluation] *)
  startedAt : option Z;
  cost : option JS.number;
  endedReason : option string;
  durationSeconds : option JS.number;
  assistantName : option string         (* [assistant?.name] *)
}.

Record Doc := {
  userId : string;
  call : CallReportData
}.

(** [$match: { userId, startedAt: { $gt: start, $lt: end } }] followed by
    the projection. *)
Definition aggregate (uid : string) (from to : Z) (docs : list Doc)
  : list CallReportData :=
  map call
    (filter (fun d =>
       String.eqb (userId d) uid &&
       match startedAt (call d) with
       | Some t => (from <? t) && (t <? to)
       | None => false
       end) docs).

Definition olderThan (cutoff : Z) (d : Doc) : bool :=
  match startedAt (call d) with
  | Some t => t <? cutoff
  | None => false
  end.

(** [CallData.deleteMany({ startedAt: { $lt: cutoff } })]: the number of
    documents deleted and the collection that remains. *)
Definition deleteMany (cutoff : Z) (docs : list Doc) : nat * list Doc :=
  (List.length (filter (olderThan cutoff) docs),
   filter (fun d => negb (olderThan cutoff d)) docs).

End CallData.

(** [EmailJobData] of the email processor.  The HTML of a message is kept
    as the template it instantiates and the values it interpolates. *)
Module Email.

Inductive EmailType := daily_report | notification | alert.

Record QueueCounts := {
  waiting : nat;
  active : nat;
  completed : nat;
  failed : nat;
  delayed : nat
}.

Record QueueStats := {
  callQueue : QueueCounts;
  emailQueue : QueueCounts;
  schedulerQueue : QueueCounts
}.

Inductive Html :=
| HealthAlertHtml (timestamp : Z) (database : string)
    (alerts : list string) (queues : QueueStats)
| DailyReportHtml (date : Z) (totalCalls successfulCalls : nat)
    (successRate : string)
| NoCallsHtml (date : Z)
| ComprehensiveHtml (totalCalls successfulCalls : nat)
    (successRate : JS.number)
| ReportFailedHtml (error : option string) (timestamp : Z).

Inductive Subject :=
| HealthAlertSubject
| DailyReportSubject (date : Z)
| NoCallsSubject (date : Z)
| ComprehensiveSubject (date : Z) (successRate : JS.number)
| ReportFailedSubject.

Record EmailJobData := {
  type : EmailType;
  to : list string;
  subject : Subject;
  html : Html;
  filePaths : option (list string);
  cleanup : bool                         (* [metadata.cleanup] *)
}.

(** [process.env.X?.split(',').map(email => email.trim()) || []] *)
Definition recipients (envVar : option string) : list string :=
  match envVar with
  | Some s => map JS.trim (JS.split "," s)
  | None => []
  end.

End Email.

(** [SchedulerJobData] of the scheduler processor. *)
Module SchedulerJob.

Inductive JobType :=
| daily_report | weekly_report | monthly_report | cleanup | health_check
| other (tag : string).

Record SchedulerJobData := {
  type : JobType;
  metadata : option (list (string * Config.MetaValue))
}.

End SchedulerJob.

(* ================================================================== *)
(** ** The world a job runs in *)
(* ================================================================== *)

(** A line of the console is the text of the first argument of the call
    and, after a space, the string passed as second argument if any; an
    object passed as second argument is not rendered. *)
Inductive LogLevel := LogInfo | LogWarn | LogError.

(** The calls a dispatch makes to the attempt records and to the voice
    service, in the order they are made. *)
Inductive Event :=
| Created (d : CallQueueDone.Doc)
| Called (c : Config.Contact) (assistantId : string)
| Updated (i : nat) (u : CallQueueDone.Update).

(** What the program owns or writes: the collections of the store, the
    three queues, the report files, the console, and the history of the
    calls above. *)
Record World := {
  users : list User.IUser;
  callQueueDone : list CallQueueDone.Doc;
  callData : list CallData.Doc;
  callQueue : BullMQ.Queue Config.JobData;
  emailQueue : BullMQ.Queue Email.EmailJobData;
  schedulerQueue : BullMQ.Queue SchedulerJob.SchedulerJobData;
  uploads : list (string * list CallData.CallReportData);
  console : list (LogLevel * string);
  history : list Event
}.

(** What a run reads from outside: the clock, the environment variables,
    the outcome of the calls to the voice service and of the connection to
    the store, and the functions of [utils], which is not among the
    sources: what they answer during the run is part of the environment. *)
Record Env := {
  now : Z;                               (* the clock when the run starts *)
  nowAfterCall : Z;                      (* the clock once the call settled *)
  todayStart : Z;                        (* local midnight of the current day *)
  getCurrentDayOfWeek : string;
  isWithinCallHours : string -> string -> bool;
  connectDB : option JsError;            (* [None]: the promise resolves *)
  isVapiBusy : Outcome bool;
  makeCall : User.IUser -> Config.Contact -> string -> option JsError;
  ADMIN_EMAIL : option string;
  EMAIL_TO : option string
}.

Definition M (A : Type) : Type := Env -> World -> Outcome A * World.

Definition ret {A} (a : A) : M A := fun _ w => (Return a, w).

Definition throw {A} (e : JsError) : M A := fun _ w => (Throw e, w).

Definition bind {A B} (c : M A) (k : A -> M B) : M B :=
  fun env w =>
    match c env w with
    | (Return a, w') => k a env w'
    | (Throw e, w') => (Throw e, w')
    end.

(** [try { c } catch (e) { h e }]: what [c] wrote before it threw stays. *)
Definition tryCatch {A} (c : M A) (h : JsError -> M A) : M A :=
  fun env w =>
    match c env w with
    | (Return a, w') => (Return a, w')
    | (Throw e, w') => h e env w'
    end.

Definition ask : M Env := fun env w => (Return env, w).

Definition get : M World := fun _ w => (Return w, w).

Definition modify (f : World -> World) : M unit :=
  fun _ w => (Return tt, f w).

(** An awaited promise of the environment. *)
Definition await {A} (p : Env -> Outcome A) : M A := fun env w => (p env, w).

Declare Scope js_scope.
Delimit Scope js_scope with js.
Notation "x <- c ;; k" := (bind c (fun x => k))
  (at level 61, c at next level, right associativity) : js_scope.
Notation "c ;; k" := (bind c (fun _ => k))
  (at level 61, right associativity) : js_scope.
Local Open Scope js_scope.

Definition setCallQueueDone (v : list CallQueueDone.Doc) (w : World) : World :=
  {| users := users w; callQueueDone := v; callData := callData w;
     callQueue := callQueue w; emailQueue := emailQueue w;
     schedulerQueue := schedulerQueue w; uploads := uploads w;
     console := console w; history := history w |}.

Definition setCallData (v : list CallData.Doc) (w : World) : World :=
  {| users := users w; callQueueDone := callQueueDone w; callData := v;
     callQueue := callQueue w; emailQueue := emailQueue w;
     schedulerQueue := schedulerQueue w; uploads := uploads w;
     console := console w; history := history w |}.

Definition setCallQueue (v : BullMQ.Queue Config.JobData) (w : World) : World :=
  {| users := users w; callQueueDone := callQueueDone w;
     callData := callData w; callQueue := v; emailQueue := emailQueue w;
     schedulerQueue := schedulerQueue w; uploads := uploads w;
     console := console w; history := history w |}.

Definition setEmailQueue (v : BullMQ.Queue Email.EmailJobData) (w : World)
  : World :=
  {| users := users w; callQueueDone := callQueueDone w;
     callData := callData w; callQueue := callQueue w; emailQueue := v;
     schedulerQueue := schedulerQueue w; uploads := uploads w;
     console := console w; history := history w |}.

Definition setSchedulerQueue
    (v : BullMQ.Queue SchedulerJob.SchedulerJobData) (w : World) : World :=
  {| users := users w; callQueueDone := callQueueDone w;
     callData := callData w; callQueue := callQueue w;
     emailQueue := emailQueue w; schedulerQueue := v; uploads := uploads w;
     console := console w; history := history w |}.

Definition setUploads (v : list (string * list CallData.CallReportData))
    (w : World) : World :=
  {| users := users w; callQueueDone := callQueueDone w;
     callData := callData w; callQueue := callQueue w;
     emailQueue := emailQueue w; schedulerQueue := schedulerQueue w;
     uploads := v; console := console w; history := history w |}.

Definition setConsole (v : list (LogLevel * string)) (w : World) : World :=
  {| users := users w; callQueueDone := callQueueDone w;
     callData := callData w; callQueue := callQueue w;
     emailQueue := emailQueue w; schedulerQueue := schedulerQueue w;
     uploads := uploads w; console := v; history := history w |}.

Definition setHistory (v : list Event) (w : World) : World :=
  {| users := users w; callQueueDone := callQueueDone w;
     callData := callData w; callQueue := callQueue w;
     emailQueue := emailQueue w; schedulerQueue := schedulerQueue w;
     uploads := uploads w; console := console w; history := v |}.

Definition record (ev : Event) : M unit :=
  modify (fun w => setHistory (history w ++ [ev]) w).

(** [console.log], [console.warn], [console.error] *)
Definition consoleWrite (l : LogLevel) (msg : string) : M unit :=
  modify (fun w => setConsole (console w ++ [(l, msg)]) w).

(** [await connectDB()] *)
Definition awaitConnectDB : M unit :=
  await (fun env => match connectDB env with
                    | None => Return tt
                    | Some e => Throw e
                    end).

(* ================================================================== *)
(** ** [queues/QueueManager.ts] *)
(* ================================================================== *)

Module QueueManager.

(** [addCallJob(data, options)] *)
Definition addCallJob (d : Config.JobData) (options : BullMQ.JobsOptions)
  : M (BullMQ.Job Config.JobData) :=
  fun _ w =>
    let o := BullMQ.spread
               {| BullMQ.priority := Some (JS.orNumber (Config.priority d) 1%float);
                  BullMQ.delay := Some (JS.orNumber (Config.delay d) 0%float);
                  BullMQ.attempts := None; BullMQ.backoff := None;
                  BullMQ.removeOnComplete := None;
                  BullMQ.removeOnFail := None |}
               options in
    let '(j, q) := BullMQ.add Config.defaultJobOptions "make-call" d o
                     (callQueue w) in
    (Return j, setCallQueue q w).

(** [addBulkCallJobs(jobs)] *)
Definition addBulkCallJobs
    (jobs : list (Config.JobData * BullMQ.JobsOptions))
  : M (list (BullMQ.Job Config.JobData)) :=
  fun _ w =>
    let prepared :=
      map (fun job : Config.JobData * BullMQ.JobsOptions =>
             ("make-call", fst job,
              BullMQ.spread
                {| BullMQ.priority :=
                     Some (JS.orNumber (Config.priority (fst job)) 1%float);
                   BullMQ.delay :=
                     Some (JS.orNumber (Config.delay (fst job)) 0%float);
                   BullMQ.attempts := None; BullMQ.backoff := None;
                   BullMQ.removeOnComplete := None;
                   BullMQ.removeOnFail := None |}
                (snd job)))
          jobs in
    match BullMQ.addBulk Config.defaultJobOptions prepared (callQueue w) with
    | (Return js, q) => (Return js, setCallQueue q w)
    | (Throw e, _) => (Throw e, w)
    end.

(** [addEmailJob(data)] *)
Definition addEmailJob (d : Email.EmailJobData)
  : M (BullMQ.Job Email.EmailJobData) :=
  fun _ w =>
    let '(j, q) := BullMQ.add Config.defaultJobOptions "send-email" d
                     BullMQ.noOptions (emailQueue w) in
    (Return j, setEmailQueue q w).

(** [getQueueCounts(queue)] *)
Definition getQueueCounts {D} (q : BullMQ.Queue D) : Email.QueueCounts :=
  {| Email.waiting := List.length (BullMQ.getJobs BullMQ.waiting q);
     Email.active := List.length (BullMQ.getJobs BullMQ.active q);
     Email.completed := List.length (BullMQ.getJobs BullMQ.completed q);
     Email.failed := List.length (BullMQ.getJobs BullMQ.failed q);
     Email.delayed := List.length (BullMQ.getJobs BullMQ.delayed q) |}.

(** [getQueueStats()] *)
Definition getQueueStats : M Email.QueueStats :=
  fun _ w =>
    (Return {| Email.callQueue := getQueueCounts (callQueue w);
               Email.emailQueue := getQueueCounts (emailQueue w);
               Email.schedulerQueue := getQueueCounts (schedulerQueue w) |},
     w).

(** [cleanupQueues()]: each queue is swept with a grace of 24 hours and a
    limit of 100, and no type. *)
Definition cleanupQueues : M unit :=
  env <- ask ;;
  modify (fun w =>
    setCallQueue
      (BullMQ.clean (now env) (24 * 60 * 60 * 1000) 100
         BullMQ.cleanDefaultType (callQueue w)) w) ;;
  modify (fun w =>
    setEmailQueue
      (BullMQ.clean (now env) (24 * 60 * 60 * 1000) 100
         BullMQ.cleanDefaultType (emailQueue w)) w) ;;
  modify (fun w =>
    setSchedulerQueue
      (BullMQ.clean (now env) (24 * 60 * 60 * 1000) 100
         BullMQ.cleanDefaultType (schedulerQueue w)) w) ;;
  consoleWrite LogInfo "🧹 Queue cleanup completed".

End QueueManager.

(* ================================================================== *)
(** ** [queues/processors/CallProcessor.ts] *)
(* ================================================================== *)

Module CallProcessor.

(** The value a run resolves with. *)
Inductive Result :=
| Rescheduled          (* [{ status: 'rescheduled', reason: 'outside_call_hours' }] *)
| Delayed              (* [{ status: 'delayed', reason: 'vapi_busy' }] *)
| Completed (callId : nat) (contact : Config.Contact).

Definition retryableErrors : list string :=
  ["VAPI_BUSY"; "NETWORK_ERROR"; "TEMPORARY_FAILURE"; "RATE_LIMITED"].

(** [isRetryableError(error)] *)
Definition isRetryableError (error : JsError) : bool :=
  existsb
    (fun retryableError =>
       match message error with
       | Some m => JS.includes m retryableError
       | None => false
       end
       || match code error with
          | Some c => String.eqb c retryableError
          | None => false
          end)
    retryableErrors.

Definition matches (assistantId : string) (entry : string * User.SlotData)
  : bool :=
  String.eqb (User.assistantId (snd entry)) assistantId.

(** [getCurrentSlotForAssistant(user, assistantId)] *)
Definition getCurrentSlotForAssistant (env : Env) (user : User.IUser)
    (assistantId : string) : option User.SlotData :=
  match User.scheduleOf user (getCurrentDayOfWeek env) with
  | None => None
  | Some daySchedule =>
      option_map snd (find (matches assistantId) daySchedule)
  end.

Definition daysToCheck : list string :=
  ["monday"; "tuesday"; "wednesday"; "thursday"; "friday"; "saturday";
   "sunday"].

(** [xs.indexOf(x)], counting from [i]. *)
Fixpoint indexOf (x : string) (xs : list string) (i : Z) : Z :=
  match xs with
  | [] => -1
  | y :: rest => if String.eqb y x then i else indexOf x rest (i + 1)
  end.

(** [{ day, slot, ...slotData }] *)
Record NextSlot := {
  day : string;
  slot : string;
  slotData : User.SlotData
}.

(** [daysToCheck[(currentDayIndex + i) % 7]] *)
Definition dayNameAt (currentDayIndex i : Z) : string :=
  nth (Z.to_nat (Z.rem (currentDayIndex + i) 7)) daysToCheck "undefined".

(** The body of the loop over the days, for one [i]. *)
Definition slotOnDay (user : User.IUser) (assistantId : string)
    (currentDayIndex i : Z) : option NextSlot :=
  let dayName := dayNameAt currentDayIndex i in
  match User.scheduleOf user dayName with
  | None => None
  | Some daySchedule =>
      match find (matches assistantId) daySchedule with
      | Some (slotName, sd) =>
          Some {| day := dayName; slot := slotName; slotData := sd |}
      | None => None
      end
  end.

(** The loop from [i] on, for [n] more days. *)
Fixpoint scanDays (user : User.IUser) (assistantId : string)
    (currentDayIndex i : Z) (n : nat) : option NextSlot :=
  match n with
  | O => None
  | S k =>
      match slotOnDay user assistantId currentDayIndex i with
      | Some r => Some r
      | None => scanDays user assistantId currentDayIndex (i + 1) k
      end
  end.

(** [findNextAvailableSlot(user, assistantId)] *)
Definition findNextAvailableSlot (env : Env) (user : User.IUser)
    (assistantId : string) : option NextSlot :=
  scanDays user assistantId
    (indexOf (getCurrentDayOfWeek env) daysToCheck 0) 1 7.

(** [calculateDelayToNextSlot(nextSlot)]: the milliseconds from now to the
    start time of the slot on the day after today; [NaN] when the start
    time does not parse. *)
Definition calculateDelayToNextSlot (env : Env) (nextSlot : NextSlot)
  : JS.number :=
  let parts := JS.split ":" (User.callTimeStart (slotData nextSlot)) in
  match JS.parseIntAt parts 0, JS.parseIntAt parts 1 with
  | Some h, Some m =>
      let tomorrow :=
        todayStart env + 86400000 + h * 3600000 + m * 60000 in
      JS.ofZ (Z.max 0 (tomorrow - now env))
  | _, _ => PrimFloat.nan
  end.

(** [rescheduleForNextSlot(job, user, assistantId)] *)
Definition rescheduleForNextSlot (job : BullMQ.Job Config.JobData)
    (user : User.IUser) (assistantId : string) : M unit :=
  env <- ask ;;
  match findNextAvailableSlot env user assistantId with
  | Some nextSlot =>
      let delayMs := calculateDelayToNextSlot env nextSlot in
      QueueManager.addCallJob (BullMQ.data job)
        {| BullMQ.priority :=
             Some (JS.orNumber (BullMQ.priority (BullMQ.opts job)) 1%float);
           BullMQ.delay := Some delayMs;
           BullMQ.attempts := None; BullMQ.backoff := None;
           BullMQ.removeOnComplete := None;
           BullMQ.removeOnFail := None |} ;;
      consoleWrite LogInfo
        ("📅 Rescheduled call for "
           ++ Config.name (Config.contact (BullMQ.data job))
           ++ " to next available slot")
  | None =>
      consoleWrite LogWarn
        ("⚠️ No available slots found for assistant " ++ assistantId)
  end.

(** [CallQueueDone.create({ ..., status: "pending_initiation" })] *)
Definition createCallQueueDone (userId agentId : string)
    (c : Config.Contact) : M CallQueueDone.Doc :=
  fun env w =>
    let d := {| CallQueueDone._id := CallQueueDone.freshId (callQueueDone w);
                CallQueueDone.userId := userId;
                CallQueueDone.agentId := agentId;
                CallQueueDone.name := Config.name c;
                CallQueueDone.number := Config.number c;
                CallQueueDone.status := CallQueueDone.pending_initiation;
                CallQueueDone.createdAt := now env;
                CallQueueDone.completedAt := None;
                CallQueueDone.reason := None |} in
    (Return d,
     setHistory (history w ++ [Created d])
       (setCallQueueDone (callQueueDone w ++ [d]) w)).

(** [CallQueueDone.updateOne({ _id }, { $set })] *)
Definition updateCallQueueDone (i : nat) (u : CallQueueDone.Update)
  : M unit :=
  modify (fun w =>
    setCallQueueDone (CallQueueDone.updateOne i u (callQueueDone w)) w) ;;
  record (Updated i u).

(** [await makeCall(user, contact, assistantId)] *)
Definition awaitMakeCall (user : User.IUser) (c : Config.Contact)
    (assistantId : string) : M unit :=
  record (Called c assistantId) ;;
  await (fun env => match makeCall env user c assistantId with
                    | None => Return tt
                    | Some e => Throw e
                    end).

(** The attempt: the record, the call, the update of the record. *)
Definition attempt (user : User.IUser) (userId assistantId : string)
    (c : Config.Contact) : M Result :=
  callDoneDoc <- createCallQueueDone userId assistantId c ;;
  tryCatch
    (awaitMakeCall user c assistantId ;;
     env <- ask ;;
     updateCallQueueDone (CallQueueDone._id callDoneDoc)
       {| CallQueueDone.setStatus := CallQueueDone.initiated;
          CallQueueDone.setReason := None;
          CallQueueDone.setCompletedAt := nowAfterCall env |} ;;
     consoleWrite LogInfo
       ("✅ Call successfully made to " ++ Config.name c
          ++ " (" ++ Config.number c ++ ")") ;;
     ret (Completed (CallQueueDone._id callDoneDoc) c))
    (fun callError =>
       env <- ask ;;
       updateCallQueueDone (CallQueueDone._id callDoneDoc)
         {| CallQueueDone.setStatus := CallQueueDone.failed;
            CallQueueDone.setReason :=
              Some (JS.orString (message callError) "Unknown error");
            CallQueueDone.setCompletedAt := nowAfterCall env |} ;;
       throw callError).

(** [{ delay: 15000 }] *)
Definition busyRetryOptions : BullMQ.JobsOptions :=
  {| BullMQ.priority := None; BullMQ.delay := Some 15000%float;
     BullMQ.attempts := None; BullMQ.backoff := None;
     BullMQ.removeOnComplete := None; BullMQ.removeOnFail := None |}.

Definition outsideCallHours (env : Env) (currentSlot : option User.SlotData)
  : bool :=
  match currentSlot with
  | None => true
  | Some s =>
      negb (isWithinCallHours env (User.callTimeStart s) (User.callTimeEnd s))
  end.

(** [process(job)] *)
Definition process (job : BullMQ.Job Config.JobData) : M Result :=
  let userId := Config.userId (BullMQ.data job) in
  let assistantId := Config.assistantId (BullMQ.data job) in
  let contact := Config.contact (BullMQ.data job) in
  tryCatch
    (awaitConnectDB ;;
     w <- get ;;
     match User.findById userId (users w) with
     | None => throw (newError ("User not found: " ++ userId))
     | Some user =>
         env <- ask ;;
         let currentSlot := getCurrentSlotForAssistant env user assistantId in
         if outsideCallHours env currentSlot then
           rescheduleForNextSlot job user assistantId ;;
           ret Rescheduled
         else
           busy <- await isVapiBusy ;;
           if busy : bool then
             QueueManager.addCallJob (BullMQ.data job) busyRetryOptions ;;
             ret Delayed
           else attempt user userId assistantId contact
     end)
    (fun error =>
       consoleWrite LogError
         ("❌ Call processing failed for " ++ Config.name contact ++ ": "
            ++ JS.interpolate (message error)) ;;
       if isRetryableError error then throw error
       else throw (newError ("Permanent failure: "
                               ++ JS.interpolate (message error)))).

End CallProcessor.

(* ================================================================== *)
(** ** [utils/reportGenerator.ts] *)
(* ================================================================== *)

Module ReportGenerator.

Definition flagIsTrue (call : CallData.CallReportData) : bool :=
  match CallData.successEvaluation call with
  | Some true => true
  | _ => false
  end.

(** [call.endedReason?.toLowerCase() !== "voicemail"] *)
Definition notVoicemail (call : CallData.CallReportData) : bool :=
  match CallData.endedReason call with
  | Some r => negb (String.eqb (JS.toLowerCase r) "voicemail")
  | None => true
  end.

(** The predicate of the filter in [generateSummaryStats]. *)
Definition isSuccessful (call : CallData.CallReportData) : bool :=
  flagIsTrue call
  && PrimFloat.ltb 10%float (JS.orNumber (CallData.durationSeconds call) 0%float)
  && notVoicemail call.

(** The predicate of the filter in the daily report job and script, which
    compare [call.durationSeconds] itself ([undefined > 10] is false). *)
Definition isSuccessfulCall (call : CallData.CallReportData) : bool :=
  flagIsTrue call
  && match CallData.durationSeconds call with
     | Some d => PrimFloat.ltb 10%float d
     | None => false
     end
  && notVoicemail call.

(** [acc[key] = (acc[key] || 0) + 1] *)
Fixpoint bump (key : string) (acc : list (string * nat))
  : list (string * nat) :=
  match acc with
  | [] => [(key, 1%nat)]
  | (k, v) :: rest =>
      if String.eqb k key then (k, S v) :: rest else (k, v) :: bump key rest
  end.

(** The statistics; durations and costs are kept as numbers, before
    [formatDuration] and [formatCurrency] print them. *)
Record SummaryStats := {
  totalCalls : nat;
  successfulCalls : nat;
  successRate : JS.number;
  totalDuration : JS.number;
  avgDuration : JS.number;
  totalCost : JS.number;
  avgCost : JS.number;
  endReasonBreakdown : list (string * nat);
  assistantBreakdown : list (string * nat);
  periodStart : option Z;
  periodEnd : option Z
}.

(** [generateSummaryStats(calls)] *)
Definition generateSummaryStats (calls : list CallData.CallReportData)
  : SummaryStats :=
  let totalCalls := List.length calls in
  let successfulCalls := List.length (filter isSuccessful calls) in
  let totalDuration :=
    fold_left (fun sum call =>
                 PrimFloat.add sum
                   (JS.orNumber (CallData.durationSeconds call) 0%float))
              calls 0%float in
  let totalCost :=
    fold_left (fun sum call =>
                 PrimFloat.add sum (JS.orNumber (CallData.cost call) 0%float))
              calls 0%float in
  let avgDuration :=
    if Nat.ltb 0 totalCalls
    then PrimFloat.div totalDuration (JS.ofNat totalCalls) else 0%float in
  let avgCost :=
    if Nat.ltb 0 totalCalls
    then PrimFloat.div totalCost (JS.ofNat totalCalls) else 0%float in
  let successRate :=
    if Nat.ltb 0 totalCalls
    then PrimFloat.mul
           (PrimFloat.div (JS.ofNat successfulCalls) (JS.ofNat totalCalls))
           100%float
    else 0%float in
  {| totalCalls := totalCalls;
     successfulCalls := successfulCalls;
     successRate := JS.numberToFixed 2 successRate;
     totalDuration := totalDuration;
     avgDuration := avgDuration;
     totalCost := totalCost;
     avgCost := avgCost;
     endReasonBreakdown :=
       fold_left (fun acc call =>
                    bump (JS.orString (CallData.endedReason call) "unknown") acc)
                 calls [];
     assistantBreakdown :=
       fold_left (fun acc call =>
                    bump (JS.orString (CallData.assistantName call) "unknown")
                         acc)
                 calls [];
     periodStart := match calls with
                    | [] => None
                    | c :: _ => CallData.startedAt c
                    end;
     periodEnd := match rev calls with
                  | [] => None
                  | c :: _ => CallData.startedAt c
                  end |}.

(** The path of a report file; the time stamp in the name is left out. *)
Definition reportPath (label : string) : string :=
  "uploads/" ++ label ++ ".xlsx".

(** [saveToXLSX(calls, label)] *)
Definition saveToXLSX (calls : list CallData.CallReportData)
    (label : string) : M string :=
  match calls with
  | [] => throw (newError "No calls to export.")
  | _ =>
      modify (fun w =>
        setUploads (uploads w ++ [(reportPath label, calls)]) w) ;;
      ret (reportPath label)
  end.

(** [generateAdvancedReport(calls, reportType)] *)
Definition generateAdvancedReport (calls : list CallData.CallReportData)
    (reportType : string) : M string :=
  modify (fun w =>
    setUploads (uploads w ++ [(reportPath reportType, calls)]) w) ;;
  ret (reportPath reportType).

End ReportGenerator.

(* ================================================================== *)
(** ** [queues/processors/SchedulerProcessor.ts] *)
(* ================================================================== *)

Module SchedulerProcessor.

Record HealthReport := {
  timestamp : Z;
  database : string;
  queues : Email.QueueStats;
  alerts : list string
}.

(** The value a run resolves with. *)
Inductive Result :=
| NoCallsToReport      (* [{ status: 'completed', message: 'No calls to report' }] *)
| DailyReported (totalCalls successfulCalls reportsGenerated : nat)
| WeeklyProcessed      (* [{ status: 'completed', message: 'Weekly report processed' }] *)
| MonthlyProcessed     (* [{ status: 'completed', message: 'Monthly report processed' }] *)
| CleanedUp (recordsDeleted : nat) (cutoffDate : Z)
| Health (report : HealthReport).

(** [getTodayDateRange()], [getWeekDateRange()] *)
Definition getTodayDateRange (env : Env) : Z * Z :=
  (now env - 24 * 60 * 60 * 1000, now env).

Definition getWeekDateRange (env : Env) : Z * Z :=
  (now env - 7 * 24 * 60 * 60 * 1000, now env).

(** The user the daily report is written for. *)
Definition reportUserId : string := "user_2x0DhdwrWfE9PpFSljdOd3aOvYG".

(** [data.length > 0 ? ((successfulCalls.length / data.length) * 100).toFixed(1) : 0] *)
Definition successRateText (successful total : nat) : string :=
  if Nat.ltb 0 total then
    JS.toFixed 1
      (PrimFloat.mul (PrimFloat.div (JS.ofNat successful) (JS.ofNat total))
         100%float)
  else "0".

(** [processDailyReport(job)] *)
Definition processDailyReport
    (job : BullMQ.Job SchedulerJob.SchedulerJobData) : M Result :=
  awaitConnectDB ;;
  env <- ask ;;
  w <- get ;;
  let '(startString, endString) := getTodayDateRange env in
  let data := CallData.aggregate reportUserId startString endString
                (callData w) in
  match data with
  | [] =>
      consoleWrite LogInfo "📭 No calls found for daily report" ;;
      ret NoCallsToReport
  | _ =>
      allCallsPath <- ReportGenerator.saveToXLSX data "DailyReport_AllCalls" ;;
      let successfulCalls := filter ReportGenerator.isSuccessfulCall data in
      filePaths <-
        match successfulCalls with
        | [] => ret [allCallsPath]
        | _ =>
            successfulCallsPath <-
              ReportGenerator.saveToXLSX successfulCalls
                "DailyReport_SuccessfulCalls" ;;
            ret [allCallsPath; successfulCallsPath]
        end ;;
      QueueManager.addEmailJob
        {| Email.type := Email.daily_report;
           Email.to := Email.recipients (EMAIL_TO env);
           Email.subject := Email.DailyReportSubject (now env);
           Email.html :=
             Email.DailyReportHtml (now env) (List.length data)
               (List.length successfulCalls)
               (successRateText (List.length successfulCalls)
                  (List.length data));
           Email.filePaths := Some filePaths;
           Email.cleanup := true |} ;;
      ret (DailyReported (List.length data) (List.length successfulCalls)
             (List.length filePaths))
  end.

(** [processWeeklyReport(job)] *)
Definition processWeeklyReport
    (job : BullMQ.Job SchedulerJob.SchedulerJobData) : M Result :=
  awaitConnectDB ;;
  ret WeeklyProcessed.

(** [processMonthlyReport(job)] *)
Definition processMonthlyReport
    (job : BullMQ.Job SchedulerJob.SchedulerJobData) : M Result :=
  ret MonthlyProcessed.

(** [cutoffDate.setDate(cutoffDate.getDate() - 30)] *)
Definition cleanupCutoff (env : Env) : Z := now env - 30 * 86400000.

(** [processCleanup(job)] *)
Definition processCleanup
    (job : BullMQ.Job SchedulerJob.SchedulerJobData) : M Result :=
  QueueManager.cleanupQueues ;;
  env <- ask ;;
  let cutoffDate := cleanupCutoff env in
  awaitConnectDB ;;
  w <- get ;;
  let '(deletedCount, remaining) :=
    CallData.deleteMany cutoffDate (callData w) in
  modify (setCallData remaining) ;;
  consoleWrite LogInfo
    ("🧹 Cleanup completed: " ++ JS.natToString deletedCount
       ++ " old records removed") ;;
  ret (CleanedUp deletedCount cutoffDate).

Definition stuckJobsAlert : string := "High number of active jobs detected".
Definition highFailureAlert : string := "High number of failed call jobs".
Definition databaseAlert : string := "Database connectivity issues".

(** [alerts.push(a)] when [cond] holds. *)
Definition pushIf (cond : bool) (a : string) (alerts : list string)
  : list string :=
  if cond then alerts ++ [a] else alerts.

(** [processHealthCheck(job)] *)
Definition processHealthCheck
    (job : BullMQ.Job SchedulerJob.SchedulerJobData) : M Result :=
  stats <- QueueManager.getQueueStats ;;
  dbStatus <- tryCatch (awaitConnectDB ;; ret "connected")
                       (fun _ => ret "disconnected") ;;
  env <- ask ;;
  let stuckJobs := Nat.ltb 10 (Email.active (Email.callQueue stats)) in
  let alerts0 := pushIf stuckJobs stuckJobsAlert [] in
  let alerts1 :=
    pushIf (Nat.ltb 50 (Email.failed (Email.callQueue stats)))
      highFailureAlert alerts0 in
  let alerts2 :=
    pushIf (String.eqb dbStatus "disconnected") databaseAlert alerts1 in
  let healthReport :=
    {| timestamp := now env; database := dbStatus; queues := stats;
       alerts := alerts2 |} in
  consoleWrite LogInfo "🏥 Health check completed:" ;;
  (if Nat.ltb 0 (List.length (alerts healthReport)) then
     QueueManager.addEmailJob
       {| Email.type := Email.alert;
          Email.to := Email.recipients (ADMIN_EMAIL env);
          Email.subject := Email.HealthAlertSubject;
          Email.html :=
            Email.HealthAlertHtml (timestamp healthReport)
              (database healthReport) (alerts healthReport)
              (queues healthReport);
          Email.filePaths := None;
          Email.cleanup := false |} ;;
     ret tt
   else ret tt) ;;
  ret (Health healthReport).

Definition typeTag (t : SchedulerJob.JobType) : string :=
  match t with
  | SchedulerJob.daily_report => "daily_report"
  | SchedulerJob.weekly_report => "weekly_report"
  | SchedulerJob.monthly_report => "monthly_report"
  | SchedulerJob.cleanup => "cleanup"
  | SchedulerJob.health_check => "health_check"
  | SchedulerJob.other tag => tag
  end.

(** [process(job)] *)
Definition process (job : BullMQ.Job SchedulerJob.SchedulerJobData)
  : M Result :=
  let type := SchedulerJob.type (BullMQ.data job) in
  tryCatch
    (consoleWrite LogInfo
       ("⏰ Processing scheduler job: " ++ typeTag type ++ " ("
          ++ JS.natToString (BullMQ.id job) ++ ")") ;;
     match type with
     | SchedulerJob.daily_report => processDailyReport job
     | SchedulerJob.weekly_report => processWeeklyReport job
     | SchedulerJob.monthly_report => processMonthlyReport job
     | SchedulerJob.cleanup => processCleanup job
     | SchedulerJob.health_check => processHealthCheck job
     | SchedulerJob.other tag =>
         throw (newError ("Unknown scheduler job type: " ++ tag))
     end)
    (fun error =>
       consoleWrite LogError
         ("❌ Scheduler job " ++ JS.natToString (BullMQ.id job) ++ " ("
            ++ typeTag type ++ ") failed: "
            ++ JS.interpolate (message error)) ;;
       throw error).

End SchedulerProcessor.

(* ================================================================== *)
(** ** The daily report script *)
(* ================================================================== *)

Module DailyReportScript.

(** [fetchTodayFullCallData()] *)
Definition fetchTodayFullCallData : M (list CallData.CallReportData) :=
  env <- ask ;;
  w <- get ;;
  ret (CallData.aggregate SchedulerProcessor.reportUserId
         (now env - 24 * 60 * 60 * 1000) (now env) (callData w)).

(** [main()]; [mongoose.disconnect()] in the [finally] writes nothing the
    world records.  An unset [EMAIL_TO] gives no recipient. *)
Definition main : M unit :=
  tryCatch
    (awaitConnectDB ;;
     data <- fetchTodayFullCallData ;;
     env <- ask ;;
     match data with
     | [] =>
         consoleWrite LogInfo "No calls found for the date range." ;;
         QueueManager.addEmailJob
           {| Email.type := Email.daily_report;
              Email.to := Email.recipients (EMAIL_TO env);
              Email.subject := Email.NoCallsSubject (now env);
              Email.html := Email.NoCallsHtml (now env);
              Email.filePaths := None;
              Email.cleanup := false |} ;;
         ret tt
     | _ =>
         let stats := ReportGenerator.generateSummaryStats data in
         advancedReportPath <-
           ReportGenerator.generateAdvancedReport data
             "DailyReport_Comprehensive" ;;
         let successfulCalls := filter ReportGenerator.isSuccessfulCall data in
         filePaths <-
           (if Nat.ltb 0 (List.length successfulCalls) then
              successfulReportPath <-
                ReportGenerator.generateAdvancedReport successfulCalls
                  "DailyReport_SuccessfulCalls" ;;
              ret [advancedReportPath; successfulReportPath]
            else ret [advancedReportPath]) ;;
         QueueManager.addEmailJob
           {| Email.type := Email.daily_report;
              Email.to := Email.recipients (EMAIL_TO env);
              Email.subject :=
                Email.ComprehensiveSubject (now env)
                  (ReportGenerator.successRate stats);
              Email.html :=
                Email.ComprehensiveHtml (List.length data)
                  (List.length successfulCalls)
                  (ReportGenerator.successRate stats);
              Email.filePaths := Some filePaths;
              Email.cleanup := true |} ;;
         consoleWrite LogInfo
           ("✅ Daily report queued successfully - "
              ++ JS.natToString (List.length data) ++ " calls processed")
     end)
    (fun err =>
       consoleWrite LogError "❌ Error generating daily report:" ;;
       env <- ask ;;
       tryCatch
         (QueueManager.addEmailJob
            {| Email.type := Email.alert;
               Email.to := Email.recipients (EMAIL_TO env);
               Email.subject := Email.ReportFailedSubject;
               Email.html := Email.ReportFailedHtml (message err) (now env);
               Email.filePaths := None;
               Email.cleanup := false |} ;;
          ret tt)
         (fun emailError =>
            consoleWrite LogError "❌ Failed to send error notification:")).

End DailyReportScript.

(* ================================================================== *)
(** ** [routes.ts]: [POST /queue-calls] *)
(* ================================================================== *)

Module Routes.

(** An element of [contacts]: a property that is not a string is [None]. *)
Record ContactInput := {
  name : option string;
  number : option string
}.

Record Body := {
  clerkId : option string;
  contacts : option (list ContactInput);   (* [None]: not an array *)
  assistantId : option string;
  priority : option JS.number;
  delay : option JS.number
}.

Inductive Response :=
| Status400 (error : string)
| Status404 (error : string)
| Status200 (queued : nat) (assistantId : string) (queuedJobs : nat)
    (estimatedStartTime : JS.number)
| Status500 (error : string).

Definition isValidContact (c : ContactInput) : bool :=
  match name c, number c with
  | Some n, Some p =>
      negb (JS.isEmpty (JS.trim n)) && negb (JS.isEmpty (JS.trim p))
  | _, _ => false
  end.

Definition trimmed (x : option string) : string :=
  match x with Some s => JS.trim s | None => EmptyString end.

(** [xs.map((x, index) => f x index)], counting from [index]. *)
Fixpoint mapIndex {A B} (f : A -> nat -> B) (xs : list A) (index : nat)
  : list B :=
  match xs with
  | [] => []
  | x :: rest => f x index :: mapIndex f rest (S index)
  end.

(** The job prepared for one valid contact. *)
Definition prepareJob (user : User.IUser) (assistantId : string)
    (priority delay : JS.number) (queuedAt : Z)
    (contact : ContactInput) (index : nat)
  : Config.JobData * BullMQ.JobsOptions :=
  ({| Config.userId := User._id user;
      Config.assistantId := assistantId;
      Config.contact := {| Config.name := trimmed (name contact);
                           Config.number := trimmed (number contact) |};
      Config.priority :=
        Some (PrimFloat.add priority
                (PrimFloat.mul (JS.ofNat index) 0.01%float));
      Config.delay := None;
      Config.metadata :=
        Some [("queuedAt", Config.MetaInstant queuedAt);
              ("source", Config.MetaString "api")] |},
   {| BullMQ.priority := None;
      BullMQ.delay :=
        Some (PrimFloat.add delay
                (PrimFloat.mul (JS.ofNat index) 1000%float));
      BullMQ.attempts := None; BullMQ.backoff := None;
      BullMQ.removeOnComplete := None; BullMQ.removeOnFail := None |}).

Definition hasTwilio (user : User.IUser) : bool :=
  match User.twilioConfig user with
  | Some t =>
      negb (JS.isEmpty (JS.orString (User.sid t) EmptyString))
      && negb (JS.isEmpty (JS.orString (User.authToken t) EmptyString))
      && negb (JS.isEmpty (JS.orString (User.phoneNumber t) EmptyString))
  | None => false
  end.

(** The handler of [POST /queue-calls]. *)
Definition queueCalls (body : Body) : M Response :=
  let priority := match priority body with Some p => p | None => 1%float end in
  let delay := match delay body with Some d => d | None => 0%float end in
  match JS.orString (clerkId body) EmptyString, contacts body,
        JS.orString (assistantId body) EmptyString with
  | String c1 r1, Some contacts, String c2 r2 =>
      let clerkId := String c1 r1 in
      let assistantId := String c2 r2 in
      tryCatch
        (awaitConnectDB ;;
         w <- get ;;
         match User.findById clerkId (users w) with
         | None => ret (Status404 "User not found")
         | Some user =>
             if negb (hasTwilio user) then
               ret (Status400 "User missing required Twilio configuration")
             else
               let validContacts := filter isValidContact contacts in
               match validContacts with
               | [] => ret (Status400 "No valid contacts provided")
               | _ =>
                   env <- ask ;;
                   let jobs :=
                     mapIndex (prepareJob user assistantId priority delay
                                 (now env))
                              validContacts 0%nat in
                   queuedJobs <- QueueManager.addBulkCallJobs jobs ;;
                   consoleWrite LogInfo
                     ("✅ " ++ JS.natToString (List.length validContacts)
                        ++ " contacts queued for assistant " ++ assistantId) ;;
                   let estimatedStartTime :=
                     PrimFloat.add (JS.ofZ (now env)) delay in
                   if JS.validTime estimatedStartTime then
                     ret (Status200 (List.length validContacts) assistantId
                            (List.length queuedJobs) estimatedStartTime)
                   else throw invalidTimeValue
               end
         end)
        (fun err =>
           consoleWrite LogError
             ("❌ Queue error: " ++ JS.interpolate (message err)) ;;
           ret (Status500 "Internal Server Error"))
  | _, _, _ => ret (Status400 "clerkId, assistantId, and contacts[] are required")
  end.

End Routes.

(* ================================================================== *)
(** ** Concrete inputs *)
(* ================================================================== *)

Module Examples.

Definition emptyWorld : World :=
  {| users := []; callQueueDone := []; callData := []; callQueue := [];
     emailQueue := []; schedulerQueue := []; uploads := []; console := [];
     history := [] |}.

Definition slotA (start finish : string) : User.SlotData :=
  {| User.assistantId := "asst_A"; User.callTimeStart := start;
     User.callTimeEnd := finish |}.

Definition twilio : User.TwilioConfig :=
  {| User.sid := Some "AC1"; User.authToken := Some "tok";
     User.phoneNumber := Some "+15550100" |}.

Definition userWith (ws : option User.WeeklySchedule) : User.IUser :=
  {| User._id := "u1"; User.clerkId := "clerk_1";
     User.twilioConfig := Some twilio; User.weeklySchedule := ws |}.

(** Monday 09:00 to 17:00 for the assistant. *)
Definition alice : User.IUser :=
  userWith (Some [("monday", [("morning", slotA "09:00" "17:00")])]).

(** Tuesday: the evening slot is listed before the morning slot. *)
Definition bob : User.IUser :=
  userWith (Some [("tuesday", [("evening", slotA "18:00" "20:00");
                               ("morning", slotA "09:00" "11:00")])]).

(** No slot for the assistant on any day. *)
Definition carol : User.IUser :=
  userWith (Some [("monday", [("morning",
     {| User.assistantId := "asst_B"; User.callTimeStart := "09:00";
        User.callTimeEnd := "17:00" |})])]).

Definition worldOf (u : User.IUser) : World :=
  {| users := [u]; callQueueDone := []; callData := []; callQueue := [];
     emailQueue := []; schedulerQueue := []; uploads := []; console := [];
     history := [] |}.

(** A Monday, 10:00 local time; the store and the voice service answer as
    given. *)
Definition envWith (within : bool) (db : option JsError)
    (busy : Outcome bool) (call : option JsError) : Env :=
  {| now := 1700000000000 + 36000000;
     nowAfterCall := 1700000000000 + 36002000;
     todayStart := 1700000000000;
     getCurrentDayOfWeek := "monday";
     isWithinCallHours := fun _ _ => within;
     connectDB := db;
     isVapiBusy := busy;
     makeCall := fun _ _ _ => call;
     ADMIN_EMAIL := Some "ops@example.com, oncall@example.com";
     EMAIL_TO := Some "reports@example.com" |}.

Definition env0 : Env := envWith true None (Return false) None.

Definition dana : Config.Contact :=
  {| Config.name := "Dana"; Config.number := "+15550123" |}.

Definition data0 : Config.JobData :=
  {| Config.userId := "u1"; Config.assistantId := "asst_A";
     Config.contact := dana; Config.priority := Some 1%float;
     Config.delay := None; Config.metadata := None |}.

(** A call job as [addCallJob(data0)] creates it on an empty queue. *)
Definition job0 : BullMQ.Job Config.JobData :=
  BullMQ.newJob Config.defaultJobOptions [] "make-call" data0
    {| BullMQ.priority := Some 1%float; BullMQ.delay := Some 0%float;
       BullMQ.attempts := None; BullMQ.backoff := None;
       BullMQ.removeOnComplete := None; BullMQ.removeOnFail := None |}.

(** A request for one contact with base priority 0. *)
Definition bodyPriorityZero : Routes.Body :=
  {| Routes.clerkId := Some "u1";
     Routes.contacts := Some [{| Routes.name := Some "Dana";
                                 Routes.number := Some "+15550123" |}];
     Routes.assistantId := Some "asst_A";
     Routes.priority := Some 0%float;
     Routes.delay := None |}.

Definition five : list Routes.ContactInput :=
  map (fun n => {| Routes.name := Some n; Routes.number := Some "+15550123" |})
    ["Ann"; "Ben"; "Cyd"; "Dee"; "Eli"].

(** A request for five contacts with base priority 1 and delay 0. *)
Definition bodyFive : Routes.Body :=
  {| Routes.clerkId := Some "u1";
     Routes.contacts := Some five;
     Routes.assistantId := Some "asst_A";
     Routes.priority := Some 1%float;
     Routes.delay := Some 0%float |}.

(** A call job in a given state, finished at a given instant. *)
Definition jobIn (i : nat) (s : BullMQ.JobState) (finished : option Z)
  : BullMQ.Job Config.JobData :=
  {| BullMQ.id := i; BullMQ.jobName := "make-call"; BullMQ.data := data0;
     BullMQ.opts := Config.defaultJobOptions; BullMQ.state := s;
     BullMQ.attemptsMade := 1; BullMQ.finishedOn := finished |}.

(** A world whose call queue holds 15 active and 60 failed jobs. *)
Definition world_15_60 : World :=
  {| users := []; callQueueDone := []; callData := [];
     callQueue :=
       map (fun i => jobIn i BullMQ.active None) (seq 0 15)
       ++ map (fun i => jobIn i BullMQ.failed (Some 1700000000000))
            (seq 15 60);
     emailQueue := []; schedulerQueue := []; uploads := []; console := [];
     history := [] |}.

Definition healthJob : BullMQ.Job SchedulerJob.SchedulerJobData :=
  BullMQ.newJob Config.defaultJobOptions [] "health-check"
    {| SchedulerJob.type := SchedulerJob.health_check;
       SchedulerJob.metadata := None |} BullMQ.noOptions.

(** A call with the given success flag, duration and reason. *)
Definition callWith (flag : option bool) (seconds : JS.number) (why : string)
  : CallData.CallReportData :=
  {| CallData.successEvaluation := flag;
     CallData.startedAt := Some (1700000000000 + 3600000);
     CallData.cost := Some 0.05%float;
     CallData.endedReason := Some why;
     CallData.durationSeconds := Some seconds;
     CallData.assistantName := Some "Asst" |}.

Definition flagged : JS.number -> string -> CallData.CallReportData :=
  callWith (Some true).

(** Three calls: two flagged, of 30 s, completed; one of 5 s. *)
Definition scenarioCalls : list CallData.CallReportData :=
  [flagged 30%float "completed"; flagged 30%float "completed";
   flagged 5%float "completed"].

(** Three calls, two of them flagged: one of 30 s, one of 5 s. *)
Definition oneOfThree : list CallData.CallReportData :=
  [flagged 30%float "completed"; flagged 5%float "completed";
   callWith (Some false) 30%float "completed"].

Definition worldWithCalls (calls : list CallData.CallReportData) : World :=
  {| users := []; callQueueDone := [];
     callData :=
       map (fun c => {| CallData.userId := "user_2x0DhdwrWfE9PpFSljdOd3aOvYG";
                        CallData.call := c |}) calls;
     callQueue := []; emailQueue := []; schedulerQueue := []; uploads := [];
     console := []; history := [] |}.

Definition dailyJob : BullMQ.Job SchedulerJob.SchedulerJobData :=
  BullMQ.newJob Config.defaultJobOptions [] "daily-report"
    {| SchedulerJob.type := SchedulerJob.daily_report;
       SchedulerJob.metadata := None |} BullMQ.noOptions.

Definition cleanupJob : BullMQ.Job SchedulerJob.SchedulerJobData :=
  BullMQ.newJob Config.defaultJobOptions [] "daily-cleanup"
    {| SchedulerJob.type := SchedulerJob.cleanup;
       SchedulerJob.metadata := None |} BullMQ.noOptions.

(** A world whose call queue holds one failed job that finished two days
    before the clock of [env0]. *)
Definition worldOldFailure : World :=
  {| users := []; callQueueDone := []; callData := [];
     callQueue := [jobIn 0 BullMQ.failed (Some (1700036000000 - 172800000))];
     emailQueue := []; schedulerQueue := []; uploads := []; console := [];
     history := [] |}.

Definition invalidNumber : JsError := newError "Invalid phone number".

Definition networkError : JsError :=
  {| errName := "Error"; message := Some "socket hang up";
     code := Some "NETWORK_ERROR" |}.

End Examples.

(* ================================================================== *)
(** ** Vocabulary of the statements *)
(* ================================================================== *)

(** *** Call dispatch *)

(** The record a dispatch creates, and the update that follows the call. *)
Definition pendingDoc (job : BullMQ.Job Config.JobData) (env : Env)
    (w : World) : CallQueueDone.Doc :=
  {| CallQueueDone._id := CallQueueDone.freshId (callQueueDone w);
     CallQueueDone.userId := Config.userId (BullMQ.data job);
     CallQueueDone.agentId := Config.assistantId (BullMQ.data job);
     CallQueueDone.name := Config.name (Config.contact (BullMQ.data job));
     CallQueueDone.number := Config.number (Config.contact (BullMQ.data job));
     CallQueueDone.status := CallQueueDone.pending_initiation;
     CallQueueDone.createdAt := now env;
     CallQueueDone.completedAt := None;
     CallQueueDone.reason := None |}.

Definition updateAfter (env : Env) (called : option JsError)
  : CallQueueDone.Update :=
  match called with
  | None =>
      {| CallQueueDone.setStatus := CallQueueDone.initiated;
         CallQueueDone.setReason := None;
         CallQueueDone.setCompletedAt := nowAfterCall env |}
  | Some e =>
      {| CallQueueDone.setStatus := CallQueueDone.failed;
         CallQueueDone.setReason :=
           Some (JS.orString (message e) "Unknown error");
         CallQueueDone.setCompletedAt := nowAfterCall env |}
  end.

(** The transitions of the status of a record. *)
Inductive Transition : CallQueueDone.Status -> CallQueueDone.Status -> Prop :=
| initiate :
    Transition CallQueueDone.pending_initiation CallQueueDone.initiated
| fail :
    Transition CallQueueDone.pending_initiation CallQueueDone.failed.

(** What the [catch] of [process] throws for a caught error. *)
Definition surfaced (error : JsError) : JsError :=
  if CallProcessor.isRetryableError error then error
  else newError ("Permanent failure: " ++ JS.interpolate (message error)).

(** A job passes the window check when the store answers, the user exists
    and the assistant has a current slot within call hours. *)
Definition inCallHours (job : BullMQ.Job Config.JobData) (env : Env)
    (w : World) (user : User.IUser) : Prop :=
  connectDB env = None /\
  User.findById (Config.userId (BullMQ.data job)) (users w) = Some user /\
  CallProcessor.outsideCallHours env
    (CallProcessor.getCurrentSlotForAssistant env user
       (Config.assistantId (BullMQ.data job))) = false.

(** A job fails the window check. *)
Definition outOfCallHours (job : BullMQ.Job Config.JobData) (env : Env)
    (w : World) (user : User.IUser) : Prop :=
  connectDB env = None /\
  User.findById (Config.userId (BullMQ.data job)) (users w) = Some user /\
  CallProcessor.outsideCallHours env
    (CallProcessor.getCurrentSlotForAssistant env user
       (Config.assistantId (BullMQ.data job))) = true.

(** The world after the attempt. *)
Definition afterAttempt (job : BullMQ.Job Config.JobData) (env : Env)
    (w : World) (called : option JsError) : World :=
  let d := pendingDoc job env w in
  let u := updateAfter env called in
  setHistory
    (history w ++ [Created d;
                   Called (Config.contact (BullMQ.data job))
                     (Config.assistantId (BullMQ.data job));
                   Updated (CallQueueDone._id d) u])
    (setCallQueueDone (callQueueDone w ++ [CallQueueDone.apply u d]) w).

(** The line the [catch] of [process] writes for a caught error. *)
Definition failureLine (job : BullMQ.Job Config.JobData) (error : JsError)
  : LogLevel * string :=
  (LogError,
   ("❌ Call processing failed for "
      ++ Config.name (Config.contact (BullMQ.data job)) ++ ": "
      ++ JS.interpolate (message error))%string).

(** The line written once the call is placed. *)
Definition successLine (job : BullMQ.Job Config.JobData)
  : LogLevel * string :=
  (LogInfo,
   ("✅ Call successfully made to "
      ++ Config.name (Config.contact (BullMQ.data job))
      ++ " (" ++ Config.number (Config.contact (BullMQ.data job)) ++ ")")%string).

(** The three attempts the broker gives a job, each run in the world the
    one before left. *)
Definition threeAttempts (job : BullMQ.Job Config.JobData) (env : Env)
    (w : World) : list (Outcome CallProcessor.Result) * World :=
  let r1 := CallProcessor.process job env w in
  let r2 := CallProcessor.process job env (snd r1) in
  let r3 := CallProcessor.process job env (snd r2) in
  ([fst r1; fst r2; fst r3], snd r3).

(** *** Next slot *)

(** [daysToCheck.indexOf(currentDay)] *)
Definition currentDayIndex (env : Env) : Z :=
  CallProcessor.indexOf (getCurrentDayOfWeek env) CallProcessor.daysToCheck 0.

(** The assistant has a slot on the given day. *)
Definition dayHasSlot (user : User.IUser) (assistantId day : string) : bool :=
  match User.scheduleOf user day with
  | Some daySchedule => existsb (CallProcessor.matches assistantId) daySchedule
  | None => false
  end.

(** The clock is within the current day. *)
Definition clockWithinToday (env : Env) : Prop :=
  todayStart env <= now env < todayStart env + 86400000.

(** The start time of a slot, in milliseconds after midnight, when it
    parses. *)
Definition startTimeOfDay (sd : User.SlotData) : option Z :=
  let parts := JS.split ":" (User.callTimeStart sd) in
  match JS.parseIntAt parts 0, JS.parseIntAt parts 1 with
  | Some h, Some m => Some (h * 3600000 + m * 60000)
  | _, _ => None
  end.

(** The instant a slot starts on the day [offset] days after today. *)
Definition startInstant (env : Env) (offset : Z) (sd : User.SlotData)
  : option Z :=
  option_map (fun ms => todayStart env + offset * 86400000 + ms)
    (startTimeOfDay sd).

(** The returned slot starts after now, and no slot of the assistant in
    the seven days ahead starts after now and before it. *)
Definition earliestInLookahead (env : Env) (user : User.IUser)
    (assistantId : string) (r : CallProcessor.NextSlot) : Prop :=
  exists i t,
    1 <= i <= 7
    /\ CallProcessor.day r = CallProcessor.dayNameAt (currentDayIndex env) i
    /\ startInstant env i (CallProcessor.slotData r) = Some t
    /\ now env < t
    /\ forall j daySchedule slotName sd t',
         1 <= j <= 7 ->
         User.scheduleOf user
           (CallProcessor.dayNameAt (currentDayIndex env) j)
         = Some daySchedule ->
         In (slotName, sd) daySchedule ->
         User.assistantId sd = assistantId ->
         startInstant env j sd = Some t' ->
         now env < t' ->
         t <= t'.

(** *** Bulk enqueue *)

(** The staggered delay and priority of the job at [index]. *)
Definition staggeredDelay (d : JS.number) (index : nat) : JS.number :=
  PrimFloat.add d (PrimFloat.mul (JS.ofNat index) 1000%float).

Definition staggeredPriority (p : JS.number) (index : nat) : JS.number :=
  PrimFloat.add p (PrimFloat.mul (JS.ofNat index) 0.01%float).

(** The stagger as stated: job [i] has delay [d + 1000 i] and priority
    [p + 0.01 i]. *)
Definition staggerAsStated (p d : JS.number)
    (jobs : list (BullMQ.Job Config.JobData)) : Prop :=
  forall i j,
    nth_error jobs i = Some j ->
    BullMQ.delay (BullMQ.opts j) = Some (staggeredDelay d i)
    /\ BullMQ.priority (BullMQ.opts j) = Some (staggeredPriority p i).

(** The request is accepted: the body is complete, the store answers, the
    user exists and has a telephony configuration, and some contact is
    valid. *)
Definition accepted (body : Routes.Body) (env : Env) (w : World)
    (user : User.IUser) (assistantId : string)
    (contacts : list Routes.ContactInput) : Prop :=
  connectDB env = None
  /\ Routes.contacts body = Some contacts
  /\ (exists clerkId,
        Routes.clerkId body = Some clerkId
        /\ clerkId <> EmptyString
        /\ User.findById clerkId (users w) = Some user)
  /\ Routes.assistantId body = Some assistantId
  /\ assistantId <> EmptyString
  /\ Routes.hasTwilio user = true
  /\ filter Routes.isValidContact contacts <> [].

(** [priority = 1] and [delay = 0] in the destructuring of the body. *)
Definition basePriority (body : Routes.Body) : JS.number :=
  match Routes.priority body with Some p => p | None => 1%float end.

Definition baseDelay (body : Routes.Body) : JS.number :=
  match Routes.delay body with Some d => d | None => 0%float end.

Fixpoint strictlyIncreasing (xs : list JS.number) : bool :=
  match xs with
  | x :: ((y :: _) as rest) => PrimFloat.ltb x y && strictlyIncreasing rest
  | _ => true
  end.

(** The priority job [index] of a bulk request is handed to the broker
    with: [job.data.priority || 1]. *)
Definition queuedPriority (p : JS.number) (index : nat) : JS.number :=
  JS.orNumber (Some (staggeredPriority p index)) 1%float.

(** The broker's answer to the priorities of the jobs [index],
    [index + 1], ... of a bulk request, [count] of them: the first
    refusal. *)
Fixpoint refusalFrom (p : JS.number) (index count : nat) : option JsError :=
  match count with
  | O => None
  | S k =>
      match BullMQ.validatePriority (Some (queuedPriority p index)) with
      | Some e => Some e
      | None => refusalFrom p (S index) k
      end
  end.

Definition bulkRefusal (p : JS.number) (count : nat) : option JsError :=
  refusalFrom p 0 count.

(** What [addBulkCallJobs] hands to the broker for the jobs of the
    route. *)
Definition preparedForBroker
    (jobs : list (Config.JobData * BullMQ.JobsOptions))
  : list (string * Config.JobData * BullMQ.JobsOptions) :=
  map (fun job : Config.JobData * BullMQ.JobsOptions =>
         ("make-call", fst job,
          BullMQ.spread
            {| BullMQ.priority :=
                 Some (JS.orNumber (Config.priority (fst job)) 1%float);
               BullMQ.delay :=
                 Some (JS.orNumber (Config.delay (fst job)) 0%float);
               BullMQ.attempts := None; BullMQ.backoff := None;
               BullMQ.removeOnComplete := None;
               BullMQ.removeOnFail := None |}
            (snd job)))
      jobs.

(** The jobs the broker writes for a bulk request it accepts. *)
Definition bulkJobs (user : User.IUser) (assistantId : string)
    (p d : JS.number) (queuedAt : Z) (valid : list Routes.ContactInput)
    (q : BullMQ.Queue Config.JobData) : list (BullMQ.Job Config.JobData) :=
  fst (BullMQ.addAll Config.defaultJobOptions
         (preparedForBroker
            (Routes.mapIndex
               (Routes.prepareJob user assistantId p d queuedAt) valid 0%nat))
         q).

(** The lines the route writes. *)
Definition queuedLine (n : nat) (assistantId : string) : LogLevel * string :=
  (LogInfo,
   ("✅ " ++ JS.natToString n ++ " contacts queued for assistant "
      ++ assistantId)%string).

Definition queueErrorLine (e : JsError) : LogLevel * string :=
  (LogError, ("❌ Queue error: " ++ JS.interpolate (message e))%string).

(** The world once the jobs of an accepted request are written and the
    route has logged them. *)
Definition afterBulk (body : Routes.Body) (env : Env) (w : World)
    (user : User.IUser) (assistantId : string)
    (contacts : list Routes.ContactInput) : World :=
  let valid := filter Routes.isValidContact contacts in
  setConsole
    (console w ++ [queuedLine (List.length valid) assistantId])
    (setCallQueue
       (callQueue w ++
          bulkJobs user assistantId (basePriority body) (baseDelay body)
            (now env) valid (callQueue w)) w).

(** The time the route renders as the estimated start. *)
Definition estimatedStart (body : Routes.Body) (env : Env) : JS.number :=
  PrimFloat.add (JS.ofZ (now env)) (baseDelay body).

(** *** Health check *)

(** The depth of the active and of the failed set of the call queue. *)
Definition activeCalls (w : World) : nat :=
  List.length (BullMQ.getJobs BullMQ.active (callQueue w)).

Definition failedCalls (w : World) : nat :=
  List.length (BullMQ.getJobs BullMQ.failed (callQueue w)).


(** *** Reports and cleanup *)

(** The line the daily report job writes when no call matches. *)
Definition noCallsLine : LogLevel * string :=
  (LogInfo, "📭 No calls found for daily report").

(** The email the daily report script queues when no call matches. *)
Definition noCallsEmail (env : Env) : Email.EmailJobData :=
  {| Email.type := Email.daily_report;
     Email.to := Email.recipients (EMAIL_TO env);
     Email.subject := Email.NoCallsSubject (now env);
     Email.html := Email.NoCallsHtml (now env);
     Email.filePaths := None;
     Email.cleanup := false |}.

(** No call of the report user started in the last 24 hours. *)
Definition noCallsToday (env : Env) (w : World) : Prop :=
  CallData.aggregate SchedulerProcessor.reportUserId
    (now env - 24 * 60 * 60 * 1000) (now env) (callData w) = [].

Definition day24h : Z := 24 * 60 * 60 * 1000.

(** A queue after a sweep of its completed jobs: nothing is added; every
    job that is not a completed job finished 24 hours ago or more stays;
    at most 100 jobs are removed, and exactly 100 when more are eligible;
    the failed jobs are the same. *)
Definition sweptOfCompleted {D} (now : Z) (before after : BullMQ.Queue D)
  : Prop :=
  after = BullMQ.clean now day24h 100 BullMQ.completed before
  /\ (forall j, In j after -> In j before)
  /\ (forall j, In j before ->
                BullMQ.cleanable now day24h BullMQ.completed j = false ->
                In j after)
  /\ List.length after
     = (List.length before
        - Nat.min 100
            (List.length
               (filter (BullMQ.cleanable now day24h BullMQ.completed)
                  before)))%nat
  /\ BullMQ.getJobs BullMQ.failed after = BullMQ.getJobs BullMQ.failed before.

(** The sweep as stated: a failed job of the call queue that finished 24
    hours ago or more is gone after the cleanup, when the queue holds no
    more than 100 jobs. *)
Definition sweepsFailedAsStated (env : Env) (before after : World) : Prop :=
  forall j t,
    In j (callQueue before) ->
    BullMQ.state j = BullMQ.failed ->
    BullMQ.finishedOn j = Some t ->
    t <= now env - day24h ->
    (List.length (callQueue before) <= 100)%nat ->
    ~ In j (callQueue after).

(* ================================================================== *)
(** ** [queues/processors/EmailProcessor.ts] *)
(* ================================================================== *)

Module EmailProcessor.

(** A file read for an attachment: its path and what the file holds.  The
    file name, the base-64 content and the content type of the attachment
    derive from them. *)
Definition FileAttachment : Type :=
  (string * list CallData.CallReportData)%type.

(** The message [resend.emails.send] is called with.  The jobs the sources
    queue carry no text and no inline attachment. *)
Record Mail := {
  from : string;
  to : list string;
  subject : Email.Subject;
  html : Email.Html;
  attachments : option (list FileAttachment)
}.

Definition typeTag (t : Email.EmailType) : string :=
  match t with
  | Email.daily_report => "daily_report"
  | Email.notification => "notification"
  | Email.alert => "alert"
  end.

Definition isPath (p : string) (f : FileAttachment) : bool :=
  String.eqb (fst f) p.

(** [fs.existsSync(filePath)] *)
Definition existsSync (p : string) (w : World) : bool :=
  existsb (isPath p) (uploads w).

(** [fs.readFileSync(filePath)]: the file as last written. *)
Definition readFileSync (p : string) (w : World) : option FileAttachment :=
  find (isPath p) (rev (uploads w)).

(** [fs.unlinkSync(filePath)] *)
Definition unlinkSync (p : string) (w : World) : World :=
  setUploads (filter (fun f => negb (isPath p f)) (uploads w)) w.

(** [filePaths.map(...)]: the attachments in order, or the first path
    that does not exist (a file that exists can be read). *)
Fixpoint readAll (paths : list string) (w : World)
  : string + list FileAttachment :=
  match paths with
  | [] => inr []
  | p :: rest =>
      if existsSync p w then
        match readFileSync p w, readAll rest w with
        | Some f, inr fs => inr (f :: fs)
        | _, inl missing => inl missing
        | None, inr fs => inr fs
        end
      else inl p
  end.

(** [cleanupFiles(filePaths, true)]; the removal of the uploads directory
    once it is empty is not recorded. *)
Fixpoint cleanupFiles (paths : list string) (w : World) : World :=
  match paths with
  | [] => w
  | p :: rest =>
      cleanupFiles rest
        (if existsSync p w then
           setConsole
             (console w ++ [(LogInfo, ("🗑️ Cleaned up file: " ++ p)%string)])
             (unlinkSync p w)
         else w)
  end.

(** [Error], the global constructor the source tests after the send, is
    an object, hence truthy; [String(Error)] is its source text. *)
Definition globalErrorIsTruthy : bool := true.

Definition globalErrorText : string := "function Error() { [native code] }".

(** [data], which the source reads after the test, is declared nowhere. *)
Definition dataIsNotDefined : JsError :=
  {| errName := "ReferenceError"; message := Some "data is not defined";
     code := None |}.

Definition write (line : LogLevel * string) (w : World) : World :=
  setConsole (console w ++ [line]) w.

(** The body of the [try]: the outcome, the world, and the calls made to
    [resend.emails.send]. *)
Definition send (resend : Mail -> option JsError)
    (job : BullMQ.Job Email.EmailJobData) (w : World)
  : Outcome unit * World * list Mail :=
  let d := BullMQ.data job in
  let read :=
    match Email.filePaths d with
    | Some (p :: ps) => readAll (p :: ps) w
    | _ => inr []
    end in
  match read with
  | inl missing => (Throw (newError ("File not found: " ++ missing)%string), w, [])
  | inr files =>
      let mail :=
        {| from := "GlobalTFN Bot <noreply@mail.globaltfn.tech>";
           to := Email.to d;
           subject := Email.subject d;
           html := Email.html d;
           attachments := match files with [] => None | _ => Some files end |}
      in
      match resend mail with
      | Some e => (Throw e, w, [mail])
      | None =>
          if globalErrorIsTruthy then
            (Throw (newError ("Email sending failed: " ++ globalErrorText)%string),
             write (LogError,
                    ("❌ Resend error for job "
                       ++ JS.natToString (BullMQ.id job) ++ ":")%string) w,
             [mail])
          else
            (Throw dataIsNotDefined,
             match Email.filePaths d with
             | Some ps => if Email.cleanup d then cleanupFiles ps w else w
             | None => w
             end,
             [mail])
      end
  end.

(** [process(job)] *)
Definition process (resend : Mail -> option JsError)
    (job : BullMQ.Job Email.EmailJobData) (w : World)
  : Outcome unit * World * list Mail :=
  let d := BullMQ.data job in
  let started :=
    write (LogInfo,
           ("📧 Processing " ++ typeTag (Email.type d) ++ " email job "
              ++ JS.natToString (BullMQ.id job))%string) w in
  match send resend job started with
  | (Return r, w', mails) => (Return r, w', mails)
  | (Throw error, w', mails) =>
      let logged :=
        write (LogError,
               ("❌ Email job " ++ JS.natToString (BullMQ.id job)
                  ++ " failed: " ++ JS.interpolate (message error))%string)
          w' in
      (Throw error,
       match Email.filePaths d with
       | Some ps => if Email.cleanup d then cleanupFiles ps logged else logged
       | None => logged
       end,
       mails)
  end.

End EmailProcessor.

(* ================================================================== *)
(** ** [routes.ts]: [DELETE /clear-failed-jobs] *)
(* ================================================================== *)

Module ClearFailedJobs.

Record Cleared := { clearedCount : nat; timestamp : Z }.

(** The handler: the failed call jobs are counted, then swept with no
    grace and no limit. *)
Definition handler : M Cleared :=
  env <- ask ;;
  w <- get ;;
  let failedJobs := BullMQ.getJobs BullMQ.failed (callQueue w) in
  let failedCount := List.length failedJobs in
  modify (fun w =>
    setCallQueue (BullMQ.clean (now env) 0 0 BullMQ.failed (callQueue w)) w) ;;
  ret {| clearedCount := failedCount; timestamp := now env |}.

End ClearFailedJobs.

(* ================================================================== *)
(** ** [utils/reportGenerator.ts]: the text of a report cell *)
(* ================================================================== *)

Module ReportFormat.

(** A string as its UTF-16 code units, the units [length] and
    [substring] count. *)
Definition Text : Type := list N.

Definition ellipsis : Text := [46; 46; 46]%N.

(** [truncateText(text, maxLength)], for a [maxLength] that is a natural
    number; the result of a missing or empty text is the empty string. *)
Definition truncateText (text : option Text) (maxLength : nat) : Text :=
  match text with
  | None => []
  | Some [] => []
  | Some t =>
      if Nat.leb (List.length t) maxLength then t
      else firstn maxLength t ++ ellipsis
  end.

End ReportFormat.

(* ================================================================== *)
(** ** Vocabulary of the further statements *)
(* ================================================================== *)

(** The error a run of the call processor meets before the attempt: the
    store does not answer, the user does not exist, or, past the window
    check, the question whether the voice service is busy fails. *)
Definition earlyFailure (job : BullMQ.Job Config.JobData) (env : Env)
    (w : World) : option JsError :=
  match connectDB env with
  | Some e => Some e
  | None =>
      match User.findById (Config.userId (BullMQ.data job)) (users w) with
      | None =>
          Some (newError ("User not found: "
                            ++ Config.userId (BullMQ.data job))%string)
      | Some user =>
          if CallProcessor.outsideCallHours env
               (CallProcessor.getCurrentSlotForAssistant env user
                  (Config.assistantId (BullMQ.data job)))
          then None
          else match isVapiBusy env with
               | Throw e => Some e
               | Return _ => None
               end
      end
  end.

(** [s] is [pre ++ sub ++ post] for some [pre] and [post]. *)
Definition occursIn (sub s : string) : Prop :=
  exists pre post, s = (pre ++ sub ++ post)%string.

(** A response that refuses the request. *)
Definition refused (r : Routes.Response) : bool :=
  match r with
  | Routes.Status200 _ _ _ _ => false
  | _ => true
  end.

(** A string that does not start with white space. *)
Definition startsClean (s : string) : Prop :=
  match s with
  | EmptyString => True
  | String c _ => JS.isSpace c = false
  end.

Fixpoint hasChar (c : ascii) (s : string) : bool :=
  match s with
  | EmptyString => false
  | String x rest => Ascii.eqb x c || hasChar c rest
  end.

Fixpoint countChar (c : ascii) (s : string) : nat :=
  match s with
  | EmptyString => O
  | String x rest => ((if Ascii.eqb x c then 1 else 0) + countChar c rest)%nat
  end.

(** The line [process] of the scheduler writes before it dispatches. *)
Definition schedulerStarted (job : BullMQ.Job SchedulerJob.SchedulerJobData)
    (w : World) : World :=
  setConsole
    (console w ++
       [(LogInfo,
         ("⏰ Processing scheduler job: "
            ++ SchedulerProcessor.typeTag
                 (SchedulerJob.type (BullMQ.data job))
            ++ " (" ++ JS.natToString (BullMQ.id job) ++ ")")%string)]) w.

(** The calls the daily report reads. *)
Definition callsToday (env : Env) (w : World) : list CallData.CallReportData :=
  CallData.aggregate SchedulerProcessor.reportUserId
    (now env - 24 * 60 * 60 * 1000) (now env) (callData w).

(** The report files the daily report job writes for the calls. *)
Definition dailyFiles (data : list CallData.CallReportData)
  : list (string * list CallData.CallReportData) :=
  (ReportGenerator.reportPath "DailyReport_AllCalls", data)
  :: match filter ReportGenerator.isSuccessfulCall data with
     | [] => []
     | successful =>
         [(ReportGenerator.reportPath "DailyReport_SuccessfulCalls",
           successful)]
     end.

(** The email the daily report job queues for the calls. *)
Definition dailyEmail (env : Env) (data : list CallData.CallReportData)
  : Email.EmailJobData :=
  let successful := filter ReportGenerator.isSuccessfulCall data in
  {| Email.type := Email.daily_report;
     Email.to := Email.recipients (EMAIL_TO env);
     Email.subject := Email.DailyReportSubject (now env);
     Email.html :=
       Email.DailyReportHtml (now env) (List.length data)
         (List.length successful)
         (SchedulerProcessor.successRateText (List.length successful)
            (List.length data));
     Email.filePaths := Some (map fst (dailyFiles data));
     Email.cleanup := true |}.

(** The email job the daily report job leaves on the queue. *)
Definition dailyEmailJob (env : Env) (w : World)
  : BullMQ.Job Email.EmailJobData :=
  BullMQ.newJob Config.defaultJobOptions (emailQueue w) "send-email"
    (dailyEmail env (callsToday env w)) BullMQ.noOptions.

(** The names an object inherits from [Object.prototype]: on such a key
    [acc[key]] does not read a count. *)
Definition objectPrototypeNames : list string :=
  ["constructor"; "__proto__"; "hasOwnProperty"; "isPrototypeOf";
   "propertyIsEnumerable"; "toLocaleString"; "toString"; "valueOf";
   "__defineGetter__"; "__defineSetter__"; "__lookupGetter__";
   "__lookupSetter__"].

(** The key a call is counted under in the breakdown by end reason. *)
Definition reasonKey (c : CallData.CallReportData) : string :=
  JS.orString (CallData.endedReason c) "unknown".

Definition plainReasons (calls : list CallData.CallReportData) : Prop :=
  Forall (fun c => ~ In (reasonKey c) objectPrototypeNames) calls.

(** The count recorded under a key, 0 when the key is absent. *)
Definition countOf (key : string) (acc : list (string * nat)) : nat :=
  match User.lookup key acc with
  | Some n => n
  | None => O
  end.

(** The completed jobs of a queue a sweep may remove. *)
Definition eligible {D} (now : Z) (q : BullMQ.Queue D) : nat :=
  List.length (filter (BullMQ.cleanable now day24h BullMQ.completed) q).

(** More inputs. *)
Module Examples2.

Definition reportEmail : Email.EmailJobData :=
  {| Email.type := Email.daily_report;
     Email.to := ["reports@example.com"];
     Email.subject := Email.DailyReportSubject 1700036000000;
     Email.html := Email.DailyReportHtml 1700036000000 3 2 "66.7";
     Email.filePaths :=
       Some [ReportGenerator.reportPath "DailyReport_AllCalls"];
     Email.cleanup := true |}.

Definition reportEmailJob : BullMQ.Job Email.EmailJobData :=
  BullMQ.newJob Config.defaultJobOptions [] "send-email" reportEmail
    BullMQ.noOptions.

Definition worldWithReport : World :=
  {| users := []; callQueueDone := []; callData := []; callQueue := [];
     emailQueue := []; schedulerQueue := [];
     uploads := [(ReportGenerator.reportPath "DailyReport_AllCalls",
                  Examples.scenarioCalls);
                 ("uploads/other.xlsx", [])];
     console := []; history := [] |}.

Definition resendOk : EmailProcessor.Mail -> option JsError := fun _ => None.

End Examples2.

(* ================================================================== *)
(** ** Properties of the call processor *)
(* ================================================================== *)

Section CallProcessorFacts.

Import CallProcessor.

(** *** The collection of attempt records *)

Lemma freshId_above (docs : list CallQueueDone.Doc) (d : CallQueueDone.Doc) :
  In d docs -> (CallQueueDone._id d < CallQueueDone.freshId docs)%nat.
Proof.
  unfold CallQueueDone.freshId.
  induction docs as [|x rest IH]; simpl; intros Hin.
  - contradiction.
  - destruct Hin as [-> | Hin].
    + lia.
    + specialize (IH Hin). lia.
Qed.

Lemma updateOne_absent (i : nat) (u : CallQueueDone.Update)
    (docs : list CallQueueDone.Doc) :
  (forall d, In d docs -> CallQueueDone._id d <> i) ->
  CallQueueDone.updateOne i u docs = docs.
Proof.
  induction docs as [|x rest IH]; simpl; intros Hne.
  - reflexivity.
  - destruct (Nat.eqb_spec (CallQueueDone._id x) i) as [Heq | _].
    + exfalso. apply (Hne x); auto.
    + f_equal. apply IH. intros d Hd. apply Hne. auto.
Qed.

Lemma updateOne_last (u : CallQueueDone.Update)
    (docs : list CallQueueDone.Doc) (d0 : CallQueueDone.Doc) :
  (forall d, In d docs -> CallQueueDone._id d <> CallQueueDone._id d0) ->
  CallQueueDone.updateOne (CallQueueDone._id d0) u (docs ++ [d0])
  = docs ++ [CallQueueDone.apply u d0].
Proof.
  induction docs as [|x rest IH]; simpl; intros Hne.
  - now rewrite Nat.eqb_refl.
  - destruct (Nat.eqb_spec (CallQueueDone._id x) (CallQueueDone._id d0))
      as [Heq | _].
    + exfalso. apply (Hne x); auto.
    + f_equal. apply IH. intros d Hd. apply Hne. auto.
Qed.

Lemma pendingDoc_fresh job env w d :
  In d (callQueueDone w) ->
  CallQueueDone._id d <> CallQueueDone._id (pendingDoc job env w).
Proof.
  intros Hin. apply freshId_above in Hin. simpl. lia.
Qed.

(** The attempt creates the record, places the call and updates the
    record, whatever the call answers. *)
Lemma attempt_run job env w user :
  let c := Config.contact (BullMQ.data job) in
  let aid := Config.assistantId (BullMQ.data job) in
  let uid := Config.userId (BullMQ.data job) in
  let called := makeCall env user c aid in
  let w' := afterAttempt job env w called in
  attempt user uid aid c env w =
  match called with
  | None =>
      (Return (Completed (CallQueueDone._id (pendingDoc job env w)) c),
       setConsole (console w' ++ [successLine job]) w')
  | Some e => (Throw e, w')
  end.
Proof.
  intros c aid uid called w'.
  pose proof (updateOne_last (updateAfter env called) (callQueueDone w)
                (pendingDoc job env w) (pendingDoc_fresh job env w)) as Hup.
  subst w' c aid uid. unfold afterAttempt, successLine.
  unfold attempt, createCallQueueDone, awaitMakeCall, updateCallQueueDone,
    record, consoleWrite, modify, await, ask, tryCatch, bind, ret, throw.
  unfold called in *. clear called.
  destruct (makeCall env user _ _) as [e|];
    unfold pendingDoc in *; simpl in *;
    unfold setHistory, setCallQueueDone, setConsole; simpl;
    rewrite Hup, <- !app_assoc; reflexivity.
Qed.


(** Runs [process] up to the outcome of the window check: the store
    answers ([Hdb]), the user exists ([Huser]) and the check of the current
    slot is decided ([Hslot]). *)
Ltac window_check Hdb Huser Hslot :=
  unfold process, tryCatch at 1;
  unfold bind at 1; unfold awaitConnectDB, await; rewrite Hdb;
  unfold bind at 1; unfold get; rewrite Huser;
  unfold bind at 1; unfold ask; rewrite Hslot.

(** The run of a job that passes the window check while the voice service
    is free: the attempt, then the classification of a failure. *)
Lemma process_attempt job env w user :
  inCallHours job env w user ->
  isVapiBusy env = Return false ->
  let called :=
    makeCall env user (Config.contact (BullMQ.data job))
      (Config.assistantId (BullMQ.data job)) in
  let w' := afterAttempt job env w called in
  process job env w =
  match called with
  | None =>
      (Return (Completed (CallQueueDone._id (pendingDoc job env w))
                 (Config.contact (BullMQ.data job))),
       setConsole (console w' ++ [successLine job]) w')
  | Some e =>
      (Throw (surfaced e), setConsole (console w' ++ [failureLine job e]) w')
  end.
Proof.
  intros (Hdb & Huser & Hslot) Hbusy called w'.
  pose proof (attempt_run job env w user) as Hrun. simpl in Hrun.
  fold called in Hrun. fold w' in Hrun.
  window_check Hdb Huser Hslot.
  unfold bind at 1. unfold await. rewrite Hbusy.
  rewrite Hrun. unfold surfaced, failureLine.
  destruct called as [e|]; [|reflexivity].
  unfold bind, consoleWrite, modify, throw.
  destruct (isRetryableError e); reflexivity.
Qed.

(** The run of a job that passes the window check while the voice service
    is busy. *)
Lemma process_busy job env w user :
  inCallHours job env w user ->
  isVapiBusy env = Return true ->
  process job env w =
  (Return Delayed,
   setCallQueue
     (callQueue w ++
        [BullMQ.newJob Config.defaultJobOptions (callQueue w) "make-call"
           (BullMQ.data job)
           {| BullMQ.priority :=
                Some (JS.orNumber (Config.priority (BullMQ.data job)) 1%float);
              BullMQ.delay := Some 15000%float;
              BullMQ.attempts := None; BullMQ.backoff := None;
              BullMQ.removeOnComplete := None;
              BullMQ.removeOnFail := None |}]) w).
Proof.
  intros (Hdb & Huser & Hslot) Hbusy.
  window_check Hdb Huser Hslot.
  unfold bind at 1. unfold await. rewrite Hbusy.
  reflexivity.
Qed.

(** The run of a job that fails the window check. *)
Lemma process_outside job env w user :
  outOfCallHours job env w user ->
  process job env w =
  (Return Rescheduled,
   snd (rescheduleForNextSlot job user
          (Config.assistantId (BullMQ.data job)) env w)).
Proof.
  intros (Hdb & Huser & Hslot).
  window_check Hdb Huser Hslot.
  unfold bind at 1.
  unfold rescheduleForNextSlot, bind, ask.
  destruct (findNextAvailableSlot env user _); reflexivity.
Qed.

Lemma retryable_rethrown (e : JsError) :
  isRetryableError e = true -> surfaced e = e.
Proof. unfold surfaced. now intros ->. Qed.

Lemma permanent_wrapped (e : JsError) :
  isRetryableError e = false ->
  surfaced e = newError ("Permanent failure: " ++ JS.interpolate (message e)).
Proof. unfold surfaced. now intros ->. Qed.

(** Under the default job options the broker retries a job whose
    processor threw anything but an [UnrecoverableError], after
    5 s, 10 s, ..., until three attempts are made. *)
Lemma settle_default_retries {A} (e : JsError) (n : Z) :
  BullMQ.isUnrecoverable e = false ->
  1 <= n < 3 ->
  BullMQ.settle Config.DEFAULT_JOB_OPTIONS n (@Throw A e)
  = BullMQ.RetryAfter (2 ^ (n - 1) * 5000).
Proof.
  intros Hrec Hn. unfold BullMQ.settle. simpl.
  rewrite Hrec. destruct (Z.ltb_spec n 3); [reflexivity | lia].
Qed.

(** What [process] throws for a permanent failure is an [Error], which
    the broker does not tell from any other. *)
Lemma surfaced_permanent_recoverable (e : JsError) :
  isRetryableError e = false ->
  BullMQ.isUnrecoverable (surfaced e) = false.
Proof. intros H. rewrite (permanent_wrapped e H). reflexivity. Qed.

(** A failure that matches no retryable signal is retried all the same:
    after the first attempt of a job with the default options the broker
    schedules the second one, 5 s later. *)
Lemma permanent_failure_retried job env w user e :
  inCallHours job env w user ->
  isVapiBusy env = Return false ->
  makeCall env user (Config.contact (BullMQ.data job))
    (Config.assistantId (BullMQ.data job)) = Some e ->
  isRetryableError e = false ->
  BullMQ.attempts (BullMQ.opts job) = Some 3 ->
  BullMQ.backoff (BullMQ.opts job)
  = BullMQ.backoff Config.DEFAULT_JOB_OPTIONS ->
  fst (process job env w)
  = Throw (newError ("Permanent failure: " ++ JS.interpolate (message e)))
  /\ BullMQ.settle (BullMQ.opts job) 1 (fst (process job env w))
     = BullMQ.RetryAfter 5000.
Proof.
  intros Hin Hbusy Hcall Hperm Hattempts Hbackoff.
  pose proof (process_attempt job env w user Hin Hbusy) as Hrun.
  simpl in Hrun. rewrite Hcall in Hrun. rewrite Hrun. simpl.
  rewrite (permanent_wrapped e Hperm). split; [reflexivity|].
  unfold BullMQ.settle. rewrite Hattempts, Hbackoff. reflexivity.
Qed.

(** Whatever way a run takes, it leaves the records it found as they
    were and adds at most one, which it does not leave pending. *)
Lemma process_records job env w :
  exists tail,
    callQueueDone (snd (process job env w)) = callQueueDone w ++ tail
    /\ (List.length tail <= 1)%nat
    /\ Forall (fun d => CallQueueDone.status d
                        <> CallQueueDone.pending_initiation) tail.
Proof.
  assert (Hnil : forall w' : World,
             callQueueDone w' = callQueueDone w ->
             exists tail,
               callQueueDone w' = callQueueDone w ++ tail
               /\ (List.length tail <= 1)%nat
               /\ Forall (fun d => CallQueueDone.status d
                                   <> CallQueueDone.pending_initiation) tail).
  { intros w' Hw'. exists []. rewrite app_nil_r. repeat split; auto. }
  destruct (connectDB env) as [e|] eqn:Hdb.
  { apply Hnil. unfold process, tryCatch, bind, awaitConnectDB, await.
    rewrite Hdb. unfold consoleWrite, modify, throw.
    destruct (isRetryableError e); reflexivity. }
  destruct (User.findById (Config.userId (BullMQ.data job)) (users w))
    as [user|] eqn:Huser.
  2:{ apply Hnil. unfold process, tryCatch, bind, awaitConnectDB, await, get.
      rewrite Hdb, Huser. unfold consoleWrite, modify, throw.
      match goal with |- context [isRetryableError ?x] =>
        destruct (isRetryableError x) end; reflexivity. }
  destruct (outsideCallHours env
              (getCurrentSlotForAssistant env user
                 (Config.assistantId (BullMQ.data job)))) eqn:Hslot.
  { apply Hnil.
    rewrite (process_outside job env w user (conj Hdb (conj Huser Hslot))).
    unfold rescheduleForNextSlot, bind, ask, QueueManager.addCallJob,
      consoleWrite, modify.
    destruct (findNextAvailableSlot env user _); reflexivity. }
  destruct (isVapiBusy env) as [[|]|e] eqn:Hbusy.
  - apply Hnil.
    rewrite (process_busy job env w user (conj Hdb (conj Huser Hslot)) Hbusy).
    reflexivity.
  - rewrite (process_attempt job env w user
               (conj Hdb (conj Huser Hslot)) Hbusy).
    exists [CallQueueDone.apply
              (updateAfter env
                 (makeCall env user (Config.contact (BullMQ.data job))
                    (Config.assistantId (BullMQ.data job))))
              (pendingDoc job env w)].
    destruct (makeCall env user _ _) as [e|]; simpl;
      (split; [reflexivity | split; [lia |]]);
      (constructor; [discriminate | constructor]).
  - apply Hnil. unfold process, tryCatch, bind, awaitConnectDB, await, get, ask.
    rewrite Hdb, Huser, Hslot, Hbusy. unfold consoleWrite, modify, throw.
    destruct (isRetryableError e); reflexivity.
Qed.

(** C2. Every run leaves the records it found as they were, adds at most
    one and leaves none pending.  A run that reaches the attempt creates
    exactly one record, in status pending-initiation, before it calls the
    voice service, and updates that record exactly once after the call: to
    initiated on success, to failed with the captured reason on failure,
    with the completion time in both cases.  The status of the record
    moves from pending-initiation to initiated or failed on each of the
    three ways the run can end (completed, failure rethrown for a retry,
    failure wrapped as permanent). *)
Theorem C2_one_record_per_attempt job env w user :
  inCallHours job env w user ->
  isVapiBusy env = Return false ->
  let contact := Config.contact (BullMQ.data job) in
  let assistantId := Config.assistantId (BullMQ.data job) in
  let called := makeCall env user contact assistantId in
  let d := pendingDoc job env w in
  let u := updateAfter env called in
  let r := process job env w in
  history (snd r)
  = history w ++ [Created d; Called contact assistantId;
                  Updated (CallQueueDone._id d) u]
  /\ callQueueDone (snd r) = callQueueDone w ++ [CallQueueDone.apply u d]
  /\ CallQueueDone.status d = CallQueueDone.pending_initiation
  /\ Transition (CallQueueDone.status d)
        (CallQueueDone.status (CallQueueDone.apply u d))
  /\ CallQueueDone.completedAt (CallQueueDone.apply u d)
     = Some (nowAfterCall env)
  /\ match called with
     | None =>
         CallQueueDone.status (CallQueueDone.apply u d)
         = CallQueueDone.initiated
         /\ fst r = Return (Completed (CallQueueDone._id d) contact)
     | Some e =>
         CallQueueDone.status (CallQueueDone.apply u d)
         = CallQueueDone.failed
         /\ CallQueueDone.reason (CallQueueDone.apply u d)
            = Some (JS.orString (message e) "Unknown error")
         /\ fst r = Throw (surfaced e)
     end
  /\ (forall job' env',
        exists tail,
          callQueueDone (snd (process job' env' (snd r)))
          = callQueueDone (snd r) ++ tail
          /\ (List.length tail <= 1)%nat
          /\ Forall (fun d' => CallQueueDone.status d'
                               <> CallQueueDone.pending_initiation) tail).
Proof.
  intros Hin Hbusy contact assistantId called d u r.
  pose proof (process_attempt job env w user Hin Hbusy) as Hrun.
  simpl in Hrun. fold contact assistantId called in Hrun.
  assert (Hlater : forall job' env',
             exists tail,
               callQueueDone (snd (process job' env' (snd r)))
               = callQueueDone (snd r) ++ tail
               /\ (List.length tail <= 1)%nat
               /\ Forall (fun d' => CallQueueDone.status d'
                                    <> CallQueueDone.pending_initiation) tail)
    by (intros job' env'; apply process_records).
  revert Hlater. subst r. rewrite Hrun. intros Hlater. subst u d.
  destruct called as [e|]; simpl; repeat split;
    first [exact Hlater | constructor].
Qed.

(** C3. A job that finds the voice service busy is put back on the call
    queue with the same data and a delay of 15 s, which lies between 10 s
    and 20 s; the new entry has made no attempt, the run ends normally so
    the broker counts no failure, and no attempt record is created: the
    only change to the world is the new queue entry. *)
Theorem C3_busy_requeues job env w user :
  inCallHours job env w user ->
  isVapiBusy env = Return true ->
  let r := process job env w in
  exists j : BullMQ.Job Config.JobData,
    fst r = Return Delayed
    /\ snd r = setCallQueue (callQueue w ++ [j]) w
    /\ BullMQ.data j = BullMQ.data job
    /\ BullMQ.delay (BullMQ.opts j) = Some 15000%float
    /\ BullMQ.priority (BullMQ.opts j)
       = Some (JS.orNumber (Config.priority (BullMQ.data job)) 1%float)
    /\ PrimFloat.leb 10000%float 15000%float = true
    /\ PrimFloat.leb 15000%float 20000%float = true
    /\ BullMQ.attemptsMade j = 0
    /\ callQueueDone (snd r) = callQueueDone w
    /\ history (snd r) = history w
    /\ BullMQ.settle (BullMQ.opts job) (BullMQ.attemptsMade job + 1) (fst r)
       = BullMQ.MoveToCompleted.
Proof.
  intros Hin Hbusy r. subst r.
  rewrite (process_busy job env w user Hin Hbusy).
  eexists. repeat split.
Qed.

(** C10. A job that fails the window check while the assistant has no
    slot on any of the next seven days is not put back on the queue: the
    run writes a warning and resolves with status rescheduled.  Nothing
    else changes: no queue entry, no attempt record, no failure. *)
Theorem C10_no_slot_drops_job job env w user :
  outOfCallHours job env w user ->
  findNextAvailableSlot env user (Config.assistantId (BullMQ.data job))
  = None ->
  let r := process job env w in
  fst r = Return Rescheduled
  /\ snd r
     = setConsole
         (console w ++
            [(LogWarn,
              ("⚠️ No available slots found for assistant "
                 ++ Config.assistantId (BullMQ.data job))%string)]) w
  /\ callQueue (snd r) = callQueue w
  /\ callQueueDone (snd r) = callQueueDone w
  /\ history (snd r) = history w
  /\ BullMQ.settle (BullMQ.opts job) (BullMQ.attemptsMade job + 1) (fst r)
     = BullMQ.MoveToCompleted.
Proof.
  intros Hout Hnone r. subst r.
  rewrite (process_outside job env w user Hout).
  unfold rescheduleForNextSlot, bind, ask. rewrite Hnone.
  repeat split.
Qed.


Lemma C2_one_record_per_attempt_witness :
  inCallHours Examples.job0 Examples.env0 (Examples.worldOf Examples.alice)
    Examples.alice
  /\ isVapiBusy Examples.env0 = Return false
  /\ map CallQueueDone.status
       (callQueueDone
          (snd (process Examples.job0 Examples.env0
                  (Examples.worldOf Examples.alice))))
     = [CallQueueDone.initiated].
Proof.
  assert (Hin : inCallHours Examples.job0 Examples.env0
                  (Examples.worldOf Examples.alice) Examples.alice)
    by (repeat split).
  assert (Hbusy : isVapiBusy Examples.env0 = Return false) by reflexivity.
  split; [exact Hin | split; [exact Hbusy |]].
  exact (f_equal (map CallQueueDone.status)
           (proj1 (proj2 (C2_one_record_per_attempt _ _ _ _ Hin Hbusy)))).
Defined.

Lemma C3_busy_requeues_witness :
  let env := Examples.envWith true None (Return true) None in
  inCallHours Examples.job0 env (Examples.worldOf Examples.alice)
    Examples.alice
  /\ isVapiBusy env = Return true
  /\ exists j,
       snd (process Examples.job0 env (Examples.worldOf Examples.alice))
       = setCallQueue [j] (Examples.worldOf Examples.alice)
       /\ BullMQ.delay (BullMQ.opts j) = Some 15000%float.
Proof.
  intros env.
  assert (Hin : inCallHours Examples.job0 env
                  (Examples.worldOf Examples.alice) Examples.alice)
    by (repeat split).
  assert (Hbusy : isVapiBusy env = Return true) by reflexivity.
  split; [exact Hin | split; [exact Hbusy |]].
  destruct (C3_busy_requeues _ _ _ _ Hin Hbusy)
    as (j & _ & Hw & _ & Hdelay & _).
  exists j. split; [exact Hw | exact Hdelay].
Defined.

Lemma C10_no_slot_drops_job_witness :
  let env := Examples.envWith true None (Return false) None in
  outOfCallHours Examples.job0 env (Examples.worldOf Examples.carol)
    Examples.carol
  /\ findNextAvailableSlot env Examples.carol "asst_A" = None
  /\ callQueue (snd (process Examples.job0 env
                       (Examples.worldOf Examples.carol))) = [].
Proof.
  intros env.
  assert (Hout : outOfCallHours Examples.job0 env
                   (Examples.worldOf Examples.carol) Examples.carol)
    by (repeat split).
  assert (Hnone : findNextAvailableSlot env Examples.carol
                    (Config.assistantId (BullMQ.data Examples.job0)) = None)
    by reflexivity.
  split; [exact Hout | split; [exact Hnone |]].
  exact (proj1 (proj2 (proj2 (C10_no_slot_drops_job _ _ _ _ Hout Hnone)))).
Defined.

(** C1 (the part the code misses). A dispatch failure that matches no
    retryable signal is thrown again as a plain [Error] whose message
    starts with "Permanent failure: ".  Under the default job options
    (3 attempts, exponential backoff from 5 s) the broker treats it as it
    treats a retryable failure: it retries the job after 5 s and after
    10 s, and the three attempts leave three failed records. *)
Theorem C1_permanent_failure_is_retried :
  let env :=
    Examples.envWith true None (Return false) (Some Examples.invalidNumber) in
  let w := Examples.worldOf Examples.alice in
  let thrown := newError "Permanent failure: Invalid phone number" in
  isRetryableError Examples.invalidNumber = false
  /\ fst (process Examples.job0 env w) = Throw thrown
  /\ BullMQ.settle (BullMQ.opts Examples.job0) 1 (fst (process Examples.job0 env w))
     = BullMQ.RetryAfter 5000
  /\ BullMQ.settle (BullMQ.opts Examples.job0) 2 (@Throw Result thrown)
     = BullMQ.RetryAfter 10000
  /\ BullMQ.settle (BullMQ.opts Examples.job0) 3 (@Throw Result thrown)
     = BullMQ.MoveToFailed
  /\ fst (threeAttempts Examples.job0 env w)
     = [Throw thrown; Throw thrown; Throw thrown]
  /\ map CallQueueDone.status
       (callQueueDone (snd (threeAttempts Examples.job0 env w)))
     = [CallQueueDone.failed; CallQueueDone.failed; CallQueueDone.failed].
Proof. vm_compute. repeat split. Qed.


End CallProcessorFacts.

(* ================================================================== *)
(** ** Properties of the next-slot lookup *)
(* ================================================================== *)

Section NextSlotFacts.

Import CallProcessor.

Variable user : User.IUser.
Variable assistantId : string.

Lemma indexOf_range (x : string) (xs : list string) (i : Z) :
  indexOf x xs i = -1
  \/ i <= indexOf x xs i < i + Z.of_nat (List.length xs).
Proof.
  revert i. induction xs as [|y rest IH]; intros i; simpl.
  - now left.
  - destruct (String.eqb y x).
    + right. lia.
    + destruct (IH (i + 1)) as [-> | H]; [now left | right; lia].
Qed.

Lemma currentDayIndex_range (env : Env) : -1 <= currentDayIndex env <= 6.
Proof.
  unfold currentDayIndex.
  destruct (indexOf_range (getCurrentDayOfWeek env) daysToCheck 0)
    as [-> | H]; simpl in *; lia.
Qed.

Lemma slotOnDay_none (idx i : Z) :
  slotOnDay user assistantId idx i = None
  <-> dayHasSlot user assistantId (dayNameAt idx i) = false.
Proof.
  unfold slotOnDay, dayHasSlot.
  destruct (User.scheduleOf user (dayNameAt idx i)) as [ds|]; [|tauto].
  destruct (find (matches assistantId) ds) as [[nm sd]|] eqn:Hfind.
  - split; [discriminate|]. intros Hex. apply find_some in Hfind.
    destruct Hfind as [Hin Hm].
    assert (existsb (matches assistantId) ds = true)
      by (apply existsb_exists; eauto).
    congruence.
  - split; [|reflexivity]. intros _.
    destruct (existsb (matches assistantId) ds) eqn:Hex; [|reflexivity].
    apply existsb_exists in Hex. destruct Hex as (e & Hin & Hm).
    pose proof (find_none _ _ Hfind e Hin). congruence.
Qed.

Lemma slotOnDay_some (idx i : Z) (r : NextSlot) :
  slotOnDay user assistantId idx i = Some r ->
  day r = dayNameAt idx i
  /\ User.assistantId (slotData r) = assistantId
  /\ exists daySchedule,
       User.scheduleOf user (day r) = Some daySchedule
       /\ find (matches assistantId) daySchedule = Some (slot r, slotData r).
Proof.
  unfold slotOnDay.
  destruct (User.scheduleOf user (dayNameAt idx i)) as [ds|] eqn:Hs;
    [|discriminate].
  destruct (find (matches assistantId) ds) as [[nm sd]|] eqn:Hfind;
    [|discriminate].
  intros [= <-]. simpl. split; [reflexivity|]. split.
  - apply find_some in Hfind. destruct Hfind as [_ Hm].
    unfold matches in Hm. simpl in Hm. now apply String.eqb_eq.
  - exists ds. now split.
Qed.

(** The loop returns the slot of the first day that has one. *)
Lemma scanDays_some (idx : Z) (n : nat) (i : Z) (r : NextSlot) :
  scanDays user assistantId idx i n = Some r ->
  exists k,
    i <= k < i + Z.of_nat n
    /\ slotOnDay user assistantId idx k = Some r
    /\ forall j, i <= j < k -> slotOnDay user assistantId idx j = None.
Proof.
  revert i. induction n as [|n IH]; intros i; simpl; [discriminate|].
  destruct (slotOnDay user assistantId idx i) as [r0|] eqn:Hi.
  - intros [= <-]. exists i. repeat split; try lia. exact Hi.
  - intros Hrest. destruct (IH _ Hrest) as (k & Hk & Hsome & Hbefore).
    exists k. repeat split; try lia. exact Hsome.
    intros j Hj. destruct (Z.eq_dec j i) as [-> | Hne]; [exact Hi|].
    apply Hbefore. lia.
Qed.

Lemma scanDays_none (idx : Z) (n : nat) (i : Z) :
  scanDays user assistantId idx i n = None
  <-> forall k, i <= k < i + Z.of_nat n ->
                slotOnDay user assistantId idx k = None.
Proof.
  revert i. induction n as [|n IH]; intros i; simpl.
  - split; [intros _ k Hk; lia | reflexivity].
  - destruct (slotOnDay user assistantId idx i) as [r0|] eqn:Hi.
    + split; [discriminate|]. intros H.
      rewrite (H i) in Hi by lia. discriminate.
    + rewrite IH. split.
      * intros H k Hk. destruct (Z.eq_dec k i) as [-> | Hne]; [exact Hi|].
        apply H. lia.
      * intros H k Hk. apply H. lia.
Qed.

(** The seven days of the scan are the seven days of the week. *)
Lemma dayNameAt_covers (idx : Z) (d : string) :
  -1 <= idx <= 6 ->
  In d daysToCheck ->
  exists i, 1 <= i <= 7 /\ dayNameAt idx i = d.
Proof.
  intros Hidx Hin.
  assert (Hcases : idx = -1 \/ idx = 0 \/ idx = 1 \/ idx = 2 \/ idx = 3
                   \/ idx = 4 \/ idx = 5 \/ idx = 6) by lia.
  simpl in Hin.
  repeat (destruct Hin as [<- | Hin]); try contradiction;
    repeat (destruct Hcases as [-> | Hcases]); try subst idx;
    first [ exists 1; split; [lia | reflexivity]
          | exists 2; split; [lia | reflexivity]
          | exists 3; split; [lia | reflexivity]
          | exists 4; split; [lia | reflexivity]
          | exists 5; split; [lia | reflexivity]
          | exists 6; split; [lia | reflexivity]
          | exists 7; split; [lia | reflexivity] ].
Qed.

Lemma dayNameAt_in (idx i : Z) :
  -1 <= idx <= 6 -> 1 <= i <= 7 -> In (dayNameAt idx i) daysToCheck.
Proof.
  intros Hidx Hi.
  assert (Hcases : idx = -1 \/ idx = 0 \/ idx = 1 \/ idx = 2 \/ idx = 3
                   \/ idx = 4 \/ idx = 5 \/ idx = 6) by lia.
  assert (Hi' : i = 1 \/ i = 2 \/ i = 3 \/ i = 4 \/ i = 5 \/ i = 6
                \/ i = 7) by lia.
  repeat (destruct Hcases as [-> | Hcases]); try subst idx;
    repeat (destruct Hi' as [-> | Hi']); try subst i;
    vm_compute; tauto.
Qed.

(** The delay of a reschedule aims at the start time of the slot on the
    day after today, whatever the day of the slot. *)
Lemma calculateDelay_aims_at_tomorrow (env : Env) (r : NextSlot) :
  calculateDelayToNextSlot env r
  = match startInstant env 1 (slotData r) with
    | Some t => JS.ofZ (Z.max 0 (t - now env))
    | None => PrimFloat.nan
    end.
Proof.
  unfold calculateDelayToNextSlot, startInstant, startTimeOfDay.
  destruct (JS.parseIntAt _ 0) as [h|]; [|reflexivity].
  destruct (JS.parseIntAt _ 1) as [m|]; [|reflexivity].
  simpl. do 2 f_equal. lia.
Qed.

End NextSlotFacts.

(** C5 (as the code has it). The lookup returns none exactly when the
    assistant has no slot on any day of the week.  When it returns a slot,
    the slot is on one of the seven days that follow today (the seventh
    being the same weekday a week later), no earlier day of the scan has a
    slot of the assistant, and within its day the slot is the first entry
    of the assistant in the order of the entries of the day; its start, on
    that day, is strictly after now.  Start times within the day are not
    compared. *)
Theorem C5_next_slot_first_in_scan (env : Env) (user : User.IUser)
    (assistantId : string) :
  (CallProcessor.findNextAvailableSlot env user assistantId = None
   <-> forall d, In d CallProcessor.daysToCheck ->
                 dayHasSlot user assistantId d = false)
  /\ forall r,
       CallProcessor.findNextAvailableSlot env user assistantId = Some r ->
       exists i,
         1 <= i <= 7
         /\ CallProcessor.day r
            = CallProcessor.dayNameAt (currentDayIndex env) i
         /\ (forall j, 1 <= j < i ->
               dayHasSlot user assistantId
                 (CallProcessor.dayNameAt (currentDayIndex env) j) = false)
         /\ User.assistantId (CallProcessor.slotData r) = assistantId
         /\ (exists daySchedule,
               User.scheduleOf user (CallProcessor.day r) = Some daySchedule
               /\ find (CallProcessor.matches assistantId) daySchedule
                  = Some (CallProcessor.slot r, CallProcessor.slotData r))
         /\ (forall ms t,
               clockWithinToday env ->
               startTimeOfDay (CallProcessor.slotData r) = Some ms ->
               0 <= ms ->
               startInstant env i (CallProcessor.slotData r) = Some t ->
               now env < t).
Proof.
  pose proof (currentDayIndex_range env) as Hidx.
  unfold CallProcessor.findNextAvailableSlot. fold (currentDayIndex env).
  split.
  - rewrite scanDays_none. split.
    + intros Hall d Hd.
      destruct (dayNameAt_covers _ d Hidx Hd) as (i & Hi & <-).
      apply slotOnDay_none. apply Hall. simpl. lia.
    + intros Hall k Hk. apply slotOnDay_none. apply Hall.
      apply dayNameAt_in; [exact Hidx | simpl in Hk; lia].
  - intros r Hr.
    destruct (scanDays_some _ _ _ _ _ _ Hr) as (i & Hi & Hsome & Hbefore).
    destruct (slotOnDay_some _ _ _ _ _ Hsome) as (Hday & Hid & Hfirst).
    exists i. simpl in Hi.
    split; [lia|]. split; [exact Hday|]. split.
    { intros j Hj. apply slotOnDay_none. apply Hbefore. lia. }
    split; [exact Hid|]. split; [exact Hfirst|].
    intros ms t Hclock Hms Hpos. unfold startInstant. rewrite Hms. simpl.
    intros [= <-]. unfold clockWithinToday in Hclock. lia.
Qed.

(** C5 (as stated) fails: on a Monday, with an evening slot listed before
    a morning slot on Tuesday, the lookup returns the evening slot, and the
    morning slot of that day starts earlier. *)
Lemma C5_counterexample :
  CallProcessor.findNextAvailableSlot Examples.env0 Examples.bob "asst_A"
  = Some {| CallProcessor.day := "tuesday";
            CallProcessor.slot := "evening";
            CallProcessor.slotData := Examples.slotA "18:00" "20:00" |}
  /\ ~ earliestInLookahead Examples.env0 Examples.bob "asst_A"
        {| CallProcessor.day := "tuesday";
           CallProcessor.slot := "evening";
           CallProcessor.slotData := Examples.slotA "18:00" "20:00" |}.
Proof.
  split; [reflexivity|].
  intros (i & t & Hi & Hday & Ht & Hnow & Hall).
  assert (Hi1 : i = 1).
  { assert (Hc : i = 1 \/ i = 2 \/ i = 3 \/ i = 4 \/ i = 5 \/ i = 6
                 \/ i = 7) by lia.
    repeat (destruct Hc as [-> | Hc]); try subst i;
      first [reflexivity | vm_compute in Hday; discriminate]. }
  subst i. vm_compute in Ht. injection Ht as <-.
  specialize (Hall 1
                [("evening", Examples.slotA "18:00" "20:00");
                 ("morning", Examples.slotA "09:00" "11:00")]
                "morning" (Examples.slotA "09:00" "11:00")
                (1700000000000 + 86400000 + 9 * 3600000)).
  assert (Hle : 1700151200000 <= 1700000000000 + 86400000 + 9 * 3600000).
  { apply Hall.
    - lia.
    - reflexivity.
    - simpl. right. left. reflexivity.
    - reflexivity.
    - reflexivity.
    - vm_compute. reflexivity. }
  lia.
Qed.

(* ================================================================== *)
(** ** Properties of the bulk enqueue *)
(* ================================================================== *)

Section BulkEnqueueFacts.

Lemma mapIndex_length {A B} (f : A -> nat -> B) (xs : list A) (k : nat) :
  List.length (Routes.mapIndex f xs k) = List.length xs.
Proof.
  revert k. induction xs as [|x rest IH]; intros k; simpl; auto.
Qed.

Lemma mapIndex_nth {A B} (f : A -> nat -> B) (xs : list A) (k i : nat) :
  nth_error (Routes.mapIndex f xs k) i
  = option_map (fun x => f x (k + i)%nat) (nth_error xs i).
Proof.
  revert k i. induction xs as [|x rest IH]; intros k i; simpl.
  - destruct i; reflexivity.
  - destruct i as [|i]; simpl.
    + now rewrite Nat.add_0_r.
    + rewrite IH. now rewrite Nat.add_succ_comm.
Qed.

(** The pipeline appends one job for each element, in order, each with
    the default options under its own. *)
Lemma addAll_spec {D} (defaults : BullMQ.JobsOptions)
    (jobs : list (string * D * BullMQ.JobsOptions)) (q : BullMQ.Queue D) :
  snd (BullMQ.addAll defaults jobs q)
  = q ++ fst (BullMQ.addAll defaults jobs q)
  /\ map (fun j => (BullMQ.data j, BullMQ.opts j))
        (fst (BullMQ.addAll defaults jobs q))
     = map (fun t => (snd (fst t), BullMQ.spread defaults (snd t))) jobs
  /\ Forall (fun j => BullMQ.attemptsMade j = 0)
        (fst (BullMQ.addAll defaults jobs q)).
Proof.
  revert q. induction jobs as [|[[nm d] o] rest IH]; intros q; simpl.
  - rewrite app_nil_r. repeat split. constructor.
  - specialize (IH (q ++ [BullMQ.newJob defaults q nm d o])).
    destruct (BullMQ.addAll defaults rest
                (q ++ [BullMQ.newJob defaults q nm d o])) as [js q2].
    simpl in *. destruct IH as (Hq & Hmap & Hall).
    repeat split.
    + rewrite Hq, <- app_assoc. reflexivity.
    + rewrite Hmap. reflexivity.
    + constructor; [reflexivity | exact Hall].
Qed.

(** The options the queue manager gives the job prepared at [index]. *)
Lemma prepared_options user assistantId p d t c index :
  let job := Routes.prepareJob user assistantId p d t c index in
  BullMQ.spread Config.defaultJobOptions
    (BullMQ.spread
       {| BullMQ.priority :=
            Some (JS.orNumber (Config.priority (fst job)) 1%float);
          BullMQ.delay := Some (JS.orNumber (Config.delay (fst job)) 0%float);
          BullMQ.attempts := None; BullMQ.backoff := None;
          BullMQ.removeOnComplete := None; BullMQ.removeOnFail := None |}
       (snd job))
  = {| BullMQ.priority :=
         Some (JS.orNumber (Some (staggeredPriority p index)) 1%float);
       BullMQ.delay := Some (staggeredDelay d index);
       BullMQ.attempts := Some 3;
       BullMQ.backoff :=
         Some {| BullMQ.backoffType := BullMQ.exponential;
                 BullMQ.backoffDelay := 5000 |};
       BullMQ.removeOnComplete := Some 100;
       BullMQ.removeOnFail := Some 50 |}.
Proof. reflexivity. Qed.

Lemma match_nonempty {A B} (xs : list A) (a b : B) :
  xs <> [] -> match xs with [] => a | _ :: _ => b end = b.
Proof. destruct xs; [congruence | reflexivity]. Qed.

(** The broker's answer to the jobs of the route is its answer to their
    priorities, in order. *)
Lemma firstRefusal_prepared user assistantId p d t valid (k : nat) :
  BullMQ.firstRefusal Config.defaultJobOptions
    (preparedForBroker
       (Routes.mapIndex (Routes.prepareJob user assistantId p d t) valid k))
  = refusalFrom p k (List.length valid).
Proof.
  revert k. induction valid as [|c rest IH]; intros k; [reflexivity |].
  cbn [Routes.mapIndex preparedForBroker map BullMQ.firstRefusal
         List.length refusalFrom fst snd].
  pose proof (prepared_options user assistantId p d t c k) as Hopts.
  cbv zeta in Hopts. rewrite Hopts.
  unfold BullMQ.validateOptions. cbn [BullMQ.priority].
  fold (queuedPriority p k).
  destruct (BullMQ.validatePriority (Some (queuedPriority p k)));
    [reflexivity |].
  apply IH.
Qed.

(** A refused priority at any index refuses the request. *)
Lemma refusalFrom_some (p : JS.number) (count index i : nat) :
  (index <= i < index + count)%nat ->
  BullMQ.validatePriority (Some (queuedPriority p i)) <> None ->
  refusalFrom p index count <> None.
Proof.
  revert index. induction count as [|k IH]; intros index Hi Hrefused.
  - lia.
  - cbn [refusalFrom].
    destruct (BullMQ.validatePriority (Some (queuedPriority p index)))
      eqn:Hindex; [discriminate |].
    apply IH; [| exact Hrefused].
    destruct (Nat.eq_dec i index) as [-> | Hne]; [congruence | lia].
Qed.

(** [addBulkCallJobs]: nothing is written when the broker refuses a job;
    otherwise the jobs are appended. *)
Lemma addBulkCallJobs_run
    (jobs : list (Config.JobData * BullMQ.JobsOptions)) env w :
  QueueManager.addBulkCallJobs jobs env w
  = match BullMQ.firstRefusal Config.defaultJobOptions
            (preparedForBroker jobs) with
    | Some e => (Throw e, w)
    | None =>
        let js := fst (BullMQ.addAll Config.defaultJobOptions
                         (preparedForBroker jobs) (callQueue w)) in
        (Return js, setCallQueue (callQueue w ++ js) w)
    end.
Proof.
  unfold QueueManager.addBulkCallJobs, BullMQ.addBulk.
  fold (preparedForBroker jobs).
  destruct (BullMQ.firstRefusal Config.defaultJobOptions
              (preparedForBroker jobs)); [reflexivity |].
  pose proof (addAll_spec Config.defaultJobOptions (preparedForBroker jobs)
                (callQueue w)) as (Hq & _).
  destruct (BullMQ.addAll Config.defaultJobOptions (preparedForBroker jobs)
              (callQueue w)) as [js q2].
  simpl in *. now rewrite Hq.
Qed.

(** The jobs the broker writes for the prepared jobs, one by one. *)
Lemma bulkJobs_spec user assistantId p d t valid q :
  let js := bulkJobs user assistantId p d t valid q in
  List.length js = List.length valid
  /\ forall i j,
       nth_error js i = Some j ->
       exists c,
         nth_error valid i = Some c
         /\ BullMQ.data j
            = fst (Routes.prepareJob user assistantId p d t c i)
         /\ BullMQ.delay (BullMQ.opts j) = Some (staggeredDelay d i)
         /\ BullMQ.priority (BullMQ.opts j) = Some (queuedPriority p i)
         /\ BullMQ.attemptsMade j = 0.
Proof.
  intros js. subst js. unfold bulkJobs, preparedForBroker.
  match goal with
  | |- context [BullMQ.addAll ?df ?pj ?q0] =>
      pose proof (addAll_spec df pj q0) as (_ & Hmap & Hall);
      destruct (BullMQ.addAll df pj q0) as [js q2] eqn:Hadd
  end.
  simpl in Hmap, Hall. simpl.
  rewrite map_map in Hmap. split.
  - apply (f_equal (@List.length _)) in Hmap.
    rewrite !length_map in Hmap. rewrite Hmap. apply mapIndex_length.
  - intros i j Hj.
    pose proof (f_equal (fun l => nth_error l i) Hmap) as Hi. simpl in Hi.
    rewrite !nth_error_map, Hj in Hi.
    rewrite mapIndex_nth in Hi. simpl in Hi.
    destruct (nth_error valid i) as [c|]; [|discriminate].
    simpl in Hi. injection Hi as Hdata Hopts.
    exists c. split; [reflexivity|]. split; [exact Hdata|].
    rewrite Hopts. repeat split.
    rewrite Forall_forall in Hall. apply Hall.
    eapply nth_error_In. exact Hj.
Qed.

(** The run of an accepted request: the broker refuses a priority and
    nothing is written; or the jobs are written and the route answers
    200; or the jobs are written and the estimated start time is not a
    date, which the route answers with 500. *)
Lemma queueCalls_accepted body env w user assistantId contacts :
  accepted body env w user assistantId contacts ->
  let valid := filter Routes.isValidContact contacts in
  let queued := afterBulk body env w user assistantId contacts in
  Routes.queueCalls body env w
  = match bulkRefusal (basePriority body) (List.length valid) with
    | Some e =>
        (Return (Routes.Status500 "Internal Server Error"),
         setConsole (console w ++ [queueErrorLine e]) w)
    | None =>
        if JS.validTime (estimatedStart body env) then
          (Return (Routes.Status200 (List.length valid) assistantId
                     (List.length valid) (estimatedStart body env)),
           queued)
        else
          (Return (Routes.Status500 "Internal Server Error"),
           setConsole (console queued ++ [queueErrorLine invalidTimeValue])
             queued)
    end.
Proof.
  intros (Hdb & Hcs & (cid & Hcid & Hne & Huser) & Haid & Hane & Htw & Hvalid)
         valid queued.
  subst queued. unfold afterBulk, bulkRefusal, estimatedStart.
  fold valid.
  pose proof (bulkJobs_spec user assistantId (basePriority body)
                (baseDelay body) (now env) valid (callQueue w))
    as [Hlen _].
  cbv zeta in Hlen.
  rewrite <- (firstRefusal_prepared user assistantId (basePriority body)
                (baseDelay body) (now env) valid 0).
  unfold Routes.queueCalls. rewrite Hcid, Hcs, Haid. simpl.
  destruct cid as [|c1 r1]; [congruence|].
  destruct assistantId as [|c2 r2]; [congruence|]. simpl.
  unfold tryCatch.
  unfold bind at 1. unfold awaitConnectDB, await. rewrite Hdb.
  unfold bind at 1. unfold get. rewrite Huser, Htw. simpl.
  fold valid. rewrite (match_nonempty valid) by exact Hvalid.
  unfold bind at 1. unfold ask.
  unfold bind at 1. fold (basePriority body) (baseDelay body).
  rewrite addBulkCallJobs_run.
  destruct (BullMQ.firstRefusal Config.defaultJobOptions _) as [e|].
  - reflexivity.
  - cbv zeta. fold (bulkJobs user (String c2 r2) (basePriority body)
                      (baseDelay body) (now env) valid (callQueue w)).
    unfold bind, consoleWrite, modify, ret, throw. simpl.
    rewrite Hlen.
    destruct (JS.validTime
                (PrimFloat.add (JS.ofZ (now env)) (baseDelay body)));
      reflexivity.
Qed.

End BulkEnqueueFacts.

(** C4 (the part the code misses). For an accepted bulk request the
    route computes, for the valid contact at position [i] (from 0), the
    delay [d + 1000 i] and the priority [p + 0.01 i], and hands the job
    to the broker with that priority ([1] when it is zero).  The broker
    takes a priority only when it is an integer: one refused job refuses
    the whole request, nothing is queued and the route answers 500.
    With the default priority 1 this is the fate of every request of two
    or more valid contacts; for five contacts, [p = 1] and [d = 0] the
    computed delays 0, 1000, 2000, 3000, 4000 and priorities 1, 1.01,
    1.02, 1.03, 1.04 are strictly increasing, the second job is refused
    ("Priority should not be float") and no job is queued.  When the
    broker takes every priority, one job is queued for each valid contact,
    in order, with the computed delay and priority. *)
Theorem C4_bulk_enqueue_refused body env w user assistantId contacts :
  accepted body env w user assistantId contacts ->
  let p := basePriority body in
  let d := baseDelay body in
  let valid := filter Routes.isValidContact contacts in
  let r := Routes.queueCalls body env w in
  (forall i c,
     nth_error valid i = Some c ->
     let job := Routes.prepareJob user assistantId p d (now env) c i in
     BullMQ.delay (snd job) = Some (staggeredDelay d i)
     /\ Config.priority (fst job) = Some (staggeredPriority p i))
  /\ (forall i,
        (i < List.length valid)%nat ->
        BullMQ.validatePriority (Some (queuedPriority p i)) <> None ->
        fst r = Return (Routes.Status500 "Internal Server Error")
        /\ callQueue (snd r) = callQueue w)
  /\ (p = 1%float -> (2 <= List.length valid)%nat ->
      fst r = Return (Routes.Status500 "Internal Server Error")
      /\ snd r
         = setConsole
             (console w ++
                [queueErrorLine (newError "Priority should not be float")])
             w)
  /\ (p = 1%float -> d = 0%float -> List.length valid = 5%nat ->
      map (staggeredDelay d) (seq 0 5)
      = [0; 1000; 2000; 3000; 4000]%float
      /\ map (staggeredPriority p) (seq 0 5)
         = [1; 1.01; 1.02; 1.03; 1.04]%float
      /\ strictlyIncreasing [0; 1000; 2000; 3000; 4000]%float = true
      /\ strictlyIncreasing [1; 1.01; 1.02; 1.03; 1.04]%float = true
      /\ BullMQ.validatePriority (Some 1.01%float)
         = Some (newError "Priority should not be float")
      /\ fst r = Return (Routes.Status500 "Internal Server Error")
      /\ callQueue (snd r) = callQueue w)
  /\ (bulkRefusal p (List.length valid) = None ->
      exists js,
        callQueue (snd r) = callQueue w ++ js
        /\ List.length js = List.length valid
        /\ forall i j,
             nth_error js i = Some j ->
             BullMQ.delay (BullMQ.opts j) = Some (staggeredDelay d i)
             /\ Config.priority (BullMQ.data j)
                = Some (staggeredPriority p i)
             /\ BullMQ.priority (BullMQ.opts j)
                = Some (if JS.truthy (staggeredPriority p i)
                        then staggeredPriority p i else 1%float)).
Proof.
  intros Hacc p d valid r.
  pose proof (queueCalls_accepted _ _ _ _ _ _ Hacc) as Hrun.
  cbv zeta in Hrun. fold p valid in Hrun. fold r in Hrun.
  assert (Hdefault : (2 <= List.length valid)%nat ->
            bulkRefusal 1%float (List.length valid)
            = Some (newError "Priority should not be float")).
  { intros Htwo. destruct (List.length valid) as [|[|n]]; try lia.
    reflexivity. }
  split.
  { intros i c _. split; reflexivity. }
  split.
  { intros i Hi Hrefused.
    assert (Hsome : bulkRefusal p (List.length valid) <> None).
    { apply (refusalFrom_some p (List.length valid) 0 i); [lia | exact Hrefused]. }
    destruct (bulkRefusal p (List.length valid)) as [e|]; [| congruence].
    rewrite Hrun. split; reflexivity. }
  split.
  { intros Hp Htwo. rewrite Hp in Hrun. rewrite (Hdefault Htwo) in Hrun.
    rewrite Hrun. split; reflexivity. }
  split.
  { intros Hp Hd Hfive. rewrite Hp, Hd.
    assert (Htwo : (2 <= List.length valid)%nat) by lia.
    rewrite Hp in Hrun. rewrite (Hdefault Htwo) in Hrun. rewrite Hrun.
    vm_compute. repeat split. }
  intros Hnone. rewrite Hnone in Hrun.
  destruct (bulkJobs_spec user assistantId p d (now env) valid (callQueue w))
    as [Hlen Hnth].
  exists (bulkJobs user assistantId p d (now env) valid (callQueue w)).
  split.
  { rewrite Hrun. unfold afterBulk. fold p d valid.
    destruct (JS.validTime (estimatedStart body env)); reflexivity. }
  split; [exact Hlen |].
  intros i j Hj. destruct (Hnth i j Hj) as (c & _ & Hdata & Hd & Hp & _).
  split; [exact Hd | split; [now rewrite Hdata | exact Hp]].
Qed.

Lemma C4_bulk_enqueue_refused_witness :
  let r := Routes.queueCalls Examples.bodyFive Examples.env0
             (Examples.worldOf Examples.alice) in
  accepted Examples.bodyFive Examples.env0 (Examples.worldOf Examples.alice)
    Examples.alice "asst_A" Examples.five
  /\ fst r = Return (Routes.Status500 "Internal Server Error")
  /\ callQueue (snd r) = [].
Proof.
  intros r.
  assert (Hacc : accepted Examples.bodyFive Examples.env0
                   (Examples.worldOf Examples.alice) Examples.alice "asst_A"
                   Examples.five).
  { repeat split; try discriminate.
    exists "u1". repeat split. discriminate. }
  split; [exact Hacc|].
  exact (proj1 (proj2 (C4_bulk_enqueue_refused _ _ _ _ _ _ Hacc))
           1%nat ltac:(simpl; lia) ltac:(vm_compute; discriminate)).
Defined.

(** A request the broker accepts: one contact with base priority 0.  The
    job is queued with the default priority 1, not with [0 + 0.01 * 0]. *)
Lemma zero_priority_is_queued_as_one :
  let r := Routes.queueCalls Examples.bodyPriorityZero Examples.env0
             (Examples.worldOf Examples.alice) in
  fst r = Return (Routes.Status200 1 "asst_A" 1 1700036000000%float)
  /\ ~ staggerAsStated 0%float 0%float (callQueue (snd r)).
Proof.
  split; [vm_compute; reflexivity|].
  intros Hstated.
  destruct (Hstated 0%nat
              (BullMQ.newJob Config.defaultJobOptions [] "make-call"
                 (fst (Routes.prepareJob Examples.alice "asst_A" 0%float
                         0%float (now Examples.env0)
                         {| Routes.name := Some "Dana";
                            Routes.number := Some "+15550123" |} 0%nat))
                 {| BullMQ.priority := Some 1%float;
                    BullMQ.delay := Some 0%float;
                    BullMQ.attempts := None; BullMQ.backoff := None;
                    BullMQ.removeOnComplete := None;
                    BullMQ.removeOnFail := None |}) eq_refl)
    as [_ Hprio].
  vm_compute in Hprio.
  pose proof (f_equal (fun o => match o with
                                | Some x => PrimFloat.eqb x 1%float
                                | None => false
                                end) Hprio) as Hne.
  vm_compute in Hne. discriminate Hne.
Qed.

(* ================================================================== *)
(** ** Properties of the scheduler jobs *)
(* ================================================================== *)

Section HealthCheckFacts.

Import SchedulerProcessor.


End HealthCheckFacts.


(** C6, at the scenario of the specification. *)
Lemma health_check_15_60 :
  let r := SchedulerProcessor.processHealthCheck Examples.healthJob
             Examples.env0 Examples.world_15_60 in
  activeCalls Examples.world_15_60 = 15%nat
  /\ failedCalls Examples.world_15_60 = 60%nat
  /\ (exists report,
        fst r = Return (SchedulerProcessor.Health report)
        /\ SchedulerProcessor.alerts report
           = [SchedulerProcessor.stuckJobsAlert;
              SchedulerProcessor.highFailureAlert])
  /\ map (fun j => Email.to (BullMQ.data j)) (emailQueue (snd r))
     = [["ops@example.com"; "oncall@example.com"]].
Proof.
  vm_compute. repeat split. eexists. split; reflexivity.
Qed.

Section ReportFacts.

Import ReportGenerator.

Lemma flagIsTrue_iff (c : CallData.CallReportData) :
  flagIsTrue c = true <-> CallData.successEvaluation c = Some true.
Proof.
  unfold flagIsTrue.
  destruct (CallData.successEvaluation c) as [[|]|]; split;
    congruence.
Qed.

Lemma notVoicemail_iff (c : CallData.CallReportData) :
  notVoicemail c = true
  <-> forall why, CallData.endedReason c = Some why ->
                  JS.toLowerCase why <> "voicemail".
Proof.
  unfold notVoicemail.
  destruct (CallData.endedReason c) as [r|].
  - rewrite negb_true_iff, String.eqb_neq. split.
    + intros H why [= <-]. exact H.
    + intros H. now apply H.
  - split; [discriminate | reflexivity].
Qed.

Lemma isSuccessful_iff (c : CallData.CallReportData) :
  isSuccessful c = true
  <-> CallData.successEvaluation c = Some true
      /\ PrimFloat.ltb 10%float
           (JS.orNumber (CallData.durationSeconds c) 0%float) = true
      /\ forall why, CallData.endedReason c = Some why ->
                     JS.toLowerCase why <> "voicemail".
Proof.
  unfold isSuccessful.
  rewrite !andb_true_iff, flagIsTrue_iff, notVoicemail_iff. tauto.
Qed.

(** A falsy number is not above 10: comparing the duration itself or the
    duration with 0 for a falsy one gives the same answer. *)
Lemma above_10_orNumber (d : JS.number) :
  PrimFloat.ltb 10%float (JS.orNumber (Some d) 0%float)
  = PrimFloat.ltb 10%float d.
Proof.
  unfold JS.orNumber, JS.truthy, PrimFloat.is_nan.
  destruct (PrimFloat.eqb d 0%float || negb (PrimFloat.eqb d d)) eqn:E;
    [|reflexivity].
  simpl. rewrite !eqb_spec in E. rewrite !ltb_spec.
  destruct (Prim2SF d) as [s | s | | s m e]; try reflexivity.
  - destruct s; discriminate E.
  - exfalso. unfold SFeqb, SFcompare in E. simpl in E.
    destruct s; rewrite Z.compare_refl, Pos.compare_cont_refl in E;
      discriminate E.
Qed.

(** The daily report job and script count the calls the statistics
    count. *)
Lemma isSuccessfulCall_eq (c : CallData.CallReportData) :
  isSuccessfulCall c = isSuccessful c.
Proof.
  unfold isSuccessfulCall, isSuccessful.
  destruct (CallData.durationSeconds c) as [d|].
  - now rewrite above_10_orNumber.
  - reflexivity.
Qed.

Lemma filter_length_le {A} (f : A -> bool) (xs : list A) :
  (List.length (filter f xs) <= List.length xs)%nat.
Proof.
  induction xs as [|x rest IH]; simpl; [lia|].
  destruct (f x); simpl; lia.
Qed.

End ReportFacts.

(** C7 (as the code has it). A call counts as successful exactly when its
    success flag is true, its duration (0 when absent) exceeds 10 seconds
    and its end reason is absent or is not "voicemail" in any case of the
    letters.  The success rate is successful / total x 100 rounded to two
    decimals, and 0 for no call.  For three calls of which two are flagged,
    last 30 s and ended as completed and one lasts 5 s, two calls are
    successful and the rate is 66.67, which the email of the daily report
    job prints as 66.7; for three calls of which two are flagged, one of
    30 s ended as completed and one of 5 s, one call is successful and the
    rate is 33.33, printed as 33.3. *)
Theorem C7_success_count_and_rate (calls : list CallData.CallReportData) :
  let s := ReportGenerator.generateSummaryStats calls in
  (forall c,
      ReportGenerator.isSuccessful c = true
      <-> CallData.successEvaluation c = Some true
          /\ PrimFloat.ltb 10%float
               (JS.orNumber (CallData.durationSeconds c) 0%float) = true
          /\ forall why, CallData.endedReason c = Some why ->
                         JS.toLowerCase why <> "voicemail")
  /\ ReportGenerator.totalCalls s = List.length calls
  /\ ReportGenerator.successfulCalls s
     = List.length (filter ReportGenerator.isSuccessful calls)
  /\ (ReportGenerator.successfulCalls s <= ReportGenerator.totalCalls s)%nat
  /\ ReportGenerator.successRate s
     = JS.numberToFixed 2
         (if Nat.ltb 0 (List.length calls)
          then PrimFloat.mul
                 (PrimFloat.div
                    (JS.ofNat (ReportGenerator.successfulCalls s))
                    (JS.ofNat (ReportGenerator.totalCalls s)))
                 100%float
          else 0%float)
  /\ (calls = [] -> ReportGenerator.successRate s = 0%float)
  /\ (forall c1 c2 c3,
        calls = [c1; c2; c3] ->
        CallData.successEvaluation c1 = Some true ->
        CallData.durationSeconds c1 = Some 30%float ->
        CallData.endedReason c1 = Some "completed" ->
        CallData.successEvaluation c2 = Some true ->
        CallData.durationSeconds c2 = Some 30%float ->
        CallData.endedReason c2 = Some "completed" ->
        CallData.durationSeconds c3 = Some 5%float ->
        ReportGenerator.successfulCalls s = 2%nat
        /\ ReportGenerator.successRate s = 66.67%float
        /\ SchedulerProcessor.successRateText
             (List.length (filter ReportGenerator.isSuccessfulCall calls))
             (List.length calls) = "66.7")
  /\ (forall c1 c2 c3,
        calls = [c1; c2; c3] ->
        CallData.successEvaluation c1 = Some true ->
        CallData.durationSeconds c1 = Some 30%float ->
        CallData.endedReason c1 = Some "completed" ->
        CallData.successEvaluation c2 = Some true ->
        CallData.durationSeconds c2 = Some 5%float ->
        CallData.successEvaluation c3 <> Some true ->
        ReportGenerator.successfulCalls s = 1%nat
        /\ ReportGenerator.successRate s = 33.33%float
        /\ SchedulerProcessor.successRateText
             (List.length (filter ReportGenerator.isSuccessfulCall calls))
             (List.length calls) = "33.3").
Proof.
  intros s. split; [exact isSuccessful_iff|].
  split; [reflexivity|]. split; [reflexivity|].
  split; [apply filter_length_le|]. split; [reflexivity|].
  split; [intros ->; reflexivity|]. split.
  - intros c1 c2 c3 -> F1 D1 R1 F2 D2 R2 D3. subst s.
    assert (H1 : ReportGenerator.isSuccessful c1 = true).
    { apply isSuccessful_iff. rewrite F1, D1, R1. repeat split.
      intros why [= <-]. discriminate. }
    assert (H2 : ReportGenerator.isSuccessful c2 = true).
    { apply isSuccessful_iff. rewrite F2, D2, R2. repeat split.
      intros why [= <-]. discriminate. }
    assert (H3 : ReportGenerator.isSuccessful c3 = false).
    { unfold ReportGenerator.isSuccessful. rewrite D3.
      replace (PrimFloat.ltb 10%float (JS.orNumber (Some 5%float) 0%float))
        with false by reflexivity.
      now rewrite andb_false_r. }
    unfold ReportGenerator.generateSummaryStats.
    cbn [ReportGenerator.successfulCalls ReportGenerator.successRate filter].
    rewrite !isSuccessfulCall_eq, H1, H2, H3. repeat split.
  - intros c1 c2 c3 -> F1 D1 R1 F2 D2 F3. subst s.
    assert (H1 : ReportGenerator.isSuccessful c1 = true).
    { apply isSuccessful_iff. rewrite F1, D1, R1. repeat split.
      intros why [= <-]. discriminate. }
    assert (H2 : ReportGenerator.isSuccessful c2 = false).
    { unfold ReportGenerator.isSuccessful. rewrite D2.
      replace (PrimFloat.ltb 10%float (JS.orNumber (Some 5%float) 0%float))
        with false by reflexivity.
      now rewrite andb_false_r. }
    assert (H3 : ReportGenerator.isSuccessful c3 = false).
    { unfold ReportGenerator.isSuccessful.
      replace (ReportGenerator.flagIsTrue c3) with false; [reflexivity|].
      symmetry. apply not_true_is_false. now rewrite flagIsTrue_iff. }
    unfold ReportGenerator.generateSummaryStats.
    cbn [ReportGenerator.successfulCalls ReportGenerator.successRate filter].
    rewrite !isSuccessfulCall_eq, H1, H2, H3. repeat split.
Qed.

(** The end reason is compared in lower case. *)
Lemma voicemail_any_case :
  ReportGenerator.isSuccessful (Examples.flagged 30%float "VoiceMail") = false
  /\ ReportGenerator.isSuccessful (Examples.flagged 30%float "voicemail-2")
     = true.
Proof. split; reflexivity. Qed.

(** The scenario read with the 5 s call as one of the two flagged calls. *)
Lemma one_of_three :
  let s := ReportGenerator.generateSummaryStats Examples.oneOfThree in
  ReportGenerator.successfulCalls s = 1%nat
  /\ ReportGenerator.successRate s = 33.33%float
  /\ fst (SchedulerProcessor.processDailyReport Examples.dailyJob
            Examples.env0 (Examples.worldWithCalls Examples.oneOfThree))
     = Return (SchedulerProcessor.DailyReported 3 1 2).
Proof. vm_compute. repeat split. Qed.

(** C7 (as stated) fails: the scenario of three calls, two of them
    flagged, of 30 s and completed, has two successful calls and a rate of
    66.67, in the statistics and in the result of the daily report job. *)
Lemma C7_counterexample :
  let s := ReportGenerator.generateSummaryStats Examples.scenarioCalls in
  ReportGenerator.successfulCalls s = 2%nat
  /\ ReportGenerator.successfulCalls s <> 1%nat
  /\ ReportGenerator.successRate s = 66.67%float
  /\ PrimFloat.eqb (ReportGenerator.successRate s) 33.3%float = false
  /\ fst (SchedulerProcessor.processDailyReport Examples.dailyJob
            Examples.env0 (Examples.worldWithCalls Examples.scenarioCalls))
     = Return (SchedulerProcessor.DailyReported 3 2 2)
  /\ map (fun j => Email.html (BullMQ.data j))
       (emailQueue
          (snd (SchedulerProcessor.processDailyReport Examples.dailyJob
                  Examples.env0
                  (Examples.worldWithCalls Examples.scenarioCalls))))
     = [Email.DailyReportHtml 1700036000000 3 2 "66.7"].
Proof.
  vm_compute. repeat split. discriminate.
Qed.

Section DailyReportFacts.

Import SchedulerProcessor.

(** The daily report job, when no call matches. *)
Lemma processDailyReport_empty job env w :
  connectDB env = None ->
  noCallsToday env w ->
  processDailyReport job env w
  = (Return NoCallsToReport, setConsole (console w ++ [noCallsLine]) w).
Proof.
  intros Hdb Hnone. unfold noCallsToday in Hnone.
  unfold processDailyReport.
  unfold bind at 1. unfold awaitConnectDB, await. rewrite Hdb.
  unfold bind at 1. unfold ask.
  unfold bind at 1. unfold get.
  unfold getTodayDateRange. rewrite Hnone. reflexivity.
Qed.

(** The daily report script, when no call matches. *)
Lemma main_empty env w :
  connectDB env = None ->
  noCallsToday env w ->
  DailyReportScript.main env w
  = (Return tt,
     setEmailQueue
       (emailQueue w ++
          [BullMQ.newJob Config.defaultJobOptions (emailQueue w)
             "send-email" (noCallsEmail env) BullMQ.noOptions])
       (setConsole
          (console w ++ [(LogInfo, "No calls found for the date range.")])
          w)).
Proof.
  intros Hdb Hnone. unfold noCallsToday in Hnone.
  unfold DailyReportScript.main, tryCatch.
  unfold bind at 1. unfold awaitConnectDB, await. rewrite Hdb.
  unfold bind at 1.
  unfold DailyReportScript.fetchTodayFullCallData, bind, ask, get, ret.
  rewrite Hnone. reflexivity.
Qed.

End DailyReportFacts.

(** C8 (the part the code misses). When no call matches the last 24
    hours, the daily report job writes one line to the console and
    resolves as completed: it creates no report file and queues no email.
    The daily report script, in the same world, queues the no-calls
    email.  The weekly and monthly jobs resolve as completed. *)
Theorem C8_daily_job_sends_no_email
    (job : BullMQ.Job SchedulerJob.SchedulerJobData) (env : Env) (w : World) :
  connectDB env = None ->
  noCallsToday env w ->
  let r := SchedulerProcessor.processDailyReport job env w in
  fst r = Return SchedulerProcessor.NoCallsToReport
  /\ snd r = setConsole (console w ++ [noCallsLine]) w
  /\ uploads (snd r) = uploads w
  /\ emailQueue (snd r) = emailQueue w
  /\ emailQueue (snd (DailyReportScript.main env w))
     = emailQueue w ++
         [BullMQ.newJob Config.defaultJobOptions (emailQueue w)
            "send-email" (noCallsEmail env) BullMQ.noOptions]
  /\ fst (SchedulerProcessor.processWeeklyReport job env w)
     = Return SchedulerProcessor.WeeklyProcessed
  /\ fst (SchedulerProcessor.processMonthlyReport job env w)
     = Return SchedulerProcessor.MonthlyProcessed.
Proof.
  intros Hdb Hnone r. subst r.
  rewrite (processDailyReport_empty job env w Hdb Hnone).
  rewrite (main_empty env w Hdb Hnone).
  unfold SchedulerProcessor.processWeeklyReport,
    SchedulerProcessor.processMonthlyReport, bind, awaitConnectDB, await, ret.
  rewrite Hdb. repeat split.
Qed.

Lemma C8_daily_job_sends_no_email_witness :
  connectDB Examples.env0 = None
  /\ noCallsToday Examples.env0 (Examples.worldWithCalls [])
  /\ emailQueue
       (snd (SchedulerProcessor.processDailyReport Examples.dailyJob
               Examples.env0 (Examples.worldWithCalls []))) = [].
Proof.
  assert (Hdb : connectDB Examples.env0 = None) by reflexivity.
  assert (Hnone : noCallsToday Examples.env0 (Examples.worldWithCalls []))
    by reflexivity.
  split; [exact Hdb | split; [exact Hnone |]].
  exact (proj1 (proj2 (proj2 (proj2
           (C8_daily_job_sends_no_email Examples.dailyJob _ _ Hdb Hnone))))).
Defined.

(* ================================================================== *)
(** ** Properties of the cleanup *)
(* ================================================================== *)

Section CleanupFacts.

Context {D : Type}.
Variables (now grace : Z) (s : BullMQ.JobState).

Lemma JobState_eqb_eq (a b : BullMQ.JobState) :
  BullMQ.JobState_eqb a b = true <-> a = b.
Proof. destruct a, b; simpl; split; congruence. Qed.

Lemma cleanable_inState (j : BullMQ.Job D) :
  BullMQ.cleanable now grace s j = true -> BullMQ.state j = s.
Proof.
  unfold BullMQ.cleanable, BullMQ.inState.
  rewrite andb_true_iff. intros [H _]. now apply JobState_eqb_eq.
Qed.

Lemma cleanUpTo_subset (limit : nat) (q : BullMQ.Queue D) (j : BullMQ.Job D) :
  In j (BullMQ.cleanUpTo now grace s limit q) -> In j q.
Proof.
  revert limit. induction q as [|x rest IH]; intros limit; simpl; [tauto|].
  destruct (BullMQ.cleanable now grace s x).
  - destruct limit as [|k]; simpl; [tauto|]. intros H. right. eauto.
  - simpl. intros [-> | H]; [now left | right; eauto].
Qed.

Lemma cleanUpTo_keeps (limit : nat) (q : BullMQ.Queue D) (j : BullMQ.Job D) :
  In j q -> BullMQ.cleanable now grace s j = false ->
  In j (BullMQ.cleanUpTo now grace s limit q).
Proof.
  revert limit. induction q as [|x rest IH]; intros limit; simpl; [tauto|].
  intros [-> | Hin] Hj.
  - rewrite Hj. now left.
  - destruct (BullMQ.cleanable now grace s x).
    + destruct limit as [|k]; [now right | now apply IH].
    + right. now apply IH.
Qed.

Lemma cleanUpTo_length (limit : nat) (q : BullMQ.Queue D) :
  List.length (BullMQ.cleanUpTo now grace s limit q)
  = (List.length q
     - Nat.min limit
         (List.length (filter (BullMQ.cleanable now grace s) q)))%nat.
Proof.
  revert limit. induction q as [|x rest IH]; intros limit;
    [reflexivity|].
  pose proof (filter_length_le (BullMQ.cleanable now grace s) rest) as Hle.
  cbn [BullMQ.cleanUpTo filter].
  destruct (BullMQ.cleanable now grace s x).
  - destruct limit as [|k]; cbn [List.length]; [lia|].
    rewrite IH. lia.
  - cbn [List.length]. rewrite IH. lia.
Qed.

Lemma cleanUpTo_other_state (s' : BullMQ.JobState) (limit : nat)
    (q : BullMQ.Queue D) :
  s' <> s ->
  BullMQ.getJobs s' (BullMQ.cleanUpTo now grace s limit q)
  = BullMQ.getJobs s' q.
Proof.
  intros Hne. unfold BullMQ.getJobs.
  revert limit. induction q as [|x rest IH]; intros limit; simpl;
    [reflexivity|].
  destruct (BullMQ.cleanable now grace s x) eqn:Hx.
  - apply cleanable_inState in Hx.
    assert (Hs : BullMQ.inState s' x = false).
    { unfold BullMQ.inState. rewrite Hx.
      destruct (BullMQ.JobState_eqb s s') eqn:E; [|reflexivity].
      apply JobState_eqb_eq in E. congruence. }
    rewrite Hs. destruct limit as [|k]; simpl.
    + now rewrite Hs.
    + apply IH.
  - simpl. destruct (BullMQ.inState s' x); [f_equal|]; apply IH.
Qed.

End CleanupFacts.

(** A sweep with a limit of 100 and no type is a sweep of the completed
    jobs. *)
Lemma clean_sweeps_completed {D} (now : Z) (q : BullMQ.Queue D) :
  sweptOfCompleted now q
    (BullMQ.clean now (24 * 60 * 60 * 1000) 100 BullMQ.cleanDefaultType q).
Proof.
  unfold sweptOfCompleted, BullMQ.cleanDefaultType, day24h.
  change (BullMQ.clean now (24 * 60 * 60 * 1000) 100 BullMQ.completed q)
    with (BullMQ.cleanUpTo now (24 * 60 * 60 * 1000) BullMQ.completed 100 q).
  split; [reflexivity|]. split; [apply cleanUpTo_subset|].
  split; [intros j; apply cleanUpTo_keeps|].
  split; [apply cleanUpTo_length|].
  apply cleanUpTo_other_state. discriminate.
Qed.

(** C9 (as the code has it). A cleanup job sweeps the three queues of
    their completed entries that finished 24 hours ago or more, at most
    100 for each queue, and leaves the failed entries in place; then,
    once the store answers, it deletes the call-history records that
    started strictly before now minus 30 days and keeps the others. *)
Theorem C9_cleanup_sweeps_completed
    (job : BullMQ.Job SchedulerJob.SchedulerJobData) (env : Env) (w : World) :
  connectDB env = None ->
  let r := SchedulerProcessor.processCleanup job env w in
  let cutoff := now env - 30 * 86400000 in
  fst r
  = Return (SchedulerProcessor.CleanedUp
              (List.length (filter (CallData.olderThan cutoff) (callData w)))
              cutoff)
  /\ (forall d, In d (callData (snd r))
                <-> In d (callData w) /\ CallData.olderThan cutoff d = false)
  /\ (forall d t, In d (callData w) ->
                  CallData.startedAt (CallData.call d) = Some t ->
                  t < cutoff -> ~ In d (callData (snd r)))
  /\ sweptOfCompleted (now env) (callQueue w) (callQueue (snd r))
  /\ sweptOfCompleted (now env) (emailQueue w) (emailQueue (snd r))
  /\ sweptOfCompleted (now env) (schedulerQueue w) (schedulerQueue (snd r)).
Proof.
  intros Hdb r cutoff. subst r.
  unfold SchedulerProcessor.processCleanup, QueueManager.cleanupQueues.
  unfold bind, ask, modify, consoleWrite, modify, awaitConnectDB, await,
    get, ret, SchedulerProcessor.cleanupCutoff, CallData.deleteMany.
  rewrite Hdb. simpl. fold cutoff.
  split; [reflexivity|]. split.
  { intros d. rewrite filter_In, negb_true_iff. tauto. }
  split.
  { intros d t Hin Ht Hlt. rewrite filter_In, negb_true_iff.
    intros [_ Hold]. unfold CallData.olderThan in Hold. rewrite Ht in Hold.
    apply Z.ltb_ge in Hold. lia. }
  repeat split; apply clean_sweeps_completed.
Qed.

Lemma C9_cleanup_sweeps_completed_witness :
  connectDB Examples.env0 = None
  /\ BullMQ.getJobs BullMQ.failed
       (callQueue
          (snd (SchedulerProcessor.processCleanup Examples.cleanupJob
                  Examples.env0 Examples.worldOldFailure)))
     = BullMQ.getJobs BullMQ.failed (callQueue Examples.worldOldFailure).
Proof.
  assert (Hdb : connectDB Examples.env0 = None) by reflexivity.
  split; [exact Hdb|].
  destruct (C9_cleanup_sweeps_completed Examples.cleanupJob _
              Examples.worldOldFailure Hdb)
    as (_ & _ & _ & (_ & _ & _ & _ & Hfailed) & _).
  exact Hfailed.
Defined.

(** C9 (as stated) fails: a failed call job that finished two days ago is
    still on the call queue after the cleanup. *)
Lemma C9_counterexample :
  let r := SchedulerProcessor.processCleanup Examples.cleanupJob
             Examples.env0 Examples.worldOldFailure in
  fst r = Return (SchedulerProcessor.CleanedUp 0 (1700036000000 - 2592000000))
  /\ callQueue (snd r) = callQueue Examples.worldOldFailure
  /\ ~ sweepsFailedAsStated Examples.env0 Examples.worldOldFailure (snd r).
Proof.
  split; [reflexivity|]. split; [reflexivity|].
  intros Hstated.
  apply (Hstated
           (Examples.jobIn 0 BullMQ.failed (Some (1700036000000 - 172800000)))
           (1700036000000 - 172800000)).
  - left. reflexivity.
  - reflexivity.
  - reflexivity.
  - vm_compute. discriminate.
  - simpl. lia.
  - left. reflexivity.
Qed.

(* ================================================================== *)
(** ** Further properties of the call processor *)
(* ================================================================== *)

Section CallProcessorMore.

Import CallProcessor.

(** X1. A run creates a record or places a call only for a job that
    passed the window check while the voice service answered that it is
    not busy: whenever the history of records and calls changes, the store
    answered, the user exists, the assistant has a current slot within
    call hours and [isVapiBusy] resolved to false. *)
Theorem call_only_after_checks job env w :
  history (snd (process job env w)) <> history w ->
  exists user, inCallHours job env w user /\ isVapiBusy env = Return false.
Proof.
  intros Hchanged.
  destruct (connectDB env) as [e|] eqn:Hdb.
  { exfalso. apply Hchanged.
    unfold process, tryCatch, bind, awaitConnectDB, await.
    rewrite Hdb. unfold consoleWrite, modify, throw.
    destruct (isRetryableError e); reflexivity. }
  destruct (User.findById (Config.userId (BullMQ.data job)) (users w))
    as [user|] eqn:Huser.
  2:{ exfalso. apply Hchanged.
      unfold process, tryCatch, bind, awaitConnectDB, await, get.
      rewrite Hdb, Huser. unfold consoleWrite, modify, throw.
      match goal with |- context [isRetryableError ?x] =>
        destruct (isRetryableError x) end; reflexivity. }
  destruct (outsideCallHours env
              (getCurrentSlotForAssistant env user
                 (Config.assistantId (BullMQ.data job)))) eqn:Hslot.
  { exfalso. apply Hchanged.
    rewrite (process_outside job env w user (conj Hdb (conj Huser Hslot))).
    unfold rescheduleForNextSlot, bind, ask, QueueManager.addCallJob,
      consoleWrite, modify.
    destruct (findNextAvailableSlot env user _); reflexivity. }
  destruct (isVapiBusy env) as [[|]|e] eqn:Hbusy.
  - exfalso. apply Hchanged.
    rewrite (process_busy job env w user (conj Hdb (conj Huser Hslot)) Hbusy).
    reflexivity.
  - exists user. repeat split; assumption.
  - exfalso. apply Hchanged.
    unfold process, tryCatch, bind, awaitConnectDB, await, get, ask.
    rewrite Hdb, Huser, Hslot, Hbusy. unfold consoleWrite, modify, throw.
    destruct (isRetryableError e); reflexivity.
Qed.

Lemma call_only_after_checks_witness :
  history (snd (process Examples.job0 Examples.env0
                  (Examples.worldOf Examples.alice)))
  <> history (Examples.worldOf Examples.alice)
  /\ exists user,
       inCallHours Examples.job0 Examples.env0
         (Examples.worldOf Examples.alice) user
       /\ isVapiBusy Examples.env0 = Return false.
Proof.
  assert (Hchanged :
            history (snd (process Examples.job0 Examples.env0
                            (Examples.worldOf Examples.alice)))
            <> history (Examples.worldOf Examples.alice))
    by (vm_compute; discriminate).
  split; [exact Hchanged |].
  exact (call_only_after_checks _ _ _ Hchanged).
Defined.

(** X2. A run that fails before the attempt (the store does not answer,
    the user does not exist, or the busy check itself fails) changes
    nothing but the console: it writes the failure line and throws the
    error, as it is when it carries a retryable signal and wrapped as a
    permanent failure otherwise; no job is queued, no record created, no
    call placed. *)
Theorem early_failure_changes_nothing job env w e :
  earlyFailure job env w = Some e ->
  process job env w
  = (Throw (surfaced e), setConsole (console w ++ [failureLine job e]) w).
Proof.
  unfold earlyFailure. intros Hearly.
  destruct (connectDB env) as [e0|] eqn:Hdb.
  { injection Hearly as <-.
    unfold process, tryCatch, bind, awaitConnectDB, await.
    rewrite Hdb. unfold consoleWrite, modify, throw, surfaced, failureLine.
    destruct (isRetryableError e0); reflexivity. }
  destruct (User.findById (Config.userId (BullMQ.data job)) (users w))
    as [user|] eqn:Huser.
  2:{ injection Hearly as <-.
      unfold process, tryCatch, bind, awaitConnectDB, await, get.
      rewrite Hdb, Huser.
      unfold consoleWrite, modify, throw, surfaced, failureLine. simpl.
      match goal with |- context [isRetryableError ?x] =>
        destruct (isRetryableError x) end; reflexivity. }
  destruct (outsideCallHours env
              (getCurrentSlotForAssistant env user
                 (Config.assistantId (BullMQ.data job)))) eqn:Hslot;
    [discriminate |].
  destruct (isVapiBusy env) as [b|e0] eqn:Hbusy; [discriminate |].
  injection Hearly as <-.
  unfold process, tryCatch, bind, awaitConnectDB, await, get, ask.
  rewrite Hdb, Huser, Hslot, Hbusy.
  unfold consoleWrite, modify, throw, surfaced, failureLine.
  destruct (isRetryableError e0); reflexivity.
Qed.

Lemma early_failure_changes_nothing_witness :
  let e := newError "User not found: u1" in
  earlyFailure Examples.job0 Examples.env0 Examples.emptyWorld = Some e
  /\ process Examples.job0 Examples.env0 Examples.emptyWorld
     = (Throw (newError "Permanent failure: User not found: u1"),
        setConsole
          [(LogError,
            "❌ Call processing failed for Dana: User not found: u1")]
          Examples.emptyWorld).
Proof.
  intros e.
  assert (Hearly : earlyFailure Examples.job0 Examples.env0
                     Examples.emptyWorld = Some e) by reflexivity.
  split; [exact Hearly |].
  exact (early_failure_changes_nothing _ _ _ _ Hearly).
Defined.

(** X3. A job that fails the window check while the assistant has a slot
    on one of the next seven days is put back on the call queue once, with
    the data it had, the priority of the job itself (1 when that is absent
    or zero) and the delay computed for the slot found; the run creates no
    record, places no call and resolves as rescheduled. *)
Theorem reschedule_requeues_once job env w user next :
  outOfCallHours job env w user ->
  findNextAvailableSlot env user (Config.assistantId (BullMQ.data job))
  = Some next ->
  let r := process job env w in
  exists j,
    fst r = Return Rescheduled
    /\ callQueue (snd r) = callQueue w ++ [j]
    /\ BullMQ.data j = BullMQ.data job
    /\ BullMQ.priority (BullMQ.opts j)
       = Some (JS.orNumber (BullMQ.priority (BullMQ.opts job)) 1%float)
    /\ BullMQ.delay (BullMQ.opts j)
       = Some (calculateDelayToNextSlot env next)
    /\ BullMQ.attempts (BullMQ.opts j) = Some 3
    /\ BullMQ.attemptsMade j = 0
    /\ callQueueDone (snd r) = callQueueDone w
    /\ history (snd r) = history w.
Proof.
  intros Hout Hnext r. subst r.
  rewrite (process_outside job env w user Hout).
  unfold rescheduleForNextSlot, bind, ask. rewrite Hnext.
  eexists. cbn.
  repeat split.
Qed.

Lemma reschedule_requeues_once_witness :
  let env := Examples.envWith true None (Return false) None in
  let next := {| day := "tuesday"; slot := "evening";
                 slotData := Examples.slotA "18:00" "20:00" |} in
  outOfCallHours Examples.job0 env (Examples.worldOf Examples.bob)
    Examples.bob
  /\ findNextAvailableSlot env Examples.bob "asst_A" = Some next
  /\ exists j,
       callQueue (snd (process Examples.job0 env
                         (Examples.worldOf Examples.bob))) = [j]
       /\ BullMQ.delay (BullMQ.opts j) = Some 115200000%float.
Proof.
  intros env next.
  assert (Hout : outOfCallHours Examples.job0 env
                   (Examples.worldOf Examples.bob) Examples.bob)
    by (repeat split).
  assert (Hnext : findNextAvailableSlot env Examples.bob
                    (Config.assistantId (BullMQ.data Examples.job0))
                  = Some next) by reflexivity.
  split; [exact Hout | split; [exact Hnext |]].
  destruct (reschedule_requeues_once _ _ _ _ _ Hout Hnext)
    as (j & _ & Hq & _ & _ & Hdelay & _).
  exists j. split; [exact Hq | exact Hdelay].
Defined.

(** X4. The delay of a reschedule is the time from now to the start time
    of the slot found on the day after today, whatever the day the slot
    was found on: for a clock within the current day and a start time
    that parses to a time of day, it is positive, at most 48 hours, and
    now plus the delay is tomorrow's midnight plus the start time. *)
Theorem reschedule_delay_aims_at_tomorrow env next ms :
  clockWithinToday env ->
  startTimeOfDay (slotData next) = Some ms ->
  0 <= ms < 86400000 ->
  exists d,
    calculateDelayToNextSlot env next = JS.ofZ d
    /\ 0 < d <= 172800000
    /\ now env + d = todayStart env + 86400000 + ms.
Proof.
  unfold clockWithinToday. intros Hclock Hms Hrange.
  rewrite calculateDelay_aims_at_tomorrow. unfold startInstant.
  rewrite Hms. simpl.
  exists (todayStart env + 1 * 86400000 + ms - now env).
  split; [f_equal; lia | lia].
Qed.

Lemma reschedule_delay_aims_at_tomorrow_witness :
  let next := {| day := "thursday"; slot := "evening";
                 slotData := Examples.slotA "18:00" "20:00" |} in
  clockWithinToday Examples.env0
  /\ startTimeOfDay (slotData next) = Some 64800000
  /\ 0 <= 64800000 < 86400000
  /\ exists d,
       calculateDelayToNextSlot Examples.env0 next = JS.ofZ d
       /\ 0 < d <= 172800000
       /\ now Examples.env0 + d
          = todayStart Examples.env0 + 86400000 + 64800000.
Proof.
  intros next.
  assert (Hclock : clockWithinToday Examples.env0)
    by (unfold clockWithinToday; simpl; lia).
  assert (Hms : startTimeOfDay (slotData next) = Some 64800000)
    by reflexivity.
  assert (Hrange : 0 <= 64800000 < 86400000) by lia.
  split; [exact Hclock | split; [exact Hms | split; [exact Hrange |]]].
  exact (reschedule_delay_aims_at_tomorrow _ _ _ Hclock Hms Hrange).
Defined.

(** X5. Only the first entry of the assistant in today's schedule is
    tested against the clock: when the clock is outside that entry, the
    job is rescheduled and nothing is recorded or called, whether or not a
    later entry of the assistant on the same day contains the clock. *)
Theorem only_first_slot_of_today_is_tested job env w user daySchedule name s :
  connectDB env = None ->
  User.findById (Config.userId (BullMQ.data job)) (users w) = Some user ->
  User.scheduleOf user (getCurrentDayOfWeek env) = Some daySchedule ->
  find (matches (Config.assistantId (BullMQ.data job))) daySchedule
  = Some (name, s) ->
  isWithinCallHours env (User.callTimeStart s) (User.callTimeEnd s) = false ->
  getCurrentSlotForAssistant env user (Config.assistantId (BullMQ.data job))
  = Some s
  /\ fst (process job env w) = Return Rescheduled
  /\ history (snd (process job env w)) = history w
  /\ callQueueDone (snd (process job env w)) = callQueueDone w.
Proof.
  intros Hdb Huser Hday Hfind Hclock.
  assert (Hslot : getCurrentSlotForAssistant env user
                    (Config.assistantId (BullMQ.data job)) = Some s).
  { unfold getCurrentSlotForAssistant. now rewrite Hday, Hfind. }
  split; [exact Hslot |].
  assert (Hout : outOfCallHours job env w user).
  { repeat split; try assumption.
    rewrite Hslot. unfold outsideCallHours. now rewrite Hclock. }
  rewrite (process_outside job env w user Hout).
  unfold rescheduleForNextSlot, bind, ask, QueueManager.addCallJob,
    consoleWrite, modify.
  destruct (findNextAvailableSlot env user _); repeat split.
Qed.

Lemma only_first_slot_of_today_is_tested_witness :
  let user :=
    Examples.userWith
      (Some [("monday", [("morning", Examples.slotA "09:00" "11:00");
                         ("evening", Examples.slotA "18:00" "20:00")])]) in
  let env :=
    {| now := 1700000000000 + 68400000;
       nowAfterCall := 1700000000000 + 68402000;
       todayStart := 1700000000000;
       getCurrentDayOfWeek := "monday";
       isWithinCallHours := fun start _ => String.eqb start "18:00";
       connectDB := None;
       isVapiBusy := Return false;
       makeCall := fun _ _ _ => None;
       ADMIN_EMAIL := None;
       EMAIL_TO := None |} in
  isWithinCallHours env "18:00" "20:00" = true
  /\ fst (process Examples.job0 env (Examples.worldOf user))
     = Return Rescheduled.
Proof.
  intros user env.
  split; [reflexivity |].
  assert (Hdb : connectDB env = None) by reflexivity.
  assert (Huser : User.findById (Config.userId (BullMQ.data Examples.job0))
                    (users (Examples.worldOf user)) = Some user)
    by reflexivity.
  assert (Hday : User.scheduleOf user (getCurrentDayOfWeek env)
                 = Some [("morning", Examples.slotA "09:00" "11:00");
                         ("evening", Examples.slotA "18:00" "20:00")])
    by reflexivity.
  assert (Hfind :
            find (matches (Config.assistantId (BullMQ.data Examples.job0)))
              [("morning", Examples.slotA "09:00" "11:00");
               ("evening", Examples.slotA "18:00" "20:00")]
            = Some ("morning", Examples.slotA "09:00" "11:00"))
    by reflexivity.
  assert (Hclock :
            isWithinCallHours env
              (User.callTimeStart (Examples.slotA "09:00" "11:00"))
              (User.callTimeEnd (Examples.slotA "09:00" "11:00")) = false)
    by reflexivity.
  exact (proj1 (proj2 (only_first_slot_of_today_is_tested
                         Examples.job0 env (Examples.worldOf user) user
                         _ _ _ Hdb Huser Hday Hfind Hclock))).
Defined.

(** *** The classification of failures *)

Lemma prefix_occurs (a s : string) :
  String.prefix a s = true <-> exists post, s = (a ++ post)%string.
Proof.
  revert s. induction a as [|c a IH]; intros s.
  - split; [intros _; now exists s | destruct s; reflexivity].
  - destruct s as [|d s]; simpl.
    + split; [discriminate | intros (post & H); discriminate].
    + destruct (ascii_dec c d) as [<- | Hne].
      * rewrite IH. split; intros (post & H); exists post.
        -- now rewrite H.
        -- now injection H.
      * split; [discriminate |].
        intros (post & H). injection H as H1 _. congruence.
Qed.

Lemma includes_occurs (s sub : string) :
  JS.includes s sub = true <-> occursIn sub s.
Proof.
  unfold occursIn. induction s as [|c s IH].
  - change (JS.includes EmptyString sub)
      with (String.prefix sub EmptyString || false)%bool.
    rewrite orb_false_r, prefix_occurs. split.
    + intros (post & H). now exists EmptyString, post.
    + intros ([|x pre] & post & H); [now exists post | discriminate].
  - change (JS.includes (String c s) sub)
      with (String.prefix sub (String c s) || JS.includes s sub)%bool.
    rewrite orb_true_iff, prefix_occurs, IH. split.
    + intros [(post & H) | (pre & post & H)].
      * now exists EmptyString, post.
      * exists (String c pre), post. simpl. now rewrite H.
    + intros ([|x pre] & post & H).
      * left. now exists post.
      * right. simpl in H. injection H as _ H. now exists pre, post.
Qed.

(** X6. An error is classified as retryable exactly when its message
    contains one of the four signals VAPI_BUSY, NETWORK_ERROR,
    TEMPORARY_FAILURE, RATE_LIMITED somewhere (as a substring, with the
    case as written), or its code is exactly one of them; an error without
    message and code is never retryable. *)
Theorem retryable_iff_signal (error : JsError) :
  isRetryableError error = true
  <-> exists signal,
        In signal retryableErrors
        /\ ((exists m, message error = Some m /\ occursIn signal m)
            \/ code error = Some signal).
Proof.
  unfold isRetryableError. rewrite existsb_exists.
  split; intros (signal & Hin & H); exists signal; (split; [exact Hin |]).
  - apply orb_true_iff in H. destruct H as [H | H].
    + left. destruct (message error) as [m|]; [|discriminate].
      exists m. split; [reflexivity | now apply includes_occurs].
    + right. destruct (code error) as [c|]; [|discriminate].
      apply String.eqb_eq in H. now subst.
  - apply orb_true_iff. destruct H as [(m & -> & Hocc) | ->].
    + left. now apply includes_occurs.
    + right. apply String.eqb_refl.
Qed.

(** X7. Wrapping does not change the class of a failure: what [process]
    throws for an error is retryable exactly when the error is, so a
    permanent failure, once wrapped, is never taken for a retryable one
    (the words "Permanent failure: " and "undefined" hold no signal). *)
Theorem wrapping_keeps_the_class (error : JsError) :
  isRetryableError (surfaced error) = isRetryableError error.
Proof.
  unfold surfaced.
  destruct (isRetryableError error) eqn:Hclass; [exact Hclass |].
  unfold isRetryableError in *. simpl in *.
  destruct (message error) as [m|]; simpl in *.
  - rewrite !orb_false_r in *.
    repeat match type of Hclass with
           | (_ || _)%bool = false =>
               apply orb_false_iff in Hclass; destruct Hclass as [? Hclass]
           end.
    repeat match goal with
           | H : (_ || _)%bool = false |- _ =>
               apply orb_false_iff in H; destruct H as [? _]
           end.
    repeat match goal with
           | H : JS.includes m _ = false |- _ => rewrite H; clear H
           end.
    reflexivity.
  - reflexivity.
Qed.

End CallProcessorMore.

(* ================================================================== *)
(** ** Further properties of the bulk-enqueue route *)
(* ================================================================== *)

Section StringFacts.

Lemma trimEnd_idempotent (s : string) :
  JS.trimEnd (JS.trimEnd s) = JS.trimEnd s.
Proof.
  induction s as [|c s IH]; [reflexivity |].
  cbn [JS.trimEnd]. destruct (JS.trimEnd s) as [|d t] eqn:Hs.
  - destruct (JS.isSpace c) eqn:Hc; [reflexivity |].
    cbn [JS.trimEnd]. now rewrite Hc.
  - cbn [JS.trimEnd] in *. fold JS.trimEnd in *. now rewrite IH.
Qed.

Lemma trimStart_clean (s : string) : startsClean (JS.trimStart s).
Proof.
  induction s as [|c s IH]; simpl; [exact I |].
  destruct (JS.isSpace c) eqn:Hc; [exact IH | exact Hc].
Qed.

Lemma trimStart_of_clean (s : string) :
  startsClean s -> JS.trimStart s = s.
Proof. destruct s as [|c s]; simpl; [reflexivity | now intros ->]. Qed.

Lemma trimEnd_clean (s : string) :
  startsClean s -> startsClean (JS.trimEnd s).
Proof.
  destruct s as [|c s]; [exact id |].
  cbn [JS.trimEnd startsClean]. intros Hc.
  destruct (JS.trimEnd s); [now rewrite Hc | exact Hc].
Qed.

(** Trimming a trimmed string changes nothing. *)
Lemma trim_idempotent (s : string) : JS.trim (JS.trim s) = JS.trim s.
Proof.
  unfold JS.trim.
  rewrite (trimStart_of_clean (JS.trimEnd (JS.trimStart s)))
    by (apply trimEnd_clean, trimStart_clean).
  apply trimEnd_idempotent.
Qed.

Lemma trimStart_hasChar (c : ascii) (s : string) :
  hasChar c s = false -> hasChar c (JS.trimStart s) = false.
Proof.
  induction s as [|x s IH]; simpl; [reflexivity |].
  intros H. apply orb_false_iff in H. destruct H as [Hx Hs].
  destruct (JS.isSpace x); [now apply IH |].
  simpl. now rewrite Hx, Hs.
Qed.

Lemma trimEnd_hasChar (c : ascii) (s : string) :
  hasChar c s = false -> hasChar c (JS.trimEnd s) = false.
Proof.
  induction s as [|x s IH]; [reflexivity |].
  cbn [hasChar JS.trimEnd]. intros H.
  apply orb_false_iff in H. destruct H as [Hx Hs].
  specialize (IH Hs). destruct (JS.trimEnd s) as [|d t].
  - destruct (JS.isSpace x); [reflexivity |]. simpl. now rewrite Hx.
  - cbn [hasChar] in *. now rewrite Hx, IH.
Qed.

Lemma trim_hasChar (c : ascii) (s : string) :
  hasChar c s = false -> hasChar c (JS.trim s) = false.
Proof. intros H. now apply trimEnd_hasChar, trimStart_hasChar. Qed.

Lemma split_nonempty (sep : ascii) (s : string) : JS.split sep s <> [].
Proof.
  induction s as [|c s IH]; simpl; [discriminate |].
  destruct (Ascii.eqb c sep); [discriminate |].
  destruct (JS.split sep s); discriminate.
Qed.

Lemma split_length (sep : ascii) (s : string) :
  List.length (JS.split sep s) = S (countChar sep s).
Proof.
  induction s as [|c s IH]; simpl; [reflexivity |].
  destruct (Ascii.eqb c sep); simpl; [now rewrite IH |].
  pose proof (split_nonempty sep s) as Hne.
  destruct (JS.split sep s); [congruence | exact IH].
Qed.

Lemma split_pieces (sep : ascii) (s : string) :
  Forall (fun piece => hasChar sep piece = false) (JS.split sep s).
Proof.
  induction s as [|c s IH]; simpl.
  - constructor; [reflexivity | constructor].
  - destruct (Ascii.eqb c sep) eqn:Hc.
    + constructor; [reflexivity | exact IH].
    + destruct (JS.split sep s) as [|h t].
      * constructor; [simpl; now rewrite Hc | constructor].
      * inversion IH as [|? ? Hh Ht]; subst.
        constructor; [simpl; now rewrite Hc, Hh | exact Ht].
Qed.

End StringFacts.

Section RouteFacts.

Lemma setConsole_nil (w : World) : setConsole (console w ++ []) w = w.
Proof. destruct w. unfold setConsole. simpl. now rewrite app_nil_r. Qed.

(** X8. The handler of the bulk enqueue always answers.  A 400 or a
    404 has changed nothing.  A 200 is given only for an accepted request
    (complete body, store answering, user found with a full telephony
    configuration, at least one valid contact) whose jobs the broker took
    and wrote, all of them.  A 500 has changed nothing but the console
    when the store does not answer or the broker refuses a priority; the
    500 that comes from an estimated start time outside the range of
    dates is answered after the jobs were written, and leaves all of them
    on the queue. *)
Theorem queueCalls_answers body env w :
  let r := Routes.queueCalls body env w in
  exists response,
    fst r = Return response
    /\ match response with
       | Routes.Status400 _ | Routes.Status404 _ => snd r = w
       | Routes.Status200 n assistantId queuedJobs t =>
           exists user contacts,
             accepted body env w user assistantId contacts
             /\ bulkRefusal (basePriority body)
                  (List.length (filter Routes.isValidContact contacts))
                = None
             /\ t = estimatedStart body env
             /\ JS.validTime t = true
             /\ n = List.length (filter Routes.isValidContact contacts)
             /\ queuedJobs = n
             /\ snd r = afterBulk body env w user assistantId contacts
       | Routes.Status500 _ =>
           (exists lines, snd r = setConsole (console w ++ lines) w)
           \/ (exists user assistantId contacts,
                 accepted body env w user assistantId contacts
                 /\ bulkRefusal (basePriority body)
                      (List.length (filter Routes.isValidContact contacts))
                    = None
                 /\ JS.validTime (estimatedStart body env) = false
                 /\ callQueue (snd r)
                    = callQueue
                        (afterBulk body env w user assistantId contacts)
                 /\ (List.length (callQueue w) < List.length (callQueue (snd r)))%nat)
       end.
Proof.
  intros r. subst r.
  assert (Hquiet : forall resp,
            Routes.queueCalls body env w = (Return resp, w) ->
            match resp with
            | Routes.Status400 _ | Routes.Status404 _ => True
            | _ => False
            end ->
            exists response,
              fst (Routes.queueCalls body env w) = Return response
              /\ match response with
                 | Routes.Status400 _ | Routes.Status404 _ =>
                     snd (Routes.queueCalls body env w) = w
                 | Routes.Status200 n assistantId queuedJobs t =>
                     exists user contacts,
                       accepted body env w user assistantId contacts
                       /\ bulkRefusal (basePriority body)
                            (List.length
                               (filter Routes.isValidContact contacts))
                          = None
                       /\ t = estimatedStart body env
                       /\ JS.validTime t = true
                       /\ n = List.length
                                (filter Routes.isValidContact contacts)
                       /\ queuedJobs = n
                       /\ snd (Routes.queueCalls body env w)
                          = afterBulk body env w user assistantId contacts
                 | Routes.Status500 _ =>
                     (exists lines,
                        snd (Routes.queueCalls body env w)
                        = setConsole (console w ++ lines) w)
                     \/ (exists user assistantId contacts,
                           accepted body env w user assistantId contacts
                           /\ bulkRefusal (basePriority body)
                                (List.length
                                   (filter Routes.isValidContact contacts))
                              = None
                           /\ JS.validTime (estimatedStart body env) = false
                           /\ callQueue (snd (Routes.queueCalls body env w))
                              = callQueue
                                  (afterBulk body env w user assistantId
                                     contacts)
                           /\ (List.length (callQueue w)
                               < List.length
                                   (callQueue
                                      (snd (Routes.queueCalls body env w))))%nat)
                 end).
  { intros resp Hrun Hresp. rewrite Hrun. exists resp.
    split; [reflexivity |].
    destruct resp; try contradiction; reflexivity. }
  destruct (Routes.clerkId body) as [cid|] eqn:Hcid.
  2:{ eapply Hquiet; [unfold Routes.queueCalls; rewrite Hcid; reflexivity |].
      exact I. }
  destruct cid as [|c1 r1].
  { eapply Hquiet; [unfold Routes.queueCalls; rewrite Hcid; reflexivity |].
    exact I. }
  destruct (Routes.contacts body) as [contacts|] eqn:Hcs.
  2:{ eapply Hquiet;
        [unfold Routes.queueCalls; rewrite Hcid, Hcs; reflexivity |].
      exact I. }
  destruct (Routes.assistantId body) as [aid|] eqn:Haid.
  2:{ eapply Hquiet;
        [unfold Routes.queueCalls; rewrite Hcid, Hcs, Haid; reflexivity |].
      exact I. }
  destruct aid as [|c2 r2].
  { eapply Hquiet;
      [unfold Routes.queueCalls; rewrite Hcid, Hcs, Haid; reflexivity |].
    exact I. }
  assert (Hrun : Routes.queueCalls body env w
                 = Routes.queueCalls body env w) by reflexivity.
  unfold Routes.queueCalls at 2 in Hrun. rewrite Hcid, Hcs, Haid in Hrun.
  simpl in Hrun. unfold tryCatch in Hrun.
  unfold bind at 1 in Hrun. unfold awaitConnectDB, await in Hrun.
  destruct (connectDB env) as [e|] eqn:Hdb.
  { rewrite Hrun. eexists. split; [reflexivity |].
    left. exists [queueErrorLine e]. reflexivity. }
  unfold bind at 1 in Hrun. unfold get in Hrun.
  destruct (User.findById (String c1 r1) (users w)) as [user|] eqn:Huser.
  2:{ eapply Hquiet; [exact Hrun | exact I]. }
  destruct (Routes.hasTwilio user) eqn:Htw; simpl in Hrun.
  2:{ eapply Hquiet; [exact Hrun | exact I]. }
  destruct (filter Routes.isValidContact contacts) as [|v vs] eqn:Hvalid.
  { eapply Hquiet; [exact Hrun | exact I]. }
  clear Hrun Hquiet.
  assert (Hacc : accepted body env w user (String c2 r2) contacts).
  { repeat split; try assumption; try discriminate.
    - exists (String c1 r1).
      repeat split; [assumption | discriminate | assumption].
    - rewrite Hvalid. discriminate. }
  pose proof (queueCalls_accepted _ _ _ _ _ _ Hacc) as Hrun.
  cbv zeta in Hrun. rewrite Hrun.
  destruct (bulkRefusal (basePriority body)
              (List.length (filter Routes.isValidContact contacts)))
    as [e|] eqn:Hrefusal.
  { eexists. split; [reflexivity |].
    left. exists [queueErrorLine e]. reflexivity. }
  destruct (JS.validTime (estimatedStart body env)) eqn:Htime.
  - eexists. split; [reflexivity |].
    exists user, contacts.
    split; [exact Hacc |]. split; [exact Hrefusal |].
    split; [reflexivity |]. split; [exact Htime |]. repeat split.
  - eexists. split; [reflexivity |].
    right. exists user, (String c2 r2), contacts.
    split; [exact Hacc |]. split; [exact Hrefusal |].
    split; [reflexivity |]. split; [reflexivity |].
    unfold afterBulk. simpl. rewrite length_app.
    destruct (bulkJobs_spec user (String c2 r2) (basePriority body)
                (baseDelay body) (now env)
                (filter Routes.isValidContact contacts) (callQueue w))
      as [Hlen _].
    cbv zeta in Hlen. rewrite Hlen, Hvalid. simpl. lia.
Qed.

(** The 500 after the write, on an input: one contact and a delay at the
    edge of the range of dates. *)
Lemma late_start_is_refused_after_the_write :
  let body :=
    {| Routes.clerkId := Some "u1";
       Routes.contacts := Some [{| Routes.name := Some "Dana";
                                   Routes.number := Some "+15550123" |}];
       Routes.assistantId := Some "asst_A";
       Routes.priority := None;
       Routes.delay := Some 8640000000000000%float |} in
  let r := Routes.queueCalls body Examples.env0
             (Examples.worldOf Examples.alice) in
  fst r = Return (Routes.Status500 "Internal Server Error")
  /\ List.length (callQueue (snd r)) = 1%nat.
Proof. vm_compute. split; reflexivity. Qed.

Lemma isEmpty_false (s : string) :
  JS.isEmpty s = false <-> s <> EmptyString.
Proof. destruct s; simpl; split; congruence. Qed.

(** X9. Every job an accepted request queues carries a contact whose name
    and number are trimmed and not empty, taken from a contact of the
    request, together with the identifier of the user found and the
    assistant of the request; a contact whose name or number is missing
    or blank is left out. *)
Theorem enqueued_contacts_are_trimmed body env w user assistantId contacts :
  accepted body env w user assistantId contacts ->
  exists js,
    callQueue (snd (Routes.queueCalls body env w)) = callQueue w ++ js
    /\ Forall
         (fun j =>
            let c := Config.contact (BullMQ.data j) in
            Config.name c <> EmptyString
            /\ Config.number c <> EmptyString
            /\ JS.trim (Config.name c) = Config.name c
            /\ JS.trim (Config.number c) = Config.number c
            /\ Config.userId (BullMQ.data j) = User._id user
            /\ Config.assistantId (BullMQ.data j) = assistantId
            /\ exists input n p,
                 In input contacts
                 /\ Routes.name input = Some n
                 /\ Routes.number input = Some p
                 /\ Config.name c = JS.trim n
                 /\ Config.number c = JS.trim p)
         js.
Proof.
  intros Hacc.
  pose proof (queueCalls_accepted _ _ _ _ _ _ Hacc) as Hrun.
  cbv zeta in Hrun.
  destruct (bulkJobs_spec user assistantId (basePriority body)
              (baseDelay body) (now env)
              (filter Routes.isValidContact contacts) (callQueue w))
    as (_ & Hnth).
  destruct (bulkRefusal (basePriority body)
              (List.length (filter Routes.isValidContact contacts)))
    as [e|].
  { exists []. rewrite Hrun. simpl. rewrite app_nil_r.
    split; [reflexivity | constructor]. }
  exists (bulkJobs user assistantId (basePriority body) (baseDelay body)
            (now env) (filter Routes.isValidContact contacts) (callQueue w)).
  split.
  { rewrite Hrun. unfold afterBulk.
    destruct (JS.validTime (estimatedStart body env)); reflexivity. }
  apply Forall_forall. intros j Hj.
  destruct (In_nth_error _ _ Hj) as (i & Hi).
  destruct (Hnth i j Hi) as (input & Hinput & Hdata & _).
  apply nth_error_In, filter_In in Hinput.
  destruct Hinput as [Hin Hvalid].
  unfold Routes.isValidContact in Hvalid.
  destruct (Routes.name input) as [n|] eqn:Hn; [| discriminate].
  destruct (Routes.number input) as [p|] eqn:Hp; [| discriminate].
  apply andb_true_iff in Hvalid. destruct Hvalid as [Hname Hnumber].
  apply negb_true_iff, isEmpty_false in Hname.
  apply negb_true_iff, isEmpty_false in Hnumber.
  rewrite Hdata. unfold Routes.prepareJob. simpl. rewrite Hn, Hp. simpl.
  repeat split; try assumption; try apply trim_idempotent.
  exists input, n, p. repeat split; assumption.
Qed.

Lemma enqueued_contacts_are_trimmed_witness :
  let inputs :=
    [{| Routes.name := Some "  Dana "; Routes.number := Some " +15550123" |};
     {| Routes.name := Some "   "; Routes.number := Some "+15550124" |}] in
  let body :=
    {| Routes.clerkId := Some "u1";
       Routes.contacts := Some inputs;
       Routes.assistantId := Some "asst_A";
       Routes.priority := None;
       Routes.delay := None |} in
  let w := Examples.worldOf Examples.alice in
  accepted body Examples.env0 w Examples.alice "asst_A" inputs
  /\ map (fun j => Config.contact (BullMQ.data j))
       (callQueue (snd (Routes.queueCalls body Examples.env0 w)))
     = [Examples.dana]
  /\ exists js,
       callQueue (snd (Routes.queueCalls body Examples.env0 w))
       = callQueue w ++ js
       /\ Forall (fun j => JS.trim (Config.name
                                      (Config.contact (BullMQ.data j)))
                           = Config.name (Config.contact (BullMQ.data j)))
            js.
Proof.
  intros inputs body w.
  assert (Hacc : accepted body Examples.env0 w Examples.alice "asst_A"
                   inputs).
  { repeat split; try discriminate.
    exists "u1". repeat split. discriminate. }
  split; [exact Hacc |]. split; [reflexivity |].
  destruct (enqueued_contacts_are_trimmed _ _ _ _ _ _ Hacc)
    as (js & Hq & Hall).
  exists js. split; [exact Hq |].
  apply Forall_forall. intros j Hj.
  rewrite Forall_forall in Hall.
  exact (proj1 (proj2 (proj2 (Hall j Hj)))).
Defined.

End RouteFacts.

(* ================================================================== *)
(** ** Further properties of the scheduler processor and the reports *)
(* ================================================================== *)

Section SchedulerMore.

Import SchedulerProcessor.

(** X10. The recipients read from a variable that is set are never an
    empty list: there is one more recipient than the variable has commas
    (one, empty, for the empty string), and each is trimmed and holds no
    comma.  A variable that is not set gives no recipient. *)
Theorem recipients_shape (s : string) :
  let rs := Email.recipients (Some s) in
  rs <> []
  /\ List.length rs = S (countChar "," s)
  /\ Forall (fun r => hasChar "," r = false /\ JS.trim r = r) rs
  /\ Email.recipients None = [].
Proof.
  unfold Email.recipients. split.
  { pose proof (split_nonempty "," s) as Hne.
    destruct (JS.split "," s); [congruence | discriminate]. }
  split; [now rewrite length_map, split_length |].
  split; [| reflexivity].
  apply Forall_map.
  eapply Forall_impl; [| apply (split_pieces "," s)].
  intros piece Hpiece. split; [now apply trim_hasChar |].
  apply trim_idempotent.
Qed.

(** X11. When the store answers and some call of the report user started
    in the last 24 hours, the daily report job writes the file of all
    calls and, only when some call is successful, the file of the
    successful calls; it queues one email to the report recipients that
    names exactly the files written, marked for cleanup; it reports the
    number of calls, of successful calls and of files, and leaves the call
    history as it was. *)
Theorem daily_report_with_calls
    (job : BullMQ.Job SchedulerJob.SchedulerJobData) (env : Env) (w : World) :
  connectDB env = None ->
  callsToday env w <> [] ->
  let data := callsToday env w in
  let successful := filter ReportGenerator.isSuccessfulCall data in
  let r := processDailyReport job env w in
  fst r = Return (DailyReported (List.length data) (List.length successful)
                    (List.length (dailyFiles data)))
  /\ (List.length (dailyFiles data) = 2%nat <-> successful <> [])
  /\ uploads (snd r) = uploads w ++ dailyFiles data
  /\ callData (snd r) = callData w
  /\ exists j,
       emailQueue (snd r) = emailQueue w ++ [j]
       /\ Email.type (BullMQ.data j) = Email.daily_report
       /\ Email.to (BullMQ.data j) = Email.recipients (EMAIL_TO env)
       /\ Email.filePaths (BullMQ.data j) = Some (map fst (dailyFiles data))
       /\ Email.cleanup (BullMQ.data j) = true.
Proof.
  intros Hdb Hsome. cbv zeta.
  remember (processDailyReport job env w) as r eqn:Hr.
  unfold callsToday in *. unfold processDailyReport in Hr.
  unfold bind at 1 in Hr. unfold awaitConnectDB, await in Hr.
  rewrite Hdb in Hr.
  unfold bind at 1 in Hr. unfold ask in Hr.
  unfold bind at 1 in Hr. unfold get in Hr.
  unfold getTodayDateRange in Hr. unfold dailyFiles.
  set (data := CallData.aggregate _ _ _ _) in *. clearbody data.
  rewrite (match_nonempty data) in Hr by exact Hsome.
  unfold ReportGenerator.saveToXLSX at 1 in Hr.
  rewrite (match_nonempty data) in Hr by exact Hsome.
  set (successful := filter ReportGenerator.isSuccessfulCall data) in *.
  clearbody successful.
  destruct successful as [|s ss];
    unfold bind, modify, ret, QueueManager.addEmailJob in Hr;
    simpl in Hr; subst r; simpl.
  - split; [reflexivity |]. split; [split; [discriminate | congruence] |].
    split; [reflexivity |]. split; [reflexivity |].
    eexists. repeat split.
  - split; [reflexivity |]. split; [split; [discriminate | reflexivity] |].
    split; [now rewrite <- app_assoc |]. split; [reflexivity |].
    eexists. repeat split.
Qed.

Lemma daily_report_with_calls_witness :
  let w := Examples.worldWithCalls Examples.scenarioCalls in
  connectDB Examples.env0 = None
  /\ callsToday Examples.env0 w <> []
  /\ fst (processDailyReport Examples.dailyJob Examples.env0 w)
     = Return (DailyReported 3 2 2).
Proof.
  intros w.
  assert (Hdb : connectDB Examples.env0 = None) by reflexivity.
  assert (Hsome : callsToday Examples.env0 w <> [])
    by (vm_compute; discriminate).
  split; [exact Hdb | split; [exact Hsome |]].
  exact (proj1 (daily_report_with_calls Examples.dailyJob _ _ Hdb Hsome)).
Defined.

(** X12. A cleanup job run while the store does not answer has already
    swept the three queues when it fails: the completed entries are gone
    as after a successful run, no call-history record is deleted, and the
    error of the store is thrown as it is. *)
Theorem cleanup_store_down
    (job : BullMQ.Job SchedulerJob.SchedulerJobData) (env : Env) (w : World)
    (e : JsError) :
  connectDB env = Some e ->
  let r := processCleanup job env w in
  fst r = Throw e
  /\ callData (snd r) = callData w
  /\ sweptOfCompleted (now env) (callQueue w) (callQueue (snd r))
  /\ sweptOfCompleted (now env) (emailQueue w) (emailQueue (snd r))
  /\ sweptOfCompleted (now env) (schedulerQueue w) (schedulerQueue (snd r))
  /\ (SchedulerJob.type (BullMQ.data job) = SchedulerJob.cleanup ->
      fst (process job env w) = Throw e).
Proof.
  intros Hdb r. subst r.
  assert (Hrun : processCleanup job env w
                 = (Throw e,
                    snd (QueueManager.cleanupQueues env w))).
  { unfold processCleanup, QueueManager.cleanupQueues.
    unfold bind, ask, modify, consoleWrite, awaitConnectDB, await.
    now rewrite Hdb. }
  rewrite Hrun.
  unfold QueueManager.cleanupQueues, bind, ask, modify, consoleWrite. simpl.
  split; [reflexivity |]. split; [reflexivity |].
  split; [apply clean_sweeps_completed |].
  split; [apply clean_sweeps_completed |].
  split; [apply clean_sweeps_completed |].
  intros Htype.
  unfold process, tryCatch. rewrite Htype.
  unfold bind at 1. unfold consoleWrite at 1. unfold modify at 1.
  cbv beta iota.
  match goal with
  | |- context [processCleanup job env ?w1] =>
      assert (Hrun1 : fst (processCleanup job env w1) = Throw e)
  end.
  { unfold processCleanup, QueueManager.cleanupQueues.
    unfold bind, ask, modify, consoleWrite, awaitConnectDB, await.
    now rewrite Hdb. }
  match goal with
  | |- context [processCleanup job env ?w1] =>
      destruct (processCleanup job env w1) as [o w2]
  end.
  simpl in Hrun1. subst o. reflexivity.
Qed.

Lemma cleanup_store_down_witness :
  let env :=
    Examples.envWith true (Some Examples.networkError) (Return false) None in
  connectDB env = Some Examples.networkError
  /\ fst (processCleanup Examples.cleanupJob env Examples.worldOldFailure)
     = Throw Examples.networkError.
Proof.
  intros env.
  assert (Hdb : connectDB env = Some Examples.networkError) by reflexivity.
  split; [exact Hdb |].
  exact (proj1 (cleanup_store_down Examples.cleanupJob env
                  Examples.worldOldFailure _ Hdb)).
Defined.

(** X13. The scheduler passes on what the handler of the job's type
    does: it resolves with the handler's result and throws the handler's
    error unchanged.  A job of an unknown type runs no handler: it fails
    with "Unknown scheduler job type: <type>" and changes nothing but the
    console. *)
Theorem scheduler_dispatch
    (job : BullMQ.Job SchedulerJob.SchedulerJobData) (env : Env) (w : World) :
  let started := schedulerStarted job w in
  fst (process job env w)
  = match SchedulerJob.type (BullMQ.data job) with
    | SchedulerJob.daily_report => fst (processDailyReport job env started)
    | SchedulerJob.weekly_report => fst (processWeeklyReport job env started)
    | SchedulerJob.monthly_report =>
        fst (processMonthlyReport job env started)
    | SchedulerJob.cleanup => fst (processCleanup job env started)
    | SchedulerJob.health_check => fst (processHealthCheck job env started)
    | SchedulerJob.other tag =>
        Throw (newError ("Unknown scheduler job type: " ++ tag))
    end
  /\ forall tag,
       SchedulerJob.type (BullMQ.data job) = SchedulerJob.other tag ->
       exists lines,
         snd (process job env w) = setConsole (console w ++ lines) w.
Proof.
  intros started. subst started. unfold schedulerStarted.
  unfold process, tryCatch.
  unfold bind at 1. unfold consoleWrite at 1. unfold modify at 1.
  unfold bind at 2. unfold consoleWrite at 1. unfold modify at 1.
  cbv beta iota.
  split.
  - destruct (SchedulerJob.type (BullMQ.data job)); cbv beta iota;
      try (match goal with
           | |- fst (let (_, _) := ?run in _) = fst ?run' =>
               change run' with run; destruct run as [[r|e] w']
           end; reflexivity).
    reflexivity.
  - intros tag Htype. rewrite Htype. eexists [_; _].
    unfold bind, consoleWrite, modify, throw. simpl.
    unfold setConsole. simpl. rewrite <- app_assoc. reflexivity.
Qed.

End SchedulerMore.

(* ================================================================== *)
(** ** Further properties of the daily report script and the statistics *)
(* ================================================================== *)

Section ScriptFacts.

(** X14. The daily report script always resolves and always queues
    exactly one email, to the report recipients when the variable that
    names them is set: the failure alert when
    the store does not answer (no file is written), the no-calls notice
    when no call started in the last 24 hours (no file is written), and
    otherwise the comprehensive report, which names the files the run has
    written, marked for cleanup. *)
Theorem script_always_queues_one_email (env : Env) (w : World) :
  let r := DailyReportScript.main env w in
  fst r = Return tt
  /\ callData (snd r) = callData w
  /\ exists j,
       emailQueue (snd r) = emailQueue w ++ [j]
       /\ (forall s, EMAIL_TO env = Some s ->
           Email.to (BullMQ.data j) = Email.recipients (Some s))
       /\ match connectDB env, callsToday env w with
          | Some e, _ =>
              Email.type (BullMQ.data j) = Email.alert
              /\ Email.subject (BullMQ.data j) = Email.ReportFailedSubject
              /\ Email.filePaths (BullMQ.data j) = None
              /\ uploads (snd r) = uploads w
          | None, [] =>
              BullMQ.data j = noCallsEmail env
              /\ uploads (snd r) = uploads w
          | None, _ :: _ =>
              Email.type (BullMQ.data j) = Email.daily_report
              /\ Email.cleanup (BullMQ.data j) = true
              /\ exists files,
                   uploads (snd r) = uploads w ++ files
                   /\ Email.filePaths (BullMQ.data j) = Some (map fst files)
                   /\ (List.length files = 1%nat \/ List.length files = 2%nat)
          end.
Proof.
  cbv zeta.
  remember (DailyReportScript.main env w) as r eqn:Hr.
  unfold DailyReportScript.main, tryCatch in Hr.
  unfold bind at 1 in Hr. unfold awaitConnectDB, await in Hr.
  destruct (connectDB env) as [e|] eqn:Hdb.
  { unfold bind, consoleWrite, modify, ask, tryCatch,
      QueueManager.addEmailJob, ret in Hr.
    simpl in Hr. subst r. simpl.
    split; [reflexivity |]. split; [reflexivity |].
    eexists. split; [reflexivity |].
    split; [intros s0 Hs0; cbn; now rewrite Hs0 |]. repeat split. }
  unfold bind at 1 in Hr.
  unfold DailyReportScript.fetchTodayFullCallData in Hr.
  unfold bind at 1 2 in Hr. unfold ask at 1, get at 1, ret at 1 in Hr.
  cbv beta iota in Hr.
  unfold bind at 1 in Hr. unfold ask at 1 in Hr. cbv beta iota in Hr.
  unfold callsToday.
  set (data := CallData.aggregate _ _ _ _) in *.
  destruct data as [|c cs] eqn:Hdata.
  { unfold bind, consoleWrite, modify, QueueManager.addEmailJob, ret in Hr.
    simpl in Hr. subst r. simpl.
    split; [reflexivity |]. split; [reflexivity |].
    eexists. split; [reflexivity |].
    split; [intros s0 Hs0; cbn; now rewrite Hs0 |]. repeat split. }
  rewrite <- Hdata in Hr. clear Hdata. clearbody data.
  unfold ReportGenerator.generateAdvancedReport in Hr.
  set (successful := filter ReportGenerator.isSuccessfulCall data) in *.
  clearbody successful.
  destruct successful as [|s ss];
    unfold bind, consoleWrite, modify, QueueManager.addEmailJob, ret in Hr;
    simpl in Hr; subst r; simpl.
  - split; [reflexivity |]. split; [reflexivity |].
    eexists. split; [reflexivity |].
    split; [intros s0 Hs0; cbn; now rewrite Hs0 |]. repeat split.
    exists [(ReportGenerator.reportPath "DailyReport_Comprehensive", data)].
    repeat split. now left.
  - split; [reflexivity |]. split; [reflexivity |].
    eexists. split; [reflexivity |].
    split; [intros s0 Hs0; cbn; now rewrite Hs0 |]. repeat split.
    exists [(ReportGenerator.reportPath "DailyReport_Comprehensive", data);
            (ReportGenerator.reportPath "DailyReport_SuccessfulCalls",
             s :: ss)].
    repeat split; [now rewrite <- app_assoc | now right].
Qed.

(** *** The breakdown of the statistics *)

Lemma countOf_bump_same (key : string) (acc : list (string * nat)) :
  countOf key (ReportGenerator.bump key acc) = S (countOf key acc).
Proof.
  unfold countOf. induction acc as [|[k v] rest IH]; simpl.
  - now rewrite String.eqb_refl.
  - destruct (String.eqb k key) eqn:Hk; simpl; rewrite Hk;
      [reflexivity | exact IH].
Qed.

Lemma countOf_bump_other (key other : string) (acc : list (string * nat)) :
  key <> other ->
  countOf other (ReportGenerator.bump key acc) = countOf other acc.
Proof.
  intros Hne. unfold countOf.
  induction acc as [|[k v] rest IH]; simpl.
  - apply String.eqb_neq in Hne. now rewrite Hne.
  - destruct (String.eqb k key) eqn:Hk; simpl.
    + apply String.eqb_eq in Hk. subst k.
      apply String.eqb_neq in Hne. now rewrite Hne.
    + destruct (String.eqb k other); [reflexivity | exact IH].
Qed.

Lemma bump_keys (key x : string) (acc : list (string * nat)) :
  In x (map fst (ReportGenerator.bump key acc)) <->
  x = key \/ In x (map fst acc).
Proof.
  induction acc as [|[k v] rest IH]; simpl.
  - intuition congruence.
  - destruct (String.eqb k key) eqn:Hk; simpl.
    + apply String.eqb_eq in Hk. subst k. intuition.
    + rewrite IH. intuition.
Qed.

Lemma bump_NoDup (key : string) (acc : list (string * nat)) :
  NoDup (map fst acc) -> NoDup (map fst (ReportGenerator.bump key acc)).
Proof.
  induction acc as [|[k v] rest IH]; simpl; intros Hnd.
  - constructor; [intros [] | constructor].
  - inversion Hnd as [|? ? Hnotin Hrest]; subst.
    destruct (String.eqb k key) eqn:Hk; simpl.
    + now constructor.
    + constructor; [| now apply IH].
      rewrite bump_keys. intros [-> | Hin]; [| contradiction].
      now rewrite String.eqb_refl in Hk.
Qed.

Lemma bump_total (key : string) (acc : list (string * nat)) :
  list_sum (map snd (ReportGenerator.bump key acc))
  = S (list_sum (map snd acc)).
Proof.
  induction acc as [|[k v] rest IH]; simpl; [reflexivity |].
  destruct (String.eqb k key); simpl; [reflexivity |].
  rewrite IH. lia.
Qed.

(** The invariant of the fold that builds a breakdown. *)
Lemma breakdown_fold (keyOf : CallData.CallReportData -> string)
    (calls : list CallData.CallReportData) (acc : list (string * nat)) :
  let result :=
    fold_left (fun acc call => ReportGenerator.bump (keyOf call) acc)
      calls acc in
  NoDup (map fst acc) ->
  NoDup (map fst result)
  /\ list_sum (map snd result)
     = (list_sum (map snd acc) + List.length calls)%nat
  /\ forall key,
       countOf key result
       = (countOf key acc
          + List.length
              (filter (fun c => String.eqb (keyOf c) key) calls))%nat.
Proof.
  revert acc. induction calls as [|c cs IH]; intros acc result Hnd.
  - subst result. simpl. repeat split; [assumption | lia | intros; lia].
  - subst result. simpl.
    destruct (IH (ReportGenerator.bump (keyOf c) acc)
                (bump_NoDup _ _ Hnd)) as (Hnd' & Hsum & Hcount).
    split; [exact Hnd' |]. split.
    + rewrite Hsum, bump_total. lia.
    + intros key. rewrite Hcount.
      destruct (String.eqb (keyOf c) key) eqn:Hk.
      * apply String.eqb_eq in Hk. subst key.
        rewrite countOf_bump_same. simpl. lia.
      * apply String.eqb_neq in Hk.
        rewrite (countOf_bump_other _ _ _ Hk). lia.
Qed.

(** X15. The breakdown by end reason of the statistics counts every call
    once: its keys are distinct, the count under a key is the number of
    calls with that end reason (the calls without one are counted under
    "unknown"), and the counts add up to the total number of calls.  The
    end reasons are taken not to be names every object inherits, on which
    the lookup of the count reads the inherited member. *)
Theorem breakdown_counts_every_call (calls : list CallData.CallReportData) :
  plainReasons calls ->
  let stats := ReportGenerator.generateSummaryStats calls in
  NoDup (map fst (ReportGenerator.endReasonBreakdown stats))
  /\ list_sum (map snd (ReportGenerator.endReasonBreakdown stats))
     = ReportGenerator.totalCalls stats
  /\ (forall key,
        countOf key (ReportGenerator.endReasonBreakdown stats)
        = List.length
            (filter (fun c => String.eqb (reasonKey c) key) calls))
  /\ (forall key,
        In key (map fst (ReportGenerator.endReasonBreakdown stats)) ->
        exists c, In c calls /\ reasonKey c = key).
Proof.
  intros _ stats. subst stats. simpl.
  destruct (breakdown_fold reasonKey calls [] (NoDup_nil _))
    as (Hnd & Hsum & Hcount).
  unfold reasonKey in *.
  split; [exact Hnd |]. split; [exact Hsum |]. split; [exact Hcount |].
  intros key.
  set (f := fun acc call =>
              ReportGenerator.bump
                (JS.orString (CallData.endedReason call) "unknown") acc).
  assert (Hkeys : forall cs acc,
            In key (map fst (fold_left f cs acc)) ->
            In key (map fst acc)
            \/ exists c, In c cs
                         /\ JS.orString (CallData.endedReason c) "unknown"
                            = key).
  { induction cs as [|c cs IH]; intros acc Hin; simpl in *.
    - now left.
    - destruct (IH _ Hin) as [Hacc | (c' & Hc' & Hkey)].
      + unfold f in Hacc. apply bump_keys in Hacc.
        destruct Hacc as [-> | Hacc]; [right; exists c; auto | now left].
      + right. exists c'. auto. }
  intros Hin. destruct (Hkeys calls [] Hin) as [[] | H]. exact H.
Qed.

Lemma breakdown_counts_every_call_witness :
  plainReasons Examples.scenarioCalls
  /\ ReportGenerator.endReasonBreakdown
       (ReportGenerator.generateSummaryStats Examples.scenarioCalls)
     = [("completed", 3%nat)]
  /\ list_sum
       (map snd
          (ReportGenerator.endReasonBreakdown
             (ReportGenerator.generateSummaryStats Examples.scenarioCalls)))
     = 3%nat.
Proof.
  assert (Hplain : plainReasons Examples.scenarioCalls).
  { repeat constructor; vm_compute; intuition discriminate. }
  split; [exact Hplain |]. split; [reflexivity |].
  exact (proj1 (proj2 (breakdown_counts_every_call _ Hplain))).
Defined.

End ScriptFacts.

(* ================================================================== *)
(** ** Further properties of the sweeps of the queues *)
(* ================================================================== *)

Section SweepFacts.

Context {D : Type}.
Variables (now grace : Z) (s : BullMQ.JobState).

(** A sweep lowers the number of cleanable jobs by the limit, or to
    none. *)
Lemma cleanUpTo_cleanable_left (limit : nat) (q : BullMQ.Queue D) :
  List.length
    (filter (BullMQ.cleanable now grace s)
       (BullMQ.cleanUpTo now grace s limit q))
  = (List.length (filter (BullMQ.cleanable now grace s) q)
     - Nat.min limit
         (List.length (filter (BullMQ.cleanable now grace s) q)))%nat.
Proof.
  revert limit. induction q as [|j rest IH]; intros limit.
  - simpl. lia.
  - cbn [BullMQ.cleanUpTo filter].
    destruct (BullMQ.cleanable now grace s j) eqn:Hj.
    + destruct limit as [|k].
      * cbn [filter]. rewrite Hj. cbn [List.length]. lia.
      * rewrite IH. cbn [List.length]. lia.
    + cbn [filter]. rewrite Hj. apply IH.
Qed.

(** A sweep of a queue that holds no cleanable job changes nothing. *)
Lemma cleanUpTo_nothing_to_clean (limit : nat) (q : BullMQ.Queue D) :
  filter (BullMQ.cleanable now grace s) q = [] ->
  BullMQ.cleanUpTo now grace s limit q = q.
Proof.
  induction q as [|j rest IH]; [reflexivity |].
  cbn [BullMQ.cleanUpTo filter].
  destruct (BullMQ.cleanable now grace s j); [discriminate |].
  intros H. now rewrite IH.
Qed.

End SweepFacts.

(** X16. Each run of the queue cleanup lowers the number of completed
    jobs of a queue that finished 24 hours ago or more by 100, or to none
    when there are at most 100: a queue with more than 100 such jobs
    keeps the rest until later runs.  A second run at the same instant
    after a run that left none changes no queue. *)
Theorem cleanup_progress (env : Env) (w : World) :
  let w1 := snd (QueueManager.cleanupQueues env w) in
  let w2 := snd (QueueManager.cleanupQueues env w1) in
  eligible (now env) (callQueue w1)
  = (eligible (now env) (callQueue w)
     - Nat.min 100 (eligible (now env) (callQueue w)))%nat
  /\ eligible (now env) (emailQueue w1)
     = (eligible (now env) (emailQueue w)
        - Nat.min 100 (eligible (now env) (emailQueue w)))%nat
  /\ eligible (now env) (schedulerQueue w1)
     = (eligible (now env) (schedulerQueue w)
        - Nat.min 100 (eligible (now env) (schedulerQueue w)))%nat
  /\ ((eligible (now env) (callQueue w) <= 100)%nat ->
      (eligible (now env) (emailQueue w) <= 100)%nat ->
      (eligible (now env) (schedulerQueue w) <= 100)%nat ->
      callQueue w2 = callQueue w1
      /\ emailQueue w2 = emailQueue w1
      /\ schedulerQueue w2 = schedulerQueue w1).
Proof.
  intros w1 w2. subst w2 w1.
  unfold QueueManager.cleanupQueues, bind, ask, modify, consoleWrite.
  unfold eligible, day24h, BullMQ.cleanDefaultType. simpl.
  change (24 * 60 * 60 * 1000) with 86400000.
  change 86400000 with (24 * 60 * 60 * 1000).
  pose proof (fun D q =>
                @cleanUpTo_cleanable_left D (now env) (24 * 60 * 60 * 1000)
                  BullMQ.completed 100 q) as Hleft.
  split; [apply Hleft |]. split; [apply Hleft |]. split; [apply Hleft |].
  intros Hc He Hs.
  assert (Hnone : forall D (q : BullMQ.Queue D),
            (List.length
               (filter (BullMQ.cleanable (now env) (24 * 60 * 60 * 1000)
                          BullMQ.completed) q) <= 100)%nat ->
            BullMQ.cleanUpTo (now env) (24 * 60 * 60 * 1000) BullMQ.completed
              100
              (BullMQ.cleanUpTo (now env) (24 * 60 * 60 * 1000)
                 BullMQ.completed 100 q)
            = BullMQ.cleanUpTo (now env) (24 * 60 * 60 * 1000)
                BullMQ.completed 100 q).
  { intros D q Hle. apply cleanUpTo_nothing_to_clean.
    apply length_zero_iff_nil. rewrite Hleft. lia. }
  repeat split; apply Hnone; assumption.
Qed.

(* ================================================================== *)
(** ** The removal of the failed call jobs *)
(* ================================================================== *)

(** X17. The removal of the failed call jobs sweeps the call queue of
    the failed jobs that have finished and of no other: every waiting,
    active, delayed or completed job stays, in the order it had; the
    other queues and the collections are not touched; the count it
    answers is the number of failed jobs it found. *)
Theorem clear_failed_removes_only_failed (env : Env) (w : World) :
  let r := ClearFailedJobs.handler env w in
  exists cleared,
    fst r = Return cleared
    /\ ClearFailedJobs.clearedCount cleared
       = List.length (BullMQ.getJobs BullMQ.failed (callQueue w))
    /\ (forall j, In j (callQueue (snd r)) <->
                  In j (callQueue w)
                  /\ BullMQ.cleanable (now env) 0 BullMQ.failed j = false)
    /\ (forall j t, In j (callQueue w) ->
                    BullMQ.state j = BullMQ.failed ->
                    BullMQ.finishedOn j = Some t -> t <= now env ->
                    ~ In j (callQueue (snd r)))
    /\ (forall st, st <> BullMQ.failed ->
                   BullMQ.getJobs st (callQueue (snd r))
                   = BullMQ.getJobs st (callQueue w))
    /\ emailQueue (snd r) = emailQueue w
    /\ schedulerQueue (snd r) = schedulerQueue w
    /\ callQueueDone (snd r) = callQueueDone w
    /\ callData (snd r) = callData w.
Proof.
  intros r. subst r.
  unfold ClearFailedJobs.handler, bind, ask, get, modify, ret. simpl.
  eexists. split; [reflexivity |]. split; [reflexivity |].
  split; [intros j; rewrite filter_In, negb_true_iff; tauto |]. split.
  { intros j t Hin Hstate Hfin Hle. rewrite filter_In, negb_true_iff.
    intros [_ Hkeep]. unfold BullMQ.cleanable, BullMQ.inState in Hkeep.
    rewrite Hstate, Hfin in Hkeep. simpl in Hkeep.
    apply Z.leb_gt in Hkeep. lia. }
  split; [| repeat split].
  intros st Hst. unfold BullMQ.getJobs, BullMQ.clean.
  induction (callQueue w) as [|j rest IH]; [reflexivity |].
  cbn [filter].
  destruct (BullMQ.cleanable (now env) 0 BullMQ.failed j) eqn:Hj;
    cbn [negb].
  - assert (Hother : BullMQ.inState st j = false).
    { unfold BullMQ.cleanable in Hj. apply andb_true_iff in Hj.
      destruct Hj as [Hin _]. unfold BullMQ.inState in *.
      destruct (BullMQ.state j), st; try reflexivity; try discriminate;
        congruence. }
    rewrite Hother. exact IH.
  - cbn [filter]. destruct (BullMQ.inState st j); [f_equal |]; exact IH.
Qed.

(* ================================================================== *)
(** ** Properties of the email processor *)
(* ================================================================== *)

Section EmailProcessorFacts.

Import EmailProcessor.

Variable resend : Mail -> option JsError.

Lemma write_uploads (line : LogLevel * string) (w : World) :
  uploads (write line w) = uploads w.
Proof. reflexivity. Qed.

Lemma existsSync_write (p : string) (line : LogLevel * string) (w : World) :
  existsSync p (write line w) = existsSync p w.
Proof. reflexivity. Qed.

Lemma readAll_write (paths : list string) (line : LogLevel * string)
    (w : World) :
  readAll paths (write line w) = readAll paths w.
Proof. induction paths as [|p rest IH]; simpl; [| rewrite IH]; reflexivity. Qed.

(** What [cleanupFiles] leaves of the files. *)
Lemma cleanupFiles_uploads (paths : list string) (w : World)
    (f : FileAttachment) :
  In f (uploads (cleanupFiles paths w))
  <-> In f (uploads w) /\ ~ In (fst f) paths.
Proof.
  revert w. induction paths as [|p rest IH]; intros w; simpl.
  - tauto.
  - rewrite IH. destruct (existsSync p w) eqn:Hex; simpl.
    + rewrite filter_In, negb_true_iff. unfold isPath.
      rewrite String.eqb_neq. intuition congruence.
    + split; [| tauto]. intros [Hin Hrest]. split; [exact Hin |].
      intros [Heq | Hin']; [| contradiction].
      unfold existsSync in Hex.
      assert (Hex' : existsb (isPath p) (uploads w) = true).
      { apply existsb_exists. exists f. split; [exact Hin |].
        unfold isPath. subst p. apply String.eqb_refl. }
      congruence.
Qed.

(** [cleanupFiles] touches the files and the console only. *)
Lemma cleanupFiles_frame (paths : list string) (w : World) :
  let w' := cleanupFiles paths w in
  users w' = users w /\ callQueueDone w' = callQueueDone w
  /\ callData w' = callData w /\ callQueue w' = callQueue w
  /\ emailQueue w' = emailQueue w /\ schedulerQueue w' = schedulerQueue w
  /\ history w' = history w.
Proof.
  revert w. induction paths as [|p rest IH]; intros w; simpl.
  - repeat split.
  - destruct (existsSync p w);
      [ destruct (IH (setConsole
                        (console w ++
                           [(LogInfo, ("🗑️ Cleaned up file: " ++ p)%string)])
                        (unlinkSync p w)))
          as (H1 & H2 & H3 & H4 & H5 & H6 & H7)
      | destruct (IH w) as (H1 & H2 & H3 & H4 & H5 & H6 & H7) ];
      simpl in *; repeat split; assumption.
Qed.

(** [cleanupFiles] on paths of which none exists leaves the files. *)
Lemma cleanupFiles_nothing_to_remove (paths : list string) (w : World) :
  (forall p, In p paths -> existsSync p w = false) ->
  uploads (cleanupFiles paths w) = uploads w.
Proof.
  induction paths as [|p rest IH]; intros Hnone; [reflexivity |].
  cbn [cleanupFiles]. rewrite (Hnone p) by now left.
  apply IH. intros q Hq. apply Hnone. now right.
Qed.

(** The body of the [try] never returns, sends at most one mail and
    leaves the files as they are. *)
Lemma send_throws (job : BullMQ.Job Email.EmailJobData) (w : World) :
  exists e w' mails,
    send resend job w = (Throw e, w', mails)
    /\ uploads w' = uploads w
    /\ users w' = users w /\ callQueueDone w' = callQueueDone w
    /\ callData w' = callData w /\ callQueue w' = callQueue w
    /\ emailQueue w' = emailQueue w /\ schedulerQueue w' = schedulerQueue w
    /\ history w' = history w
    /\ (mails = []
        \/ exists mail,
             mails = [mail]
             /\ (resend mail = None ->
                 e = newError ("Email sending failed: " ++ globalErrorText))).
Proof.
  unfold send.
  destruct (match Email.filePaths (BullMQ.data job) with
            | Some (p :: ps) => readAll (p :: ps) w
            | _ => inr []
            end) as [missing | files].
  - do 3 eexists. split; [reflexivity |]. repeat split. now left.
  - match goal with
    | |- context [resend ?m] => destruct (resend m) as [e|] eqn:Hsend
    end.
    + do 3 eexists. split; [reflexivity |]. repeat split.
      right. eexists. split; [reflexivity |]. congruence.
    + unfold globalErrorIsTruthy.
      do 3 eexists. split; [reflexivity |]. repeat split.
      right. eexists. split; [reflexivity |]. reflexivity.
Qed.

End EmailProcessorFacts.

(** X18. A run of the email processor never completes: after the send the
    source tests the global [Error], which is always truthy, so even when
    the mail is accepted the run throws "Email sending failed: ..." and
    the job counts as failed.  A run sends at most one mail, and touches
    neither the queues nor the collections. *)
Theorem email_job_never_completes
    (resend : EmailProcessor.Mail -> option JsError)
    (job : BullMQ.Job Email.EmailJobData) (w : World) :
  let r := EmailProcessor.process resend job w in
  (exists e, fst (fst r) = Throw e)
  /\ (List.length (snd r) <= 1)%nat
  /\ (forall mail,
        snd r = [mail] -> resend mail = None ->
        fst (fst r)
        = Throw (newError
                   "Email sending failed: function Error() { [native code] }"))
  /\ callQueue (snd (fst r)) = callQueue w
  /\ emailQueue (snd (fst r)) = emailQueue w
  /\ schedulerQueue (snd (fst r)) = schedulerQueue w
  /\ callQueueDone (snd (fst r)) = callQueueDone w
  /\ callData (snd (fst r)) = callData w
  /\ history (snd (fst r)) = history w.
Proof.
  intros r. subst r. unfold EmailProcessor.process.
  match goal with
  | |- context [EmailProcessor.send resend job ?w0] =>
      destruct (send_throws resend job w0)
        as (e & w' & mails & Hrun & _ & Hu & Hd & Hc & Hq & He & Hs & Hh
            & Hmails)
  end.
  rewrite Hrun. simpl in *.
  assert (Hframe : forall w2 : World,
            w2 = match Email.filePaths (BullMQ.data job) with
                 | Some ps =>
                     if Email.cleanup (BullMQ.data job)
                     then EmailProcessor.cleanupFiles ps
                            (EmailProcessor.write
                               (LogError,
                                ("❌ Email job "
                                   ++ JS.natToString (BullMQ.id job)
                                   ++ " failed: "
                                   ++ JS.interpolate (message e))%string) w')
                     else EmailProcessor.write
                            (LogError,
                             ("❌ Email job "
                                ++ JS.natToString (BullMQ.id job)
                                ++ " failed: "
                                ++ JS.interpolate (message e))%string) w'
                 | None =>
                     EmailProcessor.write
                       (LogError,
                        ("❌ Email job " ++ JS.natToString (BullMQ.id job)
                           ++ " failed: "
                           ++ JS.interpolate (message e))%string) w'
                 end ->
            callQueue w2 = callQueue w /\ emailQueue w2 = emailQueue w
            /\ schedulerQueue w2 = schedulerQueue w
            /\ callQueueDone w2 = callQueueDone w
            /\ callData w2 = callData w /\ history w2 = history w).
  { intros w2 ->.
    destruct (Email.filePaths (BullMQ.data job)) as [ps|];
      [destruct (Email.cleanup (BullMQ.data job)) |];
      try (simpl; repeat split; assumption).
    match goal with
    | |- context [EmailProcessor.cleanupFiles ps ?w0] =>
        destruct (cleanupFiles_frame ps w0)
          as (_ & F2 & F3 & F4 & F5 & F6 & F7)
    end.
    simpl in *. rewrite F2, F3, F4, F5, F6, F7. repeat split; assumption. }
  split; [now exists e |]. split.
  { destruct Hmails as [-> | (mail & -> & _)]; simpl; lia. }
  split.
  { intros mail Hone Hok.
    destruct Hmails as [-> | (mail' & -> & Hmsg)]; [discriminate |].
    injection Hone as ->. now rewrite (Hmsg Hok). }
  destruct (Hframe _ eq_refl) as (G1 & G2 & G3 & G4 & G5 & G6).
  repeat split; assumption.
Qed.

(** The files after a run of the email processor. *)
Lemma process_leaves_files
    (resend : EmailProcessor.Mail -> option JsError)
    (job : BullMQ.Job Email.EmailJobData) (w : World) :
  let w' := snd (fst (EmailProcessor.process resend job w)) in
  match Email.filePaths (BullMQ.data job) with
  | Some paths =>
      if Email.cleanup (BullMQ.data job) then
        (forall f, In f (uploads w') <->
                   In f (uploads w) /\ ~ In (fst f) paths)
        /\ (forall p, In p paths -> EmailProcessor.existsSync p w' = false)
      else uploads w' = uploads w
  | None => uploads w' = uploads w
  end.
Proof.
  intros w'. subst w'. unfold EmailProcessor.process.
  match goal with
  | |- context [EmailProcessor.send resend job ?w0] =>
      destruct (send_throws resend job w0)
        as (e & w1 & mails & Hrun & Hup & _)
  end.
  rewrite Hrun. simpl in *.
  destruct (Email.filePaths (BullMQ.data job)) as [paths|];
    [destruct (Email.cleanup (BullMQ.data job)) |]; simpl;
    try exact Hup.
  assert (Hfiles : forall f,
            In f (uploads
                    (EmailProcessor.cleanupFiles paths
                       (EmailProcessor.write
                          (LogError,
                           ("❌ Email job " ++ JS.natToString (BullMQ.id job)
                              ++ " failed: "
                              ++ JS.interpolate (message e))%string) w1)))
            <-> In f (uploads w) /\ ~ In (fst f) paths).
  { intros f. rewrite cleanupFiles_uploads. simpl.
    now rewrite Hup. }
  split; [exact Hfiles |].
  intros p Hp. unfold EmailProcessor.existsSync.
  match goal with
  | |- existsb _ ?l = false => destruct (existsb (EmailProcessor.isPath p) l)
                                 eqn:Hex; [| reflexivity]
  end.
  apply existsb_exists in Hex. destruct Hex as (f & Hin & Hpath).
  apply Hfiles in Hin. destruct Hin as [_ Hnot].
  unfold EmailProcessor.isPath in Hpath. apply String.eqb_eq in Hpath.
  exfalso. apply Hnot. now rewrite Hpath.
Qed.

(** X19. After a run of the email processor, whatever its outcome, the
    files the job names are gone when the job is marked for cleanup, and
    every other file is still there; a job not marked for cleanup, or
    without file paths, leaves the files as they are. *)
Theorem email_files_removed_after_run
    (resend : EmailProcessor.Mail -> option JsError)
    (job : BullMQ.Job Email.EmailJobData) (w : World) :
  let w' := snd (fst (EmailProcessor.process resend job w)) in
  match Email.filePaths (BullMQ.data job) with
  | Some paths =>
      if Email.cleanup (BullMQ.data job) then
        (forall f, In f (uploads w') <->
                   In f (uploads w) /\ ~ In (fst f) paths)
        /\ (forall p, In p paths -> EmailProcessor.existsSync p w' = false)
      else uploads w' = uploads w
  | None => uploads w' = uploads w
  end.
Proof. exact (process_leaves_files resend job w). Qed.

(** X20. A job without file paths whose mail is accepted is sent again
    by every attempt: the run throws although the mail went out, the
    broker, under the default job options, schedules a retry, and the
    next run sends the same mail once more. *)
Theorem accepted_mail_is_sent_again
    (resend : EmailProcessor.Mail -> option JsError)
    (job : BullMQ.Job Email.EmailJobData) (w : World) :
  Email.filePaths (BullMQ.data job) = None ->
  (forall mail, resend mail = None) ->
  BullMQ.opts job = Config.defaultJobOptions ->
  let r1 := EmailProcessor.process resend job w in
  let r2 := EmailProcessor.process resend job (snd (fst r1)) in
  exists mail,
    snd r1 = [mail]
    /\ snd r2 = [mail]
    /\ EmailProcessor.to mail = Email.to (BullMQ.data job)
    /\ EmailProcessor.subject mail = Email.subject (BullMQ.data job)
    /\ EmailProcessor.attachments mail = None
    /\ BullMQ.settle (BullMQ.opts job) 1 (fst (fst r1))
       = BullMQ.RetryAfter 5000
    /\ BullMQ.settle (BullMQ.opts job) 2 (fst (fst r2))
       = BullMQ.RetryAfter 10000.
Proof.
  intros Hnone Hok Hopts r1 r2. subst r2 r1.
  unfold EmailProcessor.process, EmailProcessor.send.
  rewrite Hnone, !Hok, Hopts.
  unfold EmailProcessor.globalErrorIsTruthy. simpl.
  eexists. repeat split.
Qed.

Lemma accepted_mail_is_sent_again_witness :
  let job :=
    BullMQ.newJob Config.defaultJobOptions [] "send-email"
      {| Email.type := Email.alert;
         Email.to := ["ops@example.com"];
         Email.subject := Email.HealthAlertSubject;
         Email.html := Email.NoCallsHtml 1700036000000;
         Email.filePaths := None;
         Email.cleanup := false |} BullMQ.noOptions in
  let r1 := EmailProcessor.process Examples2.resendOk job Examples.emptyWorld in
  Email.filePaths (BullMQ.data job) = None
  /\ (forall mail, Examples2.resendOk mail = None)
  /\ BullMQ.opts job = Config.defaultJobOptions
  /\ exists mail,
       snd r1 = [mail]
       /\ snd (EmailProcessor.process Examples2.resendOk job (snd (fst r1)))
          = [mail].
Proof.
  intros job r1.
  assert (Hnone : Email.filePaths (BullMQ.data job) = None) by reflexivity.
  assert (Hok : forall mail, Examples2.resendOk mail = None)
    by (intros mail; reflexivity).
  assert (Hopts : BullMQ.opts job = Config.defaultJobOptions)
    by reflexivity.
  split; [exact Hnone | split; [exact Hok | split; [exact Hopts |]]].
  destruct (accepted_mail_is_sent_again Examples2.resendOk job
              Examples.emptyWorld Hnone Hok Hopts)
    as (mail & H1 & H2 & _).
  exists mail. split; [exact H1 | exact H2].
Defined.

(** X21. A job that names files and is marked for cleanup can send its
    mail on the first attempt only: the first run removes the files
    whatever its outcome, so the run of a retry stops at the first path,
    throws "File not found: <path>" and sends nothing. *)
Theorem retry_after_cleanup_sends_nothing
    (resend : EmailProcessor.Mail -> option JsError)
    (job : BullMQ.Job Email.EmailJobData) (w : World)
    (p : string) (ps : list string) :
  Email.filePaths (BullMQ.data job) = Some (p :: ps) ->
  Email.cleanup (BullMQ.data job) = true ->
  let r1 := EmailProcessor.process resend job w in
  let r2 := EmailProcessor.process resend job (snd (fst r1)) in
  fst (fst r2) = Throw (newError ("File not found: " ++ p))
  /\ snd r2 = []
  /\ uploads (snd (fst r2)) = uploads (snd (fst r1)).
Proof.
  intros Hpaths Hclean r1 r2.
  pose proof (process_leaves_files resend job w) as Hgone.
  cbv zeta in Hgone. fold r1 in Hgone.
  rewrite Hpaths, Hclean in Hgone.
  destruct Hgone as [_ Hgone].
  assert (Hp : EmailProcessor.existsSync p (snd (fst r1)) = false)
    by (apply Hgone; now left).
  assert (Hrun : EmailProcessor.send resend job
                   (EmailProcessor.write
                      (LogInfo,
                       ("📧 Processing "
                          ++ EmailProcessor.typeTag
                               (Email.type (BullMQ.data job))
                          ++ " email job "
                          ++ JS.natToString (BullMQ.id job))%string)
                      (snd (fst r1)))
                 = (Throw (newError ("File not found: " ++ p)),
                    EmailProcessor.write
                      (LogInfo,
                       ("📧 Processing "
                          ++ EmailProcessor.typeTag
                               (Email.type (BullMQ.data job))
                          ++ " email job "
                          ++ JS.natToString (BullMQ.id job))%string)
                      (snd (fst r1)),
                    [])).
  { unfold EmailProcessor.send. rewrite Hpaths.
    cbn [EmailProcessor.readAll]. rewrite existsSync_write, Hp.
    reflexivity. }
  assert (Hr2 : fst (fst r2) = Throw (newError ("File not found: " ++ p))
                /\ snd r2 = []).
  { subst r2. unfold EmailProcessor.process. rewrite Hrun.
    split; reflexivity. }
  destruct Hr2 as [Ho Hm]. split; [exact Ho |]. split; [exact Hm |].
  subst r2. unfold EmailProcessor.process. rewrite Hrun.
  rewrite Hpaths, Hclean. cbn [fst snd].
  rewrite cleanupFiles_nothing_to_remove; [reflexivity |].
  intros q Hq. rewrite !existsSync_write. now apply Hgone.
Qed.

Lemma retry_after_cleanup_sends_nothing_witness :
  let path := ReportGenerator.reportPath "DailyReport_AllCalls" in
  let r1 := EmailProcessor.process Examples2.resendOk
              Examples2.reportEmailJob Examples2.worldWithReport in
  let r2 := EmailProcessor.process Examples2.resendOk
              Examples2.reportEmailJob (snd (fst r1)) in
  Email.filePaths (BullMQ.data Examples2.reportEmailJob) = Some [path]
  /\ Email.cleanup (BullMQ.data Examples2.reportEmailJob) = true
  /\ List.length (snd r1) = 1%nat
  /\ map fst (uploads (snd (fst r1))) = ["uploads/other.xlsx"]
  /\ fst (fst r2) = Throw (newError ("File not found: " ++ path))
  /\ snd r2 = [].
Proof.
  intros path r1 r2.
  assert (Hpaths : Email.filePaths (BullMQ.data Examples2.reportEmailJob)
                   = Some [path]) by reflexivity.
  assert (Hclean : Email.cleanup (BullMQ.data Examples2.reportEmailJob)
                   = true) by reflexivity.
  split; [exact Hpaths | split; [exact Hclean |]].
  split; [reflexivity |]. split; [reflexivity |].
  destruct (retry_after_cleanup_sends_nothing Examples2.resendOk
              Examples2.reportEmailJob Examples2.worldWithReport path []
              Hpaths Hclean) as (Ho & Hm & _).
  split; [exact Ho | exact Hm].
Defined.

(* ================================================================== *)
(** ** The daily report, from the job to the mail *)
(* ================================================================== *)

Section ReportToMail.

Import EmailProcessor.

(** The run of the daily report job when there are calls. *)
Lemma processDailyReport_run
    (job : BullMQ.Job SchedulerJob.SchedulerJobData) (env : Env) (w : World) :
  connectDB env = None ->
  callsToday env w <> [] ->
  exists w',
    snd (SchedulerProcessor.processDailyReport job env w) = w'
    /\ uploads w' = uploads w ++ dailyFiles (callsToday env w)
    /\ emailQueue w' = emailQueue w ++ [dailyEmailJob env w].
Proof.
  intros Hdb Hsome. eexists. split; [reflexivity |].
  remember (SchedulerProcessor.processDailyReport job env w) as r eqn:Hr.
  unfold dailyEmailJob, dailyEmail.
  unfold callsToday in *.
  unfold SchedulerProcessor.processDailyReport in Hr.
  unfold bind at 1 in Hr. unfold awaitConnectDB, await in Hr.
  rewrite Hdb in Hr.
  unfold bind at 1 in Hr. unfold ask in Hr.
  unfold bind at 1 in Hr. unfold get in Hr.
  unfold SchedulerProcessor.getTodayDateRange in Hr. unfold dailyFiles.
  set (data := CallData.aggregate _ _ _ _) in *. clearbody data.
  rewrite (match_nonempty data) in Hr by exact Hsome.
  unfold ReportGenerator.saveToXLSX at 1 in Hr.
  rewrite (match_nonempty data) in Hr by exact Hsome.
  set (successful := filter ReportGenerator.isSuccessfulCall data) in *.
  clearbody successful.
  destruct successful as [|s ss];
    unfold bind, modify, ret, QueueManager.addEmailJob in Hr;
    simpl in Hr; subst r; simpl.
  - split; reflexivity.
  - split; [now rewrite <- app_assoc | reflexivity].
Qed.

Lemma readAll_one (w : World) (before : list FileAttachment)
    (f : FileAttachment) :
  uploads w = before ++ [f] ->
  readAll [fst f] w = inr [f].
Proof.
  intros Hup. unfold readAll, existsSync, readFileSync. rewrite Hup.
  rewrite existsb_app, rev_app_distr. simpl. unfold isPath.
  rewrite String.eqb_refl, orb_true_r. reflexivity.
Qed.

Lemma readAll_two (w : World) (before : list FileAttachment)
    (f g : FileAttachment) :
  uploads w = before ++ [f; g] ->
  String.eqb (fst g) (fst f) = false ->
  readAll [fst f; fst g] w = inr [f; g].
Proof.
  intros Hup Hne. unfold readAll, existsSync, readFileSync. rewrite Hup.
  rewrite !existsb_app, rev_app_distr. simpl. unfold isPath.
  rewrite !String.eqb_refl, Hne, !orb_true_r. simpl. reflexivity.
Qed.

(** X22. The email the daily report job queues, once the email processor
    runs it and the mail is accepted, goes out once, to the report
    recipients, with exactly the files the job wrote as attachments;
    after the run the report files are removed and the files that were
    there before the report are all still there. *)
Theorem daily_report_mail_round_trip
    (resend : Mail -> option JsError)
    (job : BullMQ.Job SchedulerJob.SchedulerJobData) (env : Env) (w : World) :
  connectDB env = None ->
  callsToday env w <> [] ->
  (forall mail, resend mail = None) ->
  (forall f, In f (uploads w) ->
             ~ In (fst f) (map fst (dailyFiles (callsToday env w)))) ->
  let reported := snd (SchedulerProcessor.processDailyReport job env w) in
  let r := process resend (dailyEmailJob env w) reported in
  emailQueue reported = emailQueue w ++ [dailyEmailJob env w]
  /\ (exists mail,
        snd r = [mail]
        /\ to mail = Email.recipients (EMAIL_TO env)
        /\ attachments mail = Some (dailyFiles (callsToday env w)))
  /\ (forall f, In f (uploads (snd (fst r))) <-> In f (uploads w)).
Proof.
  intros Hdb Hsome Hok Hfresh reported r.
  destruct (processDailyReport_run job env w Hdb Hsome)
    as (w' & Hw' & Hup & Hq).
  fold reported in Hw'. subst w'.
  split; [exact Hq |].
  pose proof (process_leaves_files resend (dailyEmailJob env w) reported)
    as Hfiles.
  cbv zeta in Hfiles. fold r in Hfiles.
  change (Email.filePaths (BullMQ.data (dailyEmailJob env w)))
    with (Some (map fst (dailyFiles (callsToday env w)))) in Hfiles.
  change (Email.cleanup (BullMQ.data (dailyEmailJob env w)))
    with true in Hfiles.
  cbv iota in Hfiles. destruct Hfiles as [Hfiles _].
  split.
  - subst r. unfold process, send.
    change (Email.filePaths (BullMQ.data (dailyEmailJob env w)))
      with (Some (map fst (dailyFiles (callsToday env w)))).
    assert (Hread : forall line,
              match map fst (dailyFiles (callsToday env w)) with
              | p :: ps => readAll (p :: ps) (write line reported)
              | [] => inr []
              end = inr (dailyFiles (callsToday env w))).
    { intros line. revert Hup. unfold dailyFiles.
      destruct (filter ReportGenerator.isSuccessfulCall
                  (callsToday env w)) as [|s ss]; intros Hup;
        cbn [map fst]; rewrite readAll_write.
      - exact (readAll_one reported (uploads w) _ Hup).
      - exact (readAll_two reported (uploads w) _ _ Hup eq_refl). }
    cbv beta iota zeta.
    rewrite Hread, Hok. unfold globalErrorIsTruthy. cbn [fst snd].
    eexists. split; [reflexivity |]. split; [reflexivity |].
    cbn [attachments]. unfold dailyFiles. reflexivity.
  - intros f. rewrite Hfiles, Hup, in_app_iff. split.
    + intros [[Hin | Hin] Hnot]; [exact Hin |].
      exfalso. apply Hnot. now apply in_map.
    + intros Hin. split; [now left | now apply Hfresh].
Qed.

Lemma daily_report_mail_round_trip_witness :
  let w := Examples.worldWithCalls Examples.scenarioCalls in
  let reported :=
    snd (SchedulerProcessor.processDailyReport Examples.dailyJob
           Examples.env0 w) in
  connectDB Examples.env0 = None
  /\ callsToday Examples.env0 w <> []
  /\ (forall mail, Examples2.resendOk mail = None)
  /\ List.length (uploads reported) = 2%nat
  /\ forall f,
       In f (uploads
               (snd (fst (process Examples2.resendOk
                            (dailyEmailJob Examples.env0 w) reported))))
       <-> In f (uploads w).
Proof.
  intros w reported.
  assert (Hdb : connectDB Examples.env0 = None) by reflexivity.
  assert (Hsome : callsToday Examples.env0 w <> [])
    by (vm_compute; discriminate).
  assert (Hok : forall mail, Examples2.resendOk mail = None)
    by (intros mail; reflexivity).
  assert (Hfresh : forall f, In f (uploads w) ->
                     ~ In (fst f)
                         (map fst (dailyFiles (callsToday Examples.env0 w))))
    by (intros f []).
  split; [exact Hdb | split; [exact Hsome | split; [exact Hok |]]].
  split; [reflexivity |].
  exact (proj2 (proj2 (daily_report_mail_round_trip Examples2.resendOk
                         Examples.dailyJob _ _ Hdb Hsome Hok Hfresh))).
Defined.

End ReportToMail.

(* ================================================================== *)
(** ** The text of a report cell *)
(* ================================================================== *)

Lemma truncateText_nonempty (t : ReportFormat.Text) (maxLength : nat) :
  t <> [] ->
  ReportFormat.truncateText (Some t) maxLength
  = if Nat.leb (List.length t) maxLength then t
    else firstn maxLength t ++ ReportFormat.ellipsis.
Proof. destruct t; [congruence | reflexivity]. Qed.

(** X23. A truncated text is never longer than the limit plus the three
    full stops of the ellipsis: a text within the limit is returned as it
    is, a longer one is cut to its first [maxLength] units followed by the
    ellipsis, so it is longer than the limit by three units; truncating
    a truncated text again changes nothing. *)
Theorem truncateText_bound (text : ReportFormat.Text) (maxLength : nat) :
  let result := ReportFormat.truncateText (Some text) maxLength in
  (List.length result <= maxLength + 3)%nat
  /\ ((List.length text <= maxLength)%nat -> result = text)
  /\ ((maxLength < List.length text)%nat ->
      result = firstn maxLength text ++ ReportFormat.ellipsis
      /\ List.length result = (maxLength + 3)%nat)
  /\ ReportFormat.truncateText (Some result) maxLength = result
  /\ ReportFormat.truncateText None maxLength = [].
Proof.
  intros result. subst result.
  destruct text as [|u rest].
  { simpl. repeat split; try lia; intros H; simpl in H; lia. }
  assert (Hne : u :: rest <> []) by discriminate.
  revert Hne. generalize (u :: rest). clear u rest. intros t Hne.
  rewrite (truncateText_nonempty t maxLength Hne).
  destruct (Nat.leb_spec (List.length t) maxLength) as [Hle | Hgt].
  - split; [lia |]. split; [reflexivity |]. split; [lia |].
    split; [| reflexivity].
    rewrite (truncateText_nonempty t maxLength Hne).
    destruct (Nat.leb_spec (List.length t) maxLength); [reflexivity | lia].
  - assert (Hlen : List.length (firstn maxLength t ++ ReportFormat.ellipsis)
                   = (maxLength + 3)%nat).
    { rewrite length_app, length_firstn. simpl. lia. }
    split; [lia |]. split; [lia |]. split; [now split |].
    split; [| reflexivity].
    rewrite truncateText_nonempty.
    2:{ intros Hnil. rewrite Hnil in Hlen. simpl in Hlen. lia. }
    destruct (Nat.leb_spec
                (List.length (firstn maxLength t ++ ReportFormat.ellipsis))
                maxLength) as [Hle | _]; [lia |].
    f_equal. rewrite firstn_app, length_firstn.
    replace (maxLength - Nat.min maxLength (List.length t))%nat
      with 0%nat by lia.
    simpl. rewrite app_nil_r, firstn_firstn. f_equal. lia.
Qed.
